(** * Everpower marketing front end: aggregation and refresh layer

    A shallow embedding of the client-side logic of the dashboard
    (payment mapping and aggregation, the debtor chart series, and the
    fetch / mutation handlers of the payment, invoice and user screens;
    then the filters, summary cards, dialogs, exported cells, display
    names, the reset mail and the method and finance series),
    followed by the properties established about it.

    Conventions.
    - A JavaScript [number] is an IEEE-754 binary64 value: Rocq's primitive
      [float].  Arithmetic that has to be reasoned about for every input is
      written once over the interface [Arith] and run at [float]; the
      instance at [Z] is arithmetic without rounding.  Sums of amounts
      are reasoned about at [float]: on whole numbers below [2^53]
      ([Binary64.whole]) binary64 adds and subtracts without rounding.
    - A JavaScript string is a [string] (the ASCII range of the case and
      white-space tables is modelled).  A property that the engine's
      tables would break beyond that range is stated for ASCII strings
      ([JS.isAscii]).
    - A handler is a computation in the small monad [M]: it emits the calls
      it makes ([setX], [fetch], [showToast]) in program order and either
      finishes, throws, or is suspended at an [await] whose reply has not
      arrived.  The reply of the network is an input of the handler. *)

From Stdlib Require Import String Ascii List Bool ZArith NArith Lia.
From Stdlib Require Import Floats.
From Stdlib Require Import Permutation Sorted.
Import ListNotations.

Local Open Scope string_scope.
Local Open Scope list_scope.

(* ===================================================================== *)
(** ** JavaScript built-ins used by the screens *)
(* ===================================================================== *)

Module JS.

(** *** Strings *)

Definition is_upper (c : ascii) : bool :=
  let n := nat_of_ascii c in (65 <=? n)%nat && (n <=? 90)%nat.

Definition is_lower (c : ascii) : bool :=
  let n := nat_of_ascii c in (97 <=? n)%nat && (n <=? 122)%nat.

Definition lower_char (c : ascii) : ascii :=
  if is_upper c then ascii_of_nat (nat_of_ascii c + 32) else c.

Definition upper_char (c : ascii) : ascii :=
  if is_lower c then ascii_of_nat (nat_of_ascii c - 32) else c.

(** [s.toLowerCase()] *)
Fixpoint toLowerCase (s : string) : string :=
  match s with
  | EmptyString => EmptyString
  | String c s' => String (lower_char c) (toLowerCase s')
  end.

(** [s.toUpperCase()] *)
Fixpoint toUpperCase (s : string) : string :=
  match s with
  | EmptyString => EmptyString
  | String c s' => String (upper_char c) (toUpperCase s')
  end.

(** [s.replace(a, b)] with one-character string patterns: only the first
    occurrence is replaced. *)
Fixpoint replace (a b : ascii) (s : string) : string :=
  match s with
  | EmptyString => EmptyString
  | String c s' =>
      if Ascii.eqb c a then String b s' else String c (replace a b s')
  end.

(** [s.includes(sub)] *)
Fixpoint includes (s sub : string) : bool :=
  if String.prefix sub s then true
  else match s with
       | EmptyString => false
       | String _ s' => includes s' sub
       end.

(** [s.split(sep)[0]] for a one-character separator: the part before the
    first separator, the whole string when there is none. *)
Fixpoint split_head (sep : ascii) (s : string) : string :=
  match s with
  | EmptyString => EmptyString
  | String c s' =>
      if Ascii.eqb c sep then EmptyString else String c (split_head sep s')
  end.

(** A string used as a condition: only the empty string is falsy. *)
Definition truthy_string (s : string) : bool :=
  match s with EmptyString => false | _ => true end.

(** [a || b] on strings that may be absent ([undefined] / [null]). *)
Definition or_else (a : option string) (b : string) : string :=
  match a with
  | Some s => if truthy_string s then s else b
  | None => b
  end.

(** *** Numbers printed in a template literal (non-negative integers) *)

Definition digit_char (n : nat) : ascii := ascii_of_nat (48 + n).

Fixpoint nat_to_string_aux (fuel n : nat) (acc : string) : string :=
  match fuel with
  | O => acc
  | S fuel' =>
      let acc' := String (digit_char (n mod 10)) acc in
      match n / 10 with
      | O => acc'
      | q => nat_to_string_aux fuel' q acc'
      end
  end.

Definition nat_to_string (n : nat) : string :=
  nat_to_string_aux (S n) n EmptyString.

(** *** parseFloat *)

(** White space and line terminators of the ASCII range, skipped by
    [parseFloat] before the literal. *)
Definition is_space (c : ascii) : bool :=
  let n := nat_of_ascii c in
  (n =? 32)%nat || ((9 <=? n)%nat && (n <=? 13)%nat).

Definition is_digit (c : ascii) : bool :=
  let n := nat_of_ascii c in (48 <=? n)%nat && (n <=? 57)%nat.

Definition digit_val (c : ascii) : N := N.of_nat (nat_of_ascii c - 48).

Fixpoint trim_start (s : string) : string :=
  match s with
  | String c s' => if is_space c then trim_start s' else s
  | EmptyString => EmptyString
  end.

(** [s.trim()] *)
Fixpoint trim_end (s : string) : string :=
  match s with
  | EmptyString => EmptyString
  | String c s' =>
      match trim_end s' with
      | EmptyString => if is_space c then EmptyString else String c EmptyString
      | r => String c r
      end
  end.

Definition trim (s : string) : string := trim_end (trim_start s).

(** The longest run of decimal digits at the front of [s]: its value
    (continuing from [acc]), how many digits it has, and what follows. *)
Fixpoint digits (s : string) (acc : N) (len : nat) : N * nat * string :=
  match s with
  | String c s' =>
      if is_digit c then digits s' (acc * 10 + digit_val c)%N (S len)
      else (acc, len, s)
  | EmptyString => (acc, len, s)
  end.

(** An optional sign: [true] for a minus. *)
Definition sign (s : string) : bool * string :=
  match s with
  | String "-" s' => (true, s')
  | String "+" s' => (false, s')
  | _ => (false, s)
  end.

(** [ExponentPart]: [e] or [E], an optional sign and at least one digit;
    anything else is not part of the literal and the exponent is 0. *)
Definition exponent (s : string) : Z :=
  match s with
  | String c s' =>
      if Ascii.eqb c "e" || Ascii.eqb c "E" then
        let '(neg, s1) := sign s' in
        let '(v, len, _) := digits s1 0%N 0%nat in
        match len with
        | O => 0%Z
        | _ => if neg then (- Z.of_N v)%Z else Z.of_N v
        end
      else 0%Z
  | EmptyString => 0%Z
  end.

(** The value of a [StrDecimalLiteral] prefix, before rounding. *)
Inductive literal : Type :=
| LitInfinity (neg : bool)
| LitDecimal (neg : bool) (mantissa : N) (exp10 : Z).

(** The longest prefix of the trimmed string that is a
    [StrDecimalLiteral]; [None] when there is none. *)
Definition scan_literal (s : string) : option literal :=
  let '(neg, s1) := sign (trim_start s) in
  if String.prefix "Infinity" s1 then Some (LitInfinity neg)
  else
    let '(ip, ilen, s2) := digits s1 0%N 0%nat in
    match s2 with
    | String "." s3 =>
        let '(m, flen, s4) := digits s3 ip 0%nat in
        match ilen, flen with
        | O, O => None
        | _, _ => Some (LitDecimal neg m (exponent s4 - Z.of_nat flen))
        end
    | _ =>
        match ilen with
        | O => None
        | _ => Some (LitDecimal neg ip (exponent s2))
        end
    end.

Definition NaN : float := PrimFloat.nan.

(** The binary64 value nearest to [(-1)^neg * m * 10^e], ties to even. *)
Definition round_decimal (neg : bool) (m : N) (e : Z) : float :=
  match m with
  | N0 => if neg then PrimFloat.neg_zero else PrimFloat.zero
  | Npos p =>
      match e with
      | Zneg k =>
          SF2Prim (SFdiv prec emax (S754_finite neg p 0)
                         (S754_finite false (Pos.pow 10 k) 0))
      | _ =>
          let n := (Zpos p * Z.pow 10 e)%Z in
          SF2Prim (binary_normalize prec emax (if neg then (- n)%Z else n)
                                    0 false)
      end
  end.

Definition literal_value (l : literal) : float :=
  match l with
  | LitInfinity neg =>
      if neg then PrimFloat.neg_infinity else PrimFloat.infinity
  | LitDecimal neg m e => round_decimal neg m e
  end.

(** [parseFloat(s)] *)
Definition parseFloat (s : string) : float :=
  match scan_literal s with
  | Some l => literal_value l
  | None => NaN
  end.

(** [isNaN(x)] on a number *)
Definition isNaN (x : float) : bool := PrimFloat.is_nan x.

(** The strings made of ASCII characters only (code units below 128).
    On these the tables above ([lower_char], [upper_char], [is_space])
    are the tables of the engine; beyond them the engine also maps
    letters such as U+00DF and strips white space such as U+00A0, which
    the tables here do not. *)
Definition is_ascii (c : ascii) : bool :=
  match c with
  | Ascii _ _ _ _ _ _ _ b7 => negb b7
  end.

Fixpoint isAscii (s : string) : bool :=
  match s with
  | EmptyString => true
  | String c s' => is_ascii c && isAscii s'
  end.

End JS.

(* ===================================================================== *)
(** ** Arithmetic of amounts *)
(* ===================================================================== *)

(** The operations the aggregations use on numbers: [0], [a + b], [a - b],
    the test [x > 0] and the truthiness of a number ([x || 0]). *)
Class Arith (N : Type) : Type := {
  zero : N;
  plus : N -> N -> N;
  minus : N -> N -> N;
  gt0 : N -> bool;
  truthy : N -> bool
}.

(** JavaScript numbers. [0], [-0] and [NaN] are the falsy numbers. *)
#[export] Instance float_Arith : Arith float := {|
  zero := PrimFloat.zero;
  plus := PrimFloat.add;
  minus := PrimFloat.sub;
  gt0 := fun x => PrimFloat.ltb PrimFloat.zero x;
  truthy := fun x => negb (PrimFloat.eqb x PrimFloat.zero || PrimFloat.is_nan x)
|}.

(** Exact integer amounts: the arithmetic without rounding. *)
#[export] Instance Z_Arith : Arith Z := {|
  zero := 0%Z;
  plus := Z.add;
  minus := Z.sub;
  gt0 := fun x => (0 <? x)%Z;
  truthy := fun x => negb (x =? 0)%Z
|}.

(* ===================================================================== *)
(** ** Data model (types.ts) *)
(* ===================================================================== *)

(** A record of the payments endpoint. [other] holds the properties of the
    JSON object that [ApiPayment] does not declare. *)
Module ApiPayment.
Record t : Type := mk {
  id : string;
  year : float;
  series : float;
  invoice_id : string;
  client_email : string;
  amount : string;
  method : string;
  status : string;
  date : string;
  created_at : string;
  updated_at : string;
  other : list (string * string)
}.
End ApiPayment.

(** The payment of the view. [status] is declared as one of four literals
    but holds whatever the mapping casts into it. *)
Module Payment.
Record t {N : Type} : Type := mk {
  id : string;
  transactionId : string;
  invoiceNumber : string;
  clientName : string;
  amount : N;
  paymentMethod : string;
  status : string;
  paidAt : string;
  reference : string
}.
Arguments t : clear implicits.
Arguments mk {N}.
End Payment.

Module TopDebtor.
Record t {N : Type} : Type := mk {
  clientEmail : string;
  overdueInvoiceCount : N;
  outstanding : N
}.
Arguments t : clear implicits.
Arguments mk {N}.
End TopDebtor.

Module PaymentReceived.
Record t {N : Type} : Type := mk {
  today : N;
  thisWeek : N;
  thisMonth : N
}.
Arguments t : clear implicits.
Arguments mk {N}.
End PaymentReceived.

Module DashboardStats.
Record t {N : Type} : Type := mk {
  totalPendingPayments : N;
  totalCompletedPayments : N;
  totalOutstanding : N;
  paymentsThisMonth : N;
  totalActiveInvoices : N;
  paymentSuccessRate : N;
  paymentReceived : PaymentReceived.t N;
  topDebtors : list (TopDebtor.t N)
}.
Arguments t : clear implicits.
Arguments mk {N}.
End DashboardStats.

(* ===================================================================== *)
(** ** Payments: mapping, filter and summary cards (PaymentManagement.tsx) *)
(* ===================================================================== *)

Module PaymentView.

Section Mapping.

(** [new Date(s).toLocaleDateString()]: depends on the locale and the
    time zone of the browser. *)
Variable toLocaleDateString : string -> string.

(** The callback of [result.data.map] in [fetchPayments]. *)
Definition mapPayment (item : ApiPayment.t) : Payment.t float :=
  {| Payment.id := ApiPayment.id item;
     Payment.transactionId := ApiPayment.id item;
     Payment.invoiceNumber := ApiPayment.invoice_id item;
     Payment.clientName := ApiPayment.client_email item;
     Payment.amount := JS.parseFloat (ApiPayment.amount item);
     Payment.paymentMethod :=
       JS.replace "_" " " (JS.toLowerCase (ApiPayment.method item));
     Payment.status := JS.toLowerCase (ApiPayment.status item);
     Payment.paidAt := toLocaleDateString (ApiPayment.date item);
     Payment.reference := "" |}.

End Mapping.

(** [selectedPayment.reference || 'N/A'] of the details dialog. *)
Definition referenceShown {N : Type} (p : Payment.t N) : string :=
  if JS.truthy_string (Payment.reference p) then Payment.reference p
  else "N/A".

Section Aggregation.

Context {N : Type} {A : Arith N}.

Definition matchesSearch (searchTerm : string) (payment : Payment.t N)
  : bool :=
  JS.includes (JS.toLowerCase (Payment.clientName payment))
              (JS.toLowerCase searchTerm)
  || JS.includes (JS.toLowerCase (Payment.transactionId payment))
                 (JS.toLowerCase searchTerm)
  || JS.includes (JS.toLowerCase (Payment.invoiceNumber payment))
                 (JS.toLowerCase searchTerm).

Definition matchesStatus (statusFilter : string) (payment : Payment.t N)
  : bool :=
  String.eqb statusFilter "all"
  || String.eqb (Payment.status payment) statusFilter.

Definition matchesMethod (methodFilter : string) (payment : Payment.t N)
  : bool :=
  String.eqb methodFilter "all"
  || String.eqb (JS.replace " " "_" (Payment.paymentMethod payment))
                (JS.replace " " "_" methodFilter).

Definition filteredPayments (payments : list (Payment.t N))
           (searchTerm statusFilter methodFilter : string)
  : list (Payment.t N) :=
  filter (fun payment =>
            matchesSearch searchTerm payment
            && matchesStatus statusFilter payment
            && matchesMethod methodFilter payment)
         payments.

(** [l.reduce((sum, payment) => sum + payment.amount, 0)] *)
Definition sumAmounts (l : list (Payment.t N)) : N :=
  fold_left (fun sum payment => plus sum (Payment.amount payment)) l zero.

Definition totalAmount (filtered : list (Payment.t N)) : N :=
  sumAmounts filtered.

Definition completedAmount (filtered : list (Payment.t N)) : N :=
  sumAmounts
    (filter (fun payment => String.eqb (Payment.status payment) "completed")
            filtered).

Definition pendingAmount (filtered : list (Payment.t N)) : N :=
  sumAmounts
    (filter (fun payment => String.eqb (Payment.status payment) "pending")
            filtered).

(** The pattern of [completedAmount] and [pendingAmount] at any
    status. *)
Definition amountByStatus (s : string) (filtered : list (Payment.t N))
  : N :=
  sumAmounts
    (filter (fun payment => String.eqb (Payment.status payment) s)
            filtered).

(** The statuses a payment is declared to have. *)
Definition statuses : list string :=
  ["completed"; "pending"; "failed"; "refunded"].

(** The sum of the per-status amounts over the four statuses, added in
    the order they are listed. *)
Definition sumOverStatuses (filtered : list (Payment.t N)) : N :=
  fold_left (fun acc s => plus acc (amountByStatus s filtered))
            statuses zero.

Definition knownStatus (payment : Payment.t N) : bool :=
  existsb (String.eqb (Payment.status payment)) statuses.

End Aggregation.

End PaymentView.

(* ===================================================================== *)
(** ** Dashboard: the outstanding-by-debtor chart series *)
(* ===================================================================== *)

Module Dashboard.

Record ChartEntry {N : Type} : Type := mkEntry {
  name : string;
  value : N
}.
Arguments ChartEntry : clear implicits.
Arguments mkEntry {N}.

Section Outstanding.

Context {N : Type} {A : Arith N}.

(** The comparator [(a, b) => b.outstanding - a.outstanding]. *)
Definition byOutstandingDesc (a b : TopDebtor.t N) : N :=
  minus (TopDebtor.outstanding b) (TopDebtor.outstanding a).

(** [Array.prototype.sort] is stable: [x], which stands before every
    element of [l], moves behind [y] only when the comparator is
    positive at [(x, y)]; a [NaN] comparison counts as equal. *)
Fixpoint insert (cmp : TopDebtor.t N -> TopDebtor.t N -> N)
         (x : TopDebtor.t N) (l : list (TopDebtor.t N))
  : list (TopDebtor.t N) :=
  match l with
  | [] => [x]
  | y :: l' =>
      if gt0 (cmp x y) then y :: insert cmp x l' else x :: y :: l'
  end.

Definition sort (cmp : TopDebtor.t N -> TopDebtor.t N -> N)
           (l : list (TopDebtor.t N)) : list (TopDebtor.t N) :=
  fold_right (insert cmp) [] l.

Definition topN : nat := 4.

Definition entryOf (d : TopDebtor.t N) : ChartEntry N :=
  {| name := JS.split_head "@" (TopDebtor.clientEmail d);
     value := TopDebtor.outstanding d |}.

(** [x || 0] *)
Definition orZero (x : N) : N := if truthy x then x else zero.

Definition sumValues (l : list (ChartEntry N)) : N :=
  fold_left (fun acc cur => plus acc (value cur)) l zero.

(** The [useMemo] body of [outstandingData]; [None] is the state before
    the statistics have arrived. *)
Definition outstandingData (dashboardStats : option (DashboardStats.t N))
  : list (ChartEntry N) :=
  match dashboardStats with
  | None => []
  | Some stats =>
      match DashboardStats.topDebtors stats with
      | [] => []
      | _ :: _ =>
          let sorted := sort byOutstandingDesc
                             (DashboardStats.topDebtors stats) in
          let top := map entryOf (firstn topN sorted) in
          let totalOutstanding :=
            orZero (DashboardStats.totalOutstanding stats) in
          let topSum := sumValues top in
          let balanceOutstanding := minus totalOutstanding topSum in
          if gt0 balanceOutstanding
          then top ++ [ {| name := "Others";
                           value := balanceOutstanding |} ]
          else top
      end
  end.

(** The series in the words of the specification: the [n] largest
    debtors by outstanding, descending, followed by an "Others" entry
    holding the total less their sum when that is strictly positive. *)
Definition specTopNPlusOthers (n : nat) (debtors : list (TopDebtor.t N))
           (total : N) : list (ChartEntry N) :=
  let top := map entryOf (firstn n (sort byOutstandingDesc debtors)) in
  let residual := minus total (sumValues top) in
  if gt0 residual
  then top ++ [ {| name := "Others"; value := residual |} ]
  else top.

(** [a] may stand before [b]: the comparator does not ask for [b] first
    ([b] is not the larger of the two). *)
Definition mayPrecede (a b : TopDebtor.t N) : bool :=
  negb (gt0 (byOutstandingDesc a b)).

Definition notBelow (a b : TopDebtor.t N) : Prop := mayPrecede a b = true.

(** The comparator is consistent on the debtors of [l], which is what
    [Array.prototype.sort] asks of it for the order of the result to be
    defined: of two debtors one may precede the other, and "may precede"
    is transitive. A [NaN] among the outstanding values breaks it. *)
Definition consistentb (l : list (TopDebtor.t N)) : bool :=
  forallb
    (fun a =>
       forallb
         (fun b =>
            (mayPrecede a b || mayPrecede b a)
            && forallb
                 (fun c =>
                    implb (mayPrecede a b && mayPrecede b c) (mayPrecede a c))
                 l)
         l)
    l.

Definition consistent (l : list (TopDebtor.t N)) : Prop :=
  consistentb l = true.

End Outstanding.

End Dashboard.

(* ===================================================================== *)
(** ** Handlers as effectful computations *)
(* ===================================================================== *)

Module Effects.

(** How a piece of handler code ends: normally, by throwing (the message
    of the error is kept), or suspended at an [await] that has not been
    answered. *)
Inductive Res (A : Type) : Type :=
| Ok (a : A)
| Throw (message : string)
| Await.
Arguments Ok {A}.
Arguments Throw {A}.
Arguments Await {A}.

(** [now]: the calls made, in program order. [later]: the calls made by
    asynchronous functions that were started without [await], once their
    reply arrives, after the caller's own code has run. *)
Record M (E A : Type) : Type := mkM {
  now : list E;
  res : Res A;
  later : list E
}.
Arguments mkM {E A}.
Arguments now {E A}.
Arguments res {E A}.
Arguments later {E A}.

Section Combinators.

Context {E : Type}.

Definition ret {A : Type} (a : A) : M E A := mkM [] (Ok a) [].

Definition bind {A B : Type} (m : M E A) (k : A -> M E B) : M E B :=
  match res m with
  | Ok a =>
      let m' := k a in
      mkM (now m ++ now m') (res m') (later m ++ later m')
  | Throw e => mkM (now m) (Throw e) (later m)
  | Await => mkM (now m) Await (later m)
  end.

Definition emit (e : E) : M E unit := mkM [e] (Ok tt) [].

Definition throw {A : Type} (message : string) : M E A :=
  mkM [] (Throw message) [].

(** [try { m } catch (e) { handler e.message }] *)
Definition tryCatch {A : Type} (m : M E A) (handler : string -> M E A)
  : M E A :=
  match res m with
  | Throw e =>
      let h := handler e in
      mkM (now m ++ now h) (res h) (later m ++ later h)
  | _ => m
  end.

(** [try { m } finally { f }]: [f] runs however [m] ends, but not while
    [m] is still suspended. *)
Definition tryFinally {A : Type} (m : M E A) (f : M E unit) : M E A :=
  match res m with
  | Await => m
  | r =>
      mkM (now m ++ now f)
          (match res f with
           | Ok _ => r
           | Throw e => Throw e
           | Await => Await
           end)
          (later m ++ later f)
  end.

(** An asynchronous function called without [await]: it runs up to its
    first [await] (the run [started]), the caller goes on at once, and
    the rest of its calls (of the run [finished]) come later. An error
    it throws rejects a promise nobody looks at. *)
Definition detached (started finished : M E unit) : M E unit :=
  mkM (now started) (Ok tt)
      (skipn (length (now started)) (now finished) ++ later finished).

(** Every call of a run, in the order they are made. *)
Definition calls {A : Type} (m : M E A) : list E := now m ++ later m.

End Combinators.

Declare Scope handler_scope.
Delimit Scope handler_scope with handler.
Notation "x <- c1 ;; c2" := (bind c1 (fun x => c2))
  (at level 61, c1 at next level, right associativity) : handler_scope.
Notation "c1 ;; c2" := (bind c1 (fun _ => c2))
  (at level 61, right associativity) : handler_scope.

End Effects.

(* ===================================================================== *)
(** ** The remote service as seen through [fetch] *)
(* ===================================================================== *)

Module Net.
Import Effects.

Inductive Method : Type := GET | POST | PATCH | DELETE.

(** A value of a JSON request body. [JSON.stringify] prints a [NaN]
    number as [null]; the number itself is kept here. *)
Inductive Json : Type :=
| JString (s : string)
| JNumber (x : float).

Record Request : Type := mkRequest {
  method : Method;
  url : string;
  headers : list (string * string);
  body : option (list (string * Json))
}.

(** What [response.json()] gives: a rejection (the body is not JSON), or
    an object of which the handlers read [message] and [data]. *)
Inductive Body (D : Type) : Type :=
| NotJson (syntaxError : string)
| JsonObject (message : option string) (data : option D).
Arguments NotJson {D}.
Arguments JsonObject {D}.

(** A response of the Fetch API, with its read-only properties [ok],
    [status] and [statusText] and what reading its body gives. *)
Record Response (D : Type) : Type := mkResponse {
  ok : bool;
  status : nat;
  statusText : string;
  payload : Body D
}.
Arguments mkResponse {D}.
Arguments ok {D}.
Arguments status {D}.
Arguments statusText {D}.
Arguments payload {D}.

(** The Fetch API sets [ok] exactly for the statuses 200 to 299. *)
Definition wellFormed {D : Type} (r : Response D) : Prop :=
  ok r = ((200 <=? status r)%nat && (status r <=? 299)%nat).

(** The reply to one request: none yet, a rejected promise (the request
    could not complete), or a response. *)
Inductive Reply (D : Type) : Type :=
| Pending
| Rejected (message : string)
| Replied (r : Response D).
Arguments Pending {D}.
Arguments Rejected {D}.
Arguments Replied {D}.

(** [`Bearer ${token}`]: an absent token prints as [null]. *)
Definition bearer (token : option string) : string :=
  "Bearer " ++ match token with Some t => t | None => "null" end.

(** [!token] *)
Definition noToken (token : option string) : bool :=
  match token with
  | Some t => negb (JS.truthy_string t)
  | None => true
  end.

Section Fetch.

Context {E : Type}.
(** How the screen records a request among its calls. *)
Variable request : Request -> E.

(** [await fetch(url, init)] *)
Definition fetch {D : Type} (req : Request) (reply : Reply D)
  : M E (Response D) :=
  match reply with
  | Pending => mkM [request req] Await []
  | Rejected e => mkM [request req] (Throw e) []
  | Replied r => mkM [request req] (Ok r) []
  end.

(** [await response.json()] *)
Definition json {D : Type} (r : Response D)
  : M E (option string * option D) :=
  match payload r with
  | NotJson e => throw e
  | JsonObject message data => ret (message, data)
  end.

End Fetch.

End Net.

(* ===================================================================== *)
(** ** The steps of the mutation-refresh protocol *)
(* ===================================================================== *)

Module Protocol.
Import Net.

(** The four side effects the specification names for a mutation that has
    succeeded. Each screen says which of its calls is which step. *)
Inductive Step : Type :=
| CloseModal
| ClearForm
| Refetch
| Notify.


(** The mutation failed: the request did not complete, or it was answered
    with a status outside 200-299. *)
Definition failed (reply : Reply unit) : Prop :=
  (exists e : string, reply = Rejected e)
  \/ (exists r : Response unit, reply = Replied r /\ ok r = false).

Definition isGET (r : Request) : bool :=
  match method r with GET => true | _ => false end.

End Protocol.

(* ===================================================================== *)
(** ** The payment screen (PaymentManagement.tsx) *)
(* ===================================================================== *)

Module PaymentManagement.
Import Effects Net.
Local Open Scope string_scope.
Local Open Scope handler_scope.

Definition Payment : Type := Payment.t float.

(** The form of the "Record Payment" dialog. *)
Record NewPayment : Type := mkNewPayment {
  invoiceId : string;
  clientEmail : string;
  amount : string;
  method : string;
  status : string;
  reference : string;
  date : string
}.

(** The [useState] cells of the component. *)
Record State : Type := mkState {
  payments : list Payment;
  loading : bool;
  error : option string;
  searchTerm : string;
  statusFilter : string;
  methodFilter : string;
  showCreateModal : bool;
  showViewModal : bool;
  showUpdateModal : bool;
  showDeleteModal : bool;
  selectedPayment : option Payment;
  editingPayment : option Payment;
  isSubmitting : bool;
  submitError : option string;
  newPayment : NewPayment
}.

Definition initialState : State :=
  {| payments := [];
     loading := true;
     error := None;
     searchTerm := "";
     statusFilter := "all";
     methodFilter := "all";
     showCreateModal := false;
     showViewModal := false;
     showUpdateModal := false;
     showDeleteModal := false;
     selectedPayment := None;
     editingPayment := None;
     isSubmitting := false;
     submitError := None;
     newPayment := mkNewPayment "" "" "" "CASH" "COMPLETED" "" "" |}.

(** The calls a handler of this screen makes. *)
Inductive Call : Type :=
| setPayments (v : list Payment)
| setLoading (v : bool)
| setError (v : option string)
| setShowCreateModal (v : bool)
| setShowViewModal (v : bool)
| setShowUpdateModal (v : bool)
| setShowDeleteModal (v : bool)
| setSelectedPayment (v : option Payment)
| setEditingPayment (v : option Payment)
| setIsSubmitting (v : bool)
| setSubmitError (v : option string)
| setNewPayment (v : NewPayment)
| request (req : Request).

(** The effect of one call on the state. *)
Definition apply (s : State) (c : Call) : State :=
  match s with
  | mkState p l e st sf mf cm vm um dm sp ep sub se np =>
      match c with
      | setPayments v => mkState v l e st sf mf cm vm um dm sp ep sub se np
      | setLoading v => mkState p v e st sf mf cm vm um dm sp ep sub se np
      | setError v => mkState p l v st sf mf cm vm um dm sp ep sub se np
      | setShowCreateModal v =>
          mkState p l e st sf mf v vm um dm sp ep sub se np
      | setShowViewModal v =>
          mkState p l e st sf mf cm v um dm sp ep sub se np
      | setShowUpdateModal v =>
          mkState p l e st sf mf cm vm v dm sp ep sub se np
      | setShowDeleteModal v =>
          mkState p l e st sf mf cm vm um v sp ep sub se np
      | setSelectedPayment v =>
          mkState p l e st sf mf cm vm um dm v ep sub se np
      | setEditingPayment v =>
          mkState p l e st sf mf cm vm um dm sp v sub se np
      | setIsSubmitting v =>
          mkState p l e st sf mf cm vm um dm sp ep v se np
      | setSubmitError v =>
          mkState p l e st sf mf cm vm um dm sp ep sub v np
      | setNewPayment v =>
          mkState p l e st sf mf cm vm um dm sp ep sub se v
      | request _ => s
      end
  end.

Definition run (cs : list Call) (s : State) : State := fold_left apply cs s.

(** The protocol steps of this screen: hiding a dialog; resetting the form
    or dropping the payment being edited or selected; a [GET] request. The
    screen has no notification. *)
Definition step (c : Call) : option Protocol.Step :=
  match c with
  | setShowCreateModal false | setShowUpdateModal false
  | setShowDeleteModal false => Some Protocol.CloseModal
  | setNewPayment _ | setEditingPayment None | setSelectedPayment None =>
      Some Protocol.ClearForm
  | request r => if Protocol.isGET r then Some Protocol.Refetch else None
  | _ => None
  end.

Definition steps (cs : list Call) : list Protocol.Step :=
  flat_map (fun c => match step c with Some s => [s] | None => [] end) cs.

(** The requests among the calls of a run. *)
Definition requests (cs : list Call) : list Request :=
  flat_map (fun c => match c with request r => [r] | _ => [] end) cs.

(** How many list requests ([GET]) there are among the calls. *)
Definition refetches (cs : list Call) : nat :=
  length (filter Protocol.isGET (requests cs)).

Section Handlers.

(** [import.meta.env.VITE_API_BASE_URL] *)
Variable API_URL : string.
(** [localStorage.getItem] *)
Variable getItem : string -> option string.
(** [new Date(s).toLocaleDateString()] *)
Variable toLocaleDateString : string -> string.
(** [new Date(s).toISOString()]: [None] when the date is invalid and
    the call throws a [RangeError]. *)
Variable toISOString : string -> option string.

Definition jsonHeaders (token : option string) : list (string * string) :=
  [("Content-Type", "application/json"); ("Authorization", bearer token)].

Definition fetchPayments (reply : Reply (list ApiPayment.t))
  : M Call unit :=
  tryFinally
    (tryCatch
       (emit (setLoading true) ;;
        emit (setError None) ;;
        let token := getItem "token" in
        response <- fetch request
                      {| Net.method := GET;
                         url := API_URL ++ "/payments";
                         headers := jsonHeaders token;
                         body := None |} reply ;;
        if negb (ok response) then
          throw ("HTTP error! status: "
                   ++ JS.nat_to_string (Net.status response))
        else
          result <- json response ;;
          match snd result with
          | None =>
              throw "Cannot read properties of undefined (reading 'map')"
          | Some data =>
              let mappedData :=
                map (PaymentView.mapPayment toLocaleDateString) data in
              emit (setPayments mappedData)
          end)
       (fun message => emit (setError (Some message))))
    (emit (setLoading false)).

(** The message of a failed mutation of this screen: that of the rejected
    promise, of the body that is not JSON, or the [message] of the body
    when it has a truthy one. *)
Definition failureMessage (reply : Reply unit) : string :=
  match reply with
  | Pending => ""
  | Rejected e => e
  | Replied r =>
      match payload r with
      | NotJson e => e
      | JsonObject message _ =>
          JS.or_else message "An unknown error occurred."
      end
  end.

(** [if (!response.ok) { ... throw new Error(errorMessage) }] of the
    three mutations. *)
Definition checkMutation (response : Response unit) : M Call unit :=
  if negb (ok response) then
    errorData <- json response ;;
    throw (JS.or_else (fst errorData) "An unknown error occurred.")
  else ret tt.

Definition handleCreatePayment (st : State)
           (reply : Reply unit) (listReply : Reply (list ApiPayment.t))
  : M Call unit :=
  emit (setIsSubmitting true) ;;
  emit (setSubmitError None) ;;
  formattedPaymentDate <-
    match toISOString (date (newPayment st)) with
    | Some d => ret d
    | None => throw "Invalid time value"
    end ;;
  let payload :=
    [("invoiceId", JString (invoiceId (newPayment st)));
     ("amount", JNumber (JS.parseFloat (amount (newPayment st))));
     ("method", JString (method (newPayment st)));
     ("status", JString (status (newPayment st)));
     ("date", JString formattedPaymentDate);
     ("clientEmail", JString (clientEmail (newPayment st)));
     ("reference", JString (reference (newPayment st)))] in
  let token := getItem "token" in
  tryFinally
    (tryCatch
       (response <- fetch request
                      {| Net.method := POST;
                         url := API_URL ++ "/payments";
                         headers := jsonHeaders token;
                         body := Some payload |} reply ;;
        checkMutation response ;;
        emit (setShowCreateModal false) ;;
        emit (setNewPayment
                (mkNewPayment "" "" "" "BANK_TRANSFER" "COMPLETED" "" "")) ;;
        fetchPayments listReply)
       (fun message => emit (setSubmitError (Some message))))
    (emit (setIsSubmitting false)).

Definition handleUpdatePayment (st : State)
           (reply : Reply unit) (listReply : Reply (list ApiPayment.t))
  : M Call unit :=
  match editingPayment st with
  | None => ret tt
  | Some editing =>
      emit (setIsSubmitting true) ;;
      emit (setSubmitError None) ;;
      let payload :=
        [("status", JString (JS.toUpperCase (Payment.status editing)));
         ("reference", JString (Payment.reference editing))] in
      let token := getItem "token" in
      tryFinally
        (tryCatch
           (response <- fetch request
                          {| Net.method := PATCH;
                             url := API_URL ++ "/payments/"
                                            ++ Payment.id editing;
                             headers := jsonHeaders token;
                             body := Some payload |} reply ;;
            checkMutation response ;;
            emit (setShowUpdateModal false) ;;
            emit (setEditingPayment None) ;;
            fetchPayments listReply)
           (fun message => emit (setSubmitError (Some message))))
        (emit (setIsSubmitting false))
  end.

Definition handleDeletePayment (st : State)
           (reply : Reply unit) (listReply : Reply (list ApiPayment.t))
  : M Call unit :=
  match selectedPayment st with
  | None => ret tt
  | Some selected =>
      emit (setIsSubmitting true) ;;
      emit (setSubmitError None) ;;
      let token := getItem "token" in
      tryFinally
        (tryCatch
           (response <- fetch request
                          {| Net.method := DELETE;
                             url := API_URL ++ "/payments/"
                                            ++ Payment.id selected;
                             headers := jsonHeaders token;
                             body := None |} reply ;;
            checkMutation response ;;
            emit (setShowDeleteModal false) ;;
            emit (setSelectedPayment None) ;;
            fetchPayments listReply)
           (fun message => emit (setSubmitError (Some message))))
        (emit (setIsSubmitting false))
  end.

(** A click on a button that is rendered only while [shown] and carries
    [disabled]: a button that is not there or is disabled runs
    nothing. *)
Definition click (shown disabled : bool) (handler : M Call unit)
  : M Call unit :=
  if shown && negb disabled then handler else ret tt.

(** The submit buttons of the three dialogs. *)
Definition clickRecordPayment (st : State)
           (reply : Reply unit) (listReply : Reply (list ApiPayment.t))
  : M Call unit :=
  click (showCreateModal st) (isSubmitting st)
        (handleCreatePayment st reply listReply).

Definition clickUpdatePayment (st : State)
           (reply : Reply unit) (listReply : Reply (list ApiPayment.t))
  : M Call unit :=
  click (showUpdateModal st
         && match editingPayment st with Some _ => true | None => false end)
        (isSubmitting st)
        (handleUpdatePayment st reply listReply).

Definition clickDeletePayment (st : State)
           (reply : Reply unit) (listReply : Reply (list ApiPayment.t))
  : M Call unit :=
  click (showDeleteModal st
         && match selectedPayment st with Some _ => true | None => false end)
        (isSubmitting st)
        (handleDeletePayment st reply listReply).

End Handlers.

End PaymentManagement.

(* ===================================================================== *)
(** ** The invoice screen (InvoiceManagement.tsx) *)
(* ===================================================================== *)

Module Invoice.
Record t : Type := mk {
  id : string;
  year : float;
  series : float;
  client_email : string;
  client_phone : string;
  amount : string;
  status : string;
  date : string;
  due_date : string;
  description : option string;
  stripe_pdf_url : string;
  stripe_hosted_url : option string;
  over_due : string;
  customer_id : option float;
  created_at : string;
  updated_at : string
}.
End Invoice.

Module InvoiceManagement.
Import Effects Net.
Local Open Scope string_scope.
Local Open Scope handler_scope.

(** The [useState] cells of the [InvoiceModal] component. *)
Record ModalState : Type := mkModal {
  clientEmail : string;
  clientPhone : string;
  amount : string;
  dueDate : string;
  description : string;
  modalLoading : bool;
  modalError : option string
}.

(** The initial cells of a dialog mounted with [initialInvoice]. *)
Definition mountModal (initialInvoice : option Invoice.t) : ModalState :=
  {| clientEmail :=
       JS.or_else (option_map Invoice.client_email initialInvoice) "";
     clientPhone :=
       JS.or_else (option_map Invoice.client_phone initialInvoice) "";
     amount := JS.or_else (option_map Invoice.amount initialInvoice) "";
     dueDate :=
       match initialInvoice with
       | Some i => JS.split_head "T" (Invoice.due_date i)
       | None => ""
       end;
     description :=
       match initialInvoice with
       | Some i => JS.or_else (Invoice.description i) ""
       | None => ""
       end;
     modalLoading := false;
     modalError := None |}.

Inductive ToastType : Type := success | error_toast | deletion.

(** The cells of [InvoiceManagement], and those of the dialog while it is
    mounted, that is while [showModal] holds. [invoices] is [None] when a
    reply without a [data] property has been stored. [confirmAction] is
    the invoice captured by the stored closure. *)
Record State : Type := mkState {
  invoices : option (list Invoice.t);
  searchTerm : string;
  statusFilter : string;
  showModal : bool;
  editingInvoice : option Invoice.t;
  viewingInvoice : option Invoice.t;
  showConfirmModal : bool;
  confirmAction : option Invoice.t;
  loading : bool;
  error : option string;
  toastMessage : option string;
  toastType : ToastType;
  modal : option ModalState
}.

Definition initialState : State :=
  {| invoices := Some [];
     searchTerm := "";
     statusFilter := "all";
     showModal := false;
     editingInvoice := None;
     viewingInvoice := None;
     showConfirmModal := false;
     confirmAction := None;
     loading := true;
     error := None;
     toastMessage := None;
     toastType := success;
     modal := None |}.

Inductive Call : Type :=
| setInvoices (v : option (list Invoice.t))
| setShowModal (v : bool)
| setEditingInvoice (v : option Invoice.t)
| setViewingInvoice (v : option Invoice.t)
| setShowConfirmModal (v : bool)
| setConfirmAction (v : option Invoice.t)
| setLoading (v : bool)
| setError (v : option string)
| setToastMessage (v : option string)
| setToastType (v : ToastType)
| modalSetLoading (v : bool)
| modalSetError (v : option string)
| consoleLog (text : string)
| consoleError (text : string)
| request (req : Request).

Definition onModal (f : ModalState -> ModalState) (m : option ModalState)
  : option ModalState := option_map f m.

(** The effect of one call. Showing the dialog mounts it with the invoice
    being edited; hiding it unmounts it and its cells are gone; a setter
    of an unmounted dialog does nothing. *)
Definition apply (s : State) (c : Call) : State :=
  match s with
  | mkState inv st sf sm ei vi sc ca l e tm ty md =>
      match c with
      | setInvoices v => mkState v st sf sm ei vi sc ca l e tm ty md
      | setShowModal v =>
          mkState inv st sf v ei vi sc ca l e tm ty
                  (if v
                   then match md with
                        | Some m => Some m
                        | None => Some (mountModal ei)
                        end
                   else None)
      | setEditingInvoice v => mkState inv st sf sm v vi sc ca l e tm ty md
      | setViewingInvoice v => mkState inv st sf sm ei v sc ca l e tm ty md
      | setShowConfirmModal v => mkState inv st sf sm ei vi v ca l e tm ty md
      | setConfirmAction v => mkState inv st sf sm ei vi sc v l e tm ty md
      | setLoading v => mkState inv st sf sm ei vi sc ca v e tm ty md
      | setError v => mkState inv st sf sm ei vi sc ca l v tm ty md
      | setToastMessage v => mkState inv st sf sm ei vi sc ca l e v ty md
      | setToastType v => mkState inv st sf sm ei vi sc ca l e tm v md
      | modalSetLoading v =>
          mkState inv st sf sm ei vi sc ca l e tm ty
                  (onModal (fun m =>
                              mkModal (clientEmail m) (clientPhone m)
                                      (amount m) (dueDate m) (description m)
                                      v (modalError m)) md)
      | modalSetError v =>
          mkState inv st sf sm ei vi sc ca l e tm ty
                  (onModal (fun m =>
                              mkModal (clientEmail m) (clientPhone m)
                                      (amount m) (dueDate m) (description m)
                                      (modalLoading m) v) md)
      | consoleLog _ | consoleError _ | request _ => s
      end
  end.

Definition run (cs : list Call) (s : State) : State := fold_left apply cs s.

Definition requests (cs : list Call) : list Request :=
  flat_map (fun c => match c with request r => [r] | _ => [] end) cs.

(** The protocol steps of this screen: hiding the dialog or the
    confirmation; dropping the invoice being edited (the cells of the form
    go with the dialog); a [GET] request; a toast. *)
Definition step (c : Call) : option Protocol.Step :=
  match c with
  | setShowModal false | setShowConfirmModal false => Some Protocol.CloseModal
  | setEditingInvoice None => Some Protocol.ClearForm
  | request r => if Protocol.isGET r then Some Protocol.Refetch else None
  | setToastMessage (Some _) => Some Protocol.Notify
  | _ => None
  end.

Definition steps (cs : list Call) : list Protocol.Step :=
  flat_map (fun c => match step c with Some s => [s] | None => [] end) cs.

(** How many list requests ([GET]) there are among the calls. *)
Definition refetches (cs : list Call) : nat :=
  length (filter Protocol.isGET (requests cs)).

(** The three checks of the form before anything is sent. *)
Definition validForm (m : ModalState) : bool :=
  JS.truthy_string (JS.trim (clientEmail m))
  && negb (String.eqb (JS.trim (amount m)) ""
           || JS.isNaN (JS.parseFloat (amount m)))
  && JS.truthy_string (JS.trim (dueDate m)).

(** The message thrown for a response that is not [ok]: the [message] of
    the body when it has a truthy one, a fixed text otherwise, and the
    status text when the body is not JSON. *)
Definition saveErrorMessage (verb : string) (response : Response unit)
  : string :=
  match payload response with
  | NotJson _ =>
      "Failed to " ++ verb ++ " invoice: " ++ statusText response
  | JsonObject message _ =>
      JS.or_else message ("Failed to " ++ verb ++ " invoice.")
  end.

(** The message of a failed save. *)
Definition failureMessage (verb : string) (reply : Reply unit) : string :=
  match reply with
  | Pending => ""
  | Rejected e => e
  | Replied r => saveErrorMessage verb r
  end.

Section Handlers.

Variable API_URL : string.
Variable getItem : string -> option string.
(** [new Date(s).toISOString()]; [None] when it throws. *)
Variable toISOString : string -> option string.
(** [new Date().toISOString()], the time of the click. *)
Variable nowISOString : string.

Definition showToast (message : string) (type : ToastType)
  : M Call unit :=
  emit (setToastMessage (Some message)) ;;
  emit (setToastType type).

Definition fetchInvoices (reply : Reply (list Invoice.t)) : M Call unit :=
  tryFinally
    (tryCatch
       (emit (setLoading true) ;;
        emit (setError None) ;;
        let token := getItem "token" in
        if noToken token then throw "No authentication token found."
        else
          response <- fetch request
                        {| Net.method := GET;
                           url := API_URL ++ "/invoices";
                           headers :=
                             [("Content-Type", "application/json");
                              ("Authorization", bearer token)];
                           body := None |} reply ;;
          if (Net.status response =? 304)%nat then
            emit (consoleLog "Data not modified, using cached version.")
          else if negb (ok response) then
            throw "Failed to fetch invoices."
          else
            result <- json response ;;
            emit (setInvoices (snd result)))
       (fun message =>
          emit (setError (Some message)) ;;
          showToast "Failed to fetch invoices." error_toast))
    (emit (setLoading false)).

Definition handleCreateClick : M Call unit :=
  emit (setEditingInvoice None) ;;
  emit (setShowModal true).

Definition handleEditClick (invoice : Invoice.t) : M Call unit :=
  emit (setEditingInvoice (Some invoice)) ;;
  emit (setShowModal true).

Definition handleModalClose : M Call unit :=
  emit (setShowModal false) ;;
  emit (setEditingInvoice None).

Definition handleInvoiceSaved (message : string)
           (listReply : Reply (list Invoice.t)) : M Call unit :=
  detached (fetchInvoices Pending) (fetchInvoices listReply) ;;
  showToast message success.

(** The closure stored by [handleDeleteClick (invoice)]. *)
Definition deleteInvoice (invoice : Invoice.t)
           (reply : Reply unit) (listReply : Reply (list Invoice.t))
  : M Call unit :=
  tryCatch
    (let token := getItem "token" in
     if noToken token then throw "Authentication token not found."
     else
       response <- fetch request
                     {| Net.method := DELETE;
                        url := API_URL ++ "/invoices/" ++ Invoice.id invoice;
                        headers := [("Authorization", bearer token)];
                        body := None |} reply ;;
       if negb (ok response) then throw "Failed to delete invoice."
       else
         emit (consoleLog "Invoice deleted successfully.") ;;
         detached (fetchInvoices Pending) (fetchInvoices listReply) ;;
         emit (setShowConfirmModal false) ;;
         showToast "Invoice deleted successfully!" deletion)
    (fun message =>
       emit (consoleError "Delete API Error:") ;;
       emit (setError (Some message)) ;;
       emit (setShowConfirmModal false) ;;
       showToast "Failed to delete invoice." error_toast).

Definition handleDeleteClick (invoice : Invoice.t) : M Call unit :=
  emit (setShowConfirmModal true) ;;
  emit (setConfirmAction (Some invoice)).

(** [handleSaveInvoice] of the dialog [m] mounted with
    [initialInvoice]. *)
Definition handleSaveInvoice (m : ModalState)
           (initialInvoice : option Invoice.t)
           (reply : Reply unit) (listReply : Reply (list Invoice.t))
  : M Call unit :=
  emit (modalSetLoading true) ;;
  emit (modalSetError None) ;;
  if negb (JS.truthy_string (JS.trim (clientEmail m))) then
    emit (modalSetError (Some "Client email is required.")) ;;
    emit (modalSetLoading false)
  else if String.eqb (JS.trim (amount m)) ""
          || JS.isNaN (JS.parseFloat (amount m)) then
    emit (modalSetError (Some "A valid amount is required.")) ;;
    emit (modalSetLoading false)
  else if negb (JS.truthy_string (JS.trim (dueDate m))) then
    emit (modalSetError (Some "Due date is required.")) ;;
    emit (modalSetLoading false)
  else
    let token := getItem "token" in
    if noToken token then
      emit (modalSetError (Some "Authentication token not found.")) ;;
      emit (modalSetLoading false)
    else
      formattedDueDate <-
        match toISOString (dueDate m) with
        | Some d => ret d
        | None => throw "Invalid time value"
        end ;;
      let invoiceData :=
        [("clientEmail", JString (clientEmail m));
         ("clientPhone", JString (clientPhone m));
         ("amount", JNumber (JS.parseFloat (amount m)));
         ("status", JString match initialInvoice with
                            | Some i => Invoice.status i
                            | None => "PENDING"
                            end);
         ("description", JString (description m));
         ("date", JString nowISOString);
         ("dueDate", JString formattedDueDate)] in
      let verb := match initialInvoice with
                  | Some _ => "update"
                  | None => "create"
                  end in
      tryFinally
        (tryCatch
           (response <- fetch request
                          {| Net.method :=
                               match initialInvoice with
                               | Some _ => PATCH
                               | None => POST
                               end;
                             url :=
                               match initialInvoice with
                               | Some i =>
                                   API_URL ++ "/invoices/" ++ Invoice.id i
                               | None => API_URL ++ "/invoices"
                               end;
                             headers :=
                               [("Content-Type", "application/json");
                                ("Authorization", bearer token)];
                             body := Some invoiceData |} reply ;;
            (if negb (ok response) then
               throw match payload response with
                     | NotJson _ =>
                         "Failed to " ++ verb ++ " invoice: "
                                      ++ statusText response
                     | JsonObject message _ =>
                         JS.or_else message
                                    ("Failed to " ++ verb ++ " invoice.")
                     end
             else ret tt) ;;
            let message :=
              "Invoice " ++ match initialInvoice with
                            | Some _ => "updated"
                            | None => "created"
                            end ++ " successfully!" in
            handleInvoiceSaved message listReply ;;
            handleModalClose)
           (fun message =>
              emit (consoleError "API Error:") ;;
              emit (modalSetError (Some message))))
        (emit (modalSetLoading false)).

Definition click (shown disabled : bool) (handler : M Call unit)
  : M Call unit :=
  if shown && negb disabled then handler else ret tt.

(** The "Create Invoice" / "Save Changes" button of the dialog,
    [disabled={loading}]. *)
Definition clickSaveInvoice (st : State)
           (reply : Reply unit) (listReply : Reply (list Invoice.t))
  : M Call unit :=
  match modal st with
  | Some m =>
      click (showModal st) (modalLoading m)
            (handleSaveInvoice m (editingInvoice st) reply listReply)
  | None => ret tt
  end.

(** The "Delete" button of [ConfirmationModal]: [onConfirm] is the
    stored closure; the button has no [disabled]. *)
Definition clickConfirmDelete (st : State)
           (reply : Reply unit) (listReply : Reply (list Invoice.t))
  : M Call unit :=
  click (showConfirmModal st) false
        match confirmAction st with
        | Some invoice => deleteInvoice invoice reply listReply
        | None => ret tt
        end.

End Handlers.

End InvoiceManagement.

(* ===================================================================== *)
(** ** The user screen (UserManagement.tsx) *)
(* ===================================================================== *)

Module User.
Record t : Type := mk {
  id : nat;
  email : string;
  name : string;
  role : string;
  created_at : string;
  updated_at : string
}.
End User.

Module UserManagement.
Import Effects Net.
Local Open Scope string_scope.
Local Open Scope handler_scope.

(** The cells the list fetch and the three mutations read or write (the
    cells of the password toggle, the mail action, the role filter, the
    details dialog and the export are independent of them). [users] is
    [None] when a reply without a [data] property has been stored. *)
Record State : Type := mkState {
  users : option (list User.t);
  isLoading : bool;
  error : option string;
  newUserName : string;
  newUserEmail : string;
  newUserPassword : string;
  newUserRole : string;
  isAddingUser : bool;
  addUserError : option string;
  showEditModal : bool;
  editingUser : option User.t;
  editUserName : string;
  editUserEmail : string;
  editUserRole : string;
  editUserPassword : string;
  isUpdatingUser : bool;
  updateUserError : option string;
  showDeleteModal : bool;
  userToDelete : option User.t;
  isDeleting : bool;
  deleteError : option string;
  searchTerm : string;
  showCreateModal : bool
}.

Definition initialState : State :=
  {| users := Some [];
     isLoading := true;
     error := None;
     newUserName := "";
     newUserEmail := "";
     newUserPassword := "";
     newUserRole := "accountant";
     isAddingUser := false;
     addUserError := None;
     showEditModal := false;
     editingUser := None;
     editUserName := "";
     editUserEmail := "";
     editUserRole := "accountant";
     editUserPassword := "";
     isUpdatingUser := false;
     updateUserError := None;
     showDeleteModal := false;
     userToDelete := None;
     isDeleting := false;
     deleteError := None;
     searchTerm := "";
     showCreateModal := false |}.

Inductive Call : Type :=
| setUsers (v : option (list User.t))
| setIsLoading (v : bool)
| setError (v : option string)
| setNewUserName (v : string)
| setNewUserEmail (v : string)
| setNewUserPassword (v : string)
| setNewUserRole (v : string)
| setIsAddingUser (v : bool)
| setAddUserError (v : option string)
| setShowEditModal (v : bool)
| setEditingUser (v : option User.t)
| setEditUserName (v : string)
| setEditUserEmail (v : string)
| setEditUserRole (v : string)
| setEditUserPassword (v : string)
| setIsUpdatingUser (v : bool)
| setUpdateUserError (v : option string)
| setShowDeleteModal (v : bool)
| setUserToDelete (v : option User.t)
| setIsDeleting (v : bool)
| setDeleteError (v : option string)
| setSearchTerm (v : string)
| setShowCreateModal (v : bool)
| request (req : Request).

Definition apply (s : State) (c : Call) : State :=
  match s with
  | mkState a b c0 d e f g h i j k l m n o p q r s0 t u w x =>
      match c with
      | setUsers v => mkState v b c0 d e f g h i j k l m n o p q r s0 t u w x
      | setIsLoading v =>
          mkState a v c0 d e f g h i j k l m n o p q r s0 t u w x
      | setError v => mkState a b v d e f g h i j k l m n o p q r s0 t u w x
      | setNewUserName v =>
          mkState a b c0 v e f g h i j k l m n o p q r s0 t u w x
      | setNewUserEmail v =>
          mkState a b c0 d v f g h i j k l m n o p q r s0 t u w x
      | setNewUserPassword v =>
          mkState a b c0 d e v g h i j k l m n o p q r s0 t u w x
      | setNewUserRole v =>
          mkState a b c0 d e f v h i j k l m n o p q r s0 t u w x
      | setIsAddingUser v =>
          mkState a b c0 d e f g v i j k l m n o p q r s0 t u w x
      | setAddUserError v =>
          mkState a b c0 d e f g h v j k l m n o p q r s0 t u w x
      | setShowEditModal v =>
          mkState a b c0 d e f g h i v k l m n o p q r s0 t u w x
      | setEditingUser v =>
          mkState a b c0 d e f g h i j v l m n o p q r s0 t u w x
      | setEditUserName v =>
          mkState a b c0 d e f g h i j k v m n o p q r s0 t u w x
      | setEditUserEmail v =>
          mkState a b c0 d e f g h i j k l v n o p q r s0 t u w x
      | setEditUserRole v =>
          mkState a b c0 d e f g h i j k l m v o p q r s0 t u w x
      | setEditUserPassword v =>
          mkState a b c0 d e f g h i j k l m n v p q r s0 t u w x
      | setIsUpdatingUser v =>
          mkState a b c0 d e f g h i j k l m n o v q r s0 t u w x
      | setUpdateUserError v =>
          mkState a b c0 d e f g h i j k l m n o p v r s0 t u w x
      | setShowDeleteModal v =>
          mkState a b c0 d e f g h i j k l m n o p q v s0 t u w x
      | setUserToDelete v =>
          mkState a b c0 d e f g h i j k l m n o p q r v t u w x
      | setIsDeleting v =>
          mkState a b c0 d e f g h i j k l m n o p q r s0 v u w x
      | setDeleteError v =>
          mkState a b c0 d e f g h i j k l m n o p q r s0 t v w x
      | setSearchTerm v =>
          mkState a b c0 d e f g h i j k l m n o p q r s0 t u v x
      | setShowCreateModal v =>
          mkState a b c0 d e f g h i j k l m n o p q r s0 t u w v
      | request _ => s
      end
  end.

Definition run (cs : list Call) (s : State) : State := fold_left apply cs s.

Definition requests (cs : list Call) : list Request :=
  flat_map (fun c => match c with request r => [r] | _ => [] end) cs.

(** The protocol steps of this screen: hiding a dialog; emptying a cell of
    a form or dropping the user being edited or deleted; a [GET] request.
    The screen has no notification. *)
Definition step (c : Call) : option Protocol.Step :=
  match c with
  | setShowCreateModal false | setShowEditModal false
  | setShowDeleteModal false => Some Protocol.CloseModal
  | setNewUserName EmptyString | setNewUserEmail EmptyString
  | setNewUserPassword EmptyString | setNewUserRole _
  | setEditingUser None | setEditUserName EmptyString
  | setEditUserEmail EmptyString | setEditUserRole _
  | setUserToDelete None => Some Protocol.ClearForm
  | request r => if Protocol.isGET r then Some Protocol.Refetch else None
  | _ => None
  end.

Definition steps (cs : list Call) : list Protocol.Step :=
  flat_map (fun c => match step c with Some s => [s] | None => [] end) cs.

(** How many list requests ([GET]) there are among the calls. *)
Definition refetches (cs : list Call) : nat :=
  length (filter Protocol.isGET (requests cs)).

(** The message of a failed mutation: that of the rejected promise, or the
    given text followed by the status. *)
Definition failureMessage (text : string) (reply : Reply unit) : string :=
  match reply with
  | Pending => ""
  | Rejected e => e
  | Replied r => text ++ JS.nat_to_string (Net.status r)
  end.

Section Handlers.

Variable API_URL : string.
Variable getItem : string -> option string.
(** [url.toString()] of [new URL(base)] after the given search
    parameters have been appended (percent-encoding and normalisation
    are the browser's). *)
Variable urlToString : string -> list (string * string) -> string.

Definition fetchUsers (st : State) (reply : Reply (list User.t))
  : M Call unit :=
  emit (setIsLoading true) ;;
  emit (setError None) ;;
  let token := getItem "token" in
  let url :=
    urlToString (API_URL ++ "/users")
                (if JS.truthy_string (searchTerm st)
                 then [("q", searchTerm st)] else []) in
  tryFinally
    (tryCatch
       (response <- fetch request
                      {| Net.method := GET;
                         Net.url := url;
                         headers := [("Authorization", bearer token)];
                         body := None |} reply ;;
        if negb (ok response) then
          throw ("HTTP error! status: "
                   ++ JS.nat_to_string (Net.status response))
        else
          result <- json response ;;
          emit (setUsers (snd result)))
       (fun message =>
          emit (setError (Some message)) ;;
          emit (setUsers (Some []))))
    (emit (setIsLoading false)).

Definition handleAddUser (st : State)
           (reply : Reply unit) (listReply : Reply (list User.t))
  : M Call unit :=
  emit (setIsAddingUser true) ;;
  emit (setAddUserError None) ;;
  let token := getItem "token" in
  tryFinally
    (tryCatch
       (response <- fetch request
                      {| Net.method := POST;
                         url := API_URL ++ "/users";
                         headers :=
                           [("Content-Type", "application/json");
                            ("Authorization", bearer token)];
                         body :=
                           Some [("name", JString (newUserName st));
                                 ("email", JString (newUserEmail st));
                                 ("password",
                                  JString (newUserPassword st));
                                 ("role", JString (newUserRole st))] |}
                      reply ;;
        (if negb (ok response) then
           throw ("Failed to add user! Status: "
                    ++ JS.nat_to_string (Net.status response))
         else ret tt) ;;
        detached (fetchUsers st Pending) (fetchUsers st listReply) ;;
        emit (setNewUserName "") ;;
        emit (setNewUserEmail "") ;;
        emit (setNewUserPassword "") ;;
        emit (setNewUserRole "accountant") ;;
        emit (setShowCreateModal false))
       (fun message => emit (setAddUserError (Some message))))
    (emit (setIsAddingUser false)).

Definition handleEditUser (user : User.t) : M Call unit :=
  emit (setEditingUser (Some user)) ;;
  emit (setEditUserName (User.name user)) ;;
  emit (setEditUserEmail (User.email user)) ;;
  emit (setEditUserRole (User.role user)) ;;
  emit (setEditUserPassword "") ;;
  emit (setShowEditModal true).

Definition handleUpdateUser (st : State)
           (reply : Reply unit) (listReply : Reply (list User.t))
  : M Call unit :=
  match editingUser st with
  | None => ret tt
  | Some editing =>
      emit (setIsUpdatingUser true) ;;
      emit (setUpdateUserError None) ;;
      let token := getItem "token" in
      let updatedData :=
        List.app
          [("name", JString (editUserName st));
           ("email", JString (editUserEmail st));
           ("role", JString (editUserRole st))]
          (if JS.truthy_string (editUserPassword st)
           then [("password", JString (editUserPassword st))]
           else []) in
      tryFinally
        (tryCatch
           (response <- fetch request
                          {| Net.method := PATCH;
                             url := API_URL ++ "/users/"
                                      ++ JS.nat_to_string (User.id editing);
                             headers :=
                               [("Content-Type", "application/json");
                                ("Authorization", bearer token)];
                             body := Some updatedData |} reply ;;
            (if negb (ok response) then
               throw ("Failed to update user! Status: "
                        ++ JS.nat_to_string (Net.status response))
             else ret tt) ;;
            detached (fetchUsers st Pending) (fetchUsers st listReply) ;;
            emit (setEditingUser None) ;;
            emit (setEditUserName "") ;;
            emit (setEditUserEmail "") ;;
            emit (setEditUserRole "accountant") ;;
            emit (setShowEditModal false))
           (fun message => emit (setUpdateUserError (Some message))))
        (emit (setIsUpdatingUser false))
  end.

Definition handleDeleteUser (st : State)
           (reply : Reply unit) (listReply : Reply (list User.t))
  : M Call unit :=
  match userToDelete st with
  | None => ret tt
  | Some user =>
      emit (setIsDeleting true) ;;
      emit (setDeleteError None) ;;
      let token := getItem "token" in
      tryFinally
        (tryCatch
           (response <- fetch request
                          {| Net.method := DELETE;
                             url := API_URL ++ "/users/"
                                      ++ JS.nat_to_string (User.id user);
                             headers := [("Authorization", bearer token)];
                             body := None |} reply ;;
            (if negb (ok response) then
               throw ("Failed to delete user! Status: "
                        ++ JS.nat_to_string (Net.status response))
             else ret tt) ;;
            detached (fetchUsers st Pending) (fetchUsers st listReply) ;;
            emit (setUserToDelete None) ;;
            emit (setShowDeleteModal false))
           (fun message => emit (setDeleteError (Some message))))
        (emit (setIsDeleting false))
  end.

Definition confirmDelete (user : User.t) : M Call unit :=
  emit (setUserToDelete (Some user)) ;;
  emit (setShowDeleteModal true).

Definition click (shown disabled : bool) (handler : M Call unit)
  : M Call unit :=
  if shown && negb disabled then handler else ret tt.

Definition clickAddUser (st : State)
           (reply : Reply unit) (listReply : Reply (list User.t))
  : M Call unit :=
  click (showCreateModal st) (isAddingUser st)
        (handleAddUser st reply listReply).

Definition clickSaveChanges (st : State)
           (reply : Reply unit) (listReply : Reply (list User.t))
  : M Call unit :=
  click (showEditModal st
         && match editingUser st with Some _ => true | None => false end)
        (isUpdatingUser st)
        (handleUpdateUser st reply listReply).

Definition clickDeleteUser (st : State)
           (reply : Reply unit) (listReply : Reply (list User.t))
  : M Call unit :=
  click (showDeleteModal st
         && match userToDelete st with Some _ => true | None => false end)
        (isDeleting st)
        (handleDeleteUser st reply listReply).

End Handlers.

End UserManagement.

(* ===================================================================== *)
(** ** Sample data *)
(* ===================================================================== *)

Module Sample.

Definition getToken (key : string) : option string :=
  if String.eqb key "token" then Some "eyJhbGciOi" else None.

Definition isoDate (s : string) : option string :=
  match s with
  | EmptyString => None
  | _ => Some (s ++ "T00:00:00.000Z")%string
  end.

Definition localeDate (s : string) : string := s.

Definition apiUrl : string := "https://api.everpower.example".

Definition clickTime : string := "2024-12-01T09:30:00.000Z".

(** A mutation answered by 201, and one answered by 400 with a message. *)
Definition created : Net.Reply unit :=
  Net.Replied (Net.mkResponse true 201 "Created"
                              (Net.JsonObject None None)).

Definition refused : Net.Reply unit :=
  Net.Replied (Net.mkResponse false 400 "Bad Request"
                              (Net.JsonObject (Some "Invoice not found")
                                              None)).

(** A list request answered by 200 with an empty collection. *)
Definition emptyList {D : Type} : Net.Reply (list D) :=
  Net.Replied (Net.mkResponse true 200 "OK"
                              (Net.JsonObject None (Some []))).

Definition storedPayment : Payment.t float :=
  {| Payment.id := "PAY-1";
     Payment.transactionId := "PAY-1";
     Payment.invoiceNumber := "INV-2025-0007";
     Payment.clientName := "client@everpower.com";
     Payment.amount := 1500.5%float;
     Payment.paymentMethod := "bank transfer";
     Payment.status := "pending";
     Payment.paidAt := "1/1/2025";
     Payment.reference := "" |}.

(** The payment screen with the three dialogs filled in. *)
Definition paymentScreen : PaymentManagement.State :=
  PaymentManagement.run
    [PaymentManagement.setLoading false;
     PaymentManagement.setPayments [storedPayment];
     PaymentManagement.setShowCreateModal true;
     PaymentManagement.setNewPayment
       (PaymentManagement.mkNewPayment
          "INV-2025-0007" "client@everpower.com" "1500.50" "BANK_TRANSFER"
          "COMPLETED" "HSBC transfer ref #987654" "2025-01-01");
     PaymentManagement.setEditingPayment (Some storedPayment);
     PaymentManagement.setShowUpdateModal true;
     PaymentManagement.setSelectedPayment (Some storedPayment);
     PaymentManagement.setShowDeleteModal true]
    PaymentManagement.initialState.

Definition invoice : Invoice.t :=
  {| Invoice.id := "INV-2025-0007";
     Invoice.year := 2025%float;
     Invoice.series := 7%float;
     Invoice.client_email := "client@everpower.com";
     Invoice.client_phone := "0771234567";
     Invoice.amount := "900.00";
     Invoice.status := "PENDING";
     Invoice.date := "2024-11-01T00:00:00.000Z";
     Invoice.due_date := "2024-12-01T00:00:00.000Z";
     Invoice.description := None;
     Invoice.stripe_pdf_url := "";
     Invoice.stripe_hosted_url := None;
     Invoice.over_due := "900.00";
     Invoice.customer_id := None;
     Invoice.created_at := "2024-11-01T00:00:00.000Z";
     Invoice.updated_at := "2024-11-01T00:00:00.000Z" |}.

(** The form of the specification's scenario: amount 1500.50, due on
    2025-01-01. *)
Definition invoiceForm : InvoiceManagement.ModalState :=
  InvoiceManagement.mkModal "client@everpower.com" "0771234567" "1500.50"
                            "2025-01-01" "Solar panel installation"
                            false None.

(** The invoice screen with the create dialog open on that form and the
    confirmation open on [invoice]. *)
Definition invoiceScreen : InvoiceManagement.State :=
  {| InvoiceManagement.invoices := Some [invoice];
     InvoiceManagement.searchTerm := "";
     InvoiceManagement.statusFilter := "all";
     InvoiceManagement.showModal := true;
     InvoiceManagement.editingInvoice := None;
     InvoiceManagement.viewingInvoice := None;
     InvoiceManagement.showConfirmModal := true;
     InvoiceManagement.confirmAction := Some invoice;
     InvoiceManagement.loading := false;
     InvoiceManagement.error := None;
     InvoiceManagement.toastMessage := None;
     InvoiceManagement.toastType := InvoiceManagement.success;
     InvoiceManagement.modal := Some invoiceForm |}.

Definition user : User.t :=
  {| User.id := 12;
     User.email := "accounts@everpower.com";
     User.name := "Accounts";
     User.role := "accountant";
     User.created_at := "2024-11-01T00:00:00.000Z";
     User.updated_at := "2024-11-01T00:00:00.000Z" |}.

(** The user screen with the three dialogs filled in. *)
Definition userScreen : UserManagement.State :=
  UserManagement.run
    [UserManagement.setIsLoading false;
     UserManagement.setUsers (Some [user]);
     UserManagement.setShowCreateModal true;
     UserManagement.setNewUserName "New Clerk";
     UserManagement.setNewUserEmail "clerk@everpower.com";
     UserManagement.setNewUserPassword "s3cret";
     UserManagement.setEditingUser (Some user);
     UserManagement.setEditUserName "Accounts";
     UserManagement.setEditUserEmail "accounts@everpower.com";
     UserManagement.setShowEditModal true;
     UserManagement.setUserToDelete (Some user);
     UserManagement.setShowDeleteModal true]
    UserManagement.initialState.

Definition urlToString (base : string) (params : list (string * string))
  : string :=
  match params with
  | [] => base
  | (key, v) :: _ => (base ++ "?" ++ key ++ "=" ++ v)%string
  end.

Definition rawPayment (id amount status : string) : ApiPayment.t :=
  {| ApiPayment.id := id;
     ApiPayment.year := 2025%float;
     ApiPayment.series := 7%float;
     ApiPayment.invoice_id := "INV-2025-0007";
     ApiPayment.client_email := "client@everpower.com";
     ApiPayment.amount := amount;
     ApiPayment.method := "BANK_TRANSFER";
     ApiPayment.status := status;
     ApiPayment.date := "2025-01-01T00:00:00.000Z";
     ApiPayment.created_at := "2025-01-01T00:00:00.000Z";
     ApiPayment.updated_at := "2025-01-01T00:00:00.000Z";
     ApiPayment.other := [("reference", "HSBC transfer ref #987654")] |}.

(** Payments as the mapping makes them of records of the endpoint. *)
Definition cancelledSample : list (Payment.t float) :=
  map (PaymentView.mapPayment localeDate)
      [rawPayment "PAY-1" "10" "CANCELLED"].

Definition roundingSample : list (Payment.t float) :=
  map (PaymentView.mapPayment localeDate)
      [rawPayment "PAY-1" "0.1" "COMPLETED";
       rawPayment "PAY-2" "0.2" "PENDING";
       rawPayment "PAY-3" "0.3" "PENDING"].

Definition debtor {N : Type} {A : Arith N} (email : string) (outstanding : N)
  : TopDebtor.t N :=
  {| TopDebtor.clientEmail := email;
     TopDebtor.overdueInvoiceCount := zero;
     TopDebtor.outstanding := outstanding |}.

(** The debtor list of the specification's example, out of order. *)
Definition debtors {N : Type} {A : Arith N} (v20 v40 v60 v80 v100 : N)
  : list (TopDebtor.t N) :=
  [debtor "ewatt@everpower.com" v20; debtor "asolar@everpower.com" v100;
   debtor "cgrid@everpower.com" v60; debtor "bwind@everpower.com" v80;
   debtor "dhydro@everpower.com" v40].

Definition stats {N : Type} {A : Arith N} (total : N)
           (debtors : list (TopDebtor.t N)) : DashboardStats.t N :=
  {| DashboardStats.totalPendingPayments := zero;
     DashboardStats.totalCompletedPayments := zero;
     DashboardStats.totalOutstanding := total;
     DashboardStats.paymentsThisMonth := zero;
     DashboardStats.totalActiveInvoices := zero;
     DashboardStats.paymentSuccessRate := zero;
     DashboardStats.paymentReceived := PaymentReceived.mk zero zero zero;
     DashboardStats.topDebtors := debtors |}.

End Sample.

(* ===================================================================== *)
(** ** More built-ins: global replace, split on a pattern, join *)
(* ===================================================================== *)

Module JSText.

(** The double-quote character. *)
Definition quote : ascii := "034"%char.

(** The line feed of ['\n']. *)
Definition newline : string := String "010"%char EmptyString.

(** [s.replace(/q/g, qq)] where [q] is the double quote: every double
    quote is doubled. *)
Fixpoint escapeQuotes (s : string) : string :=
  match s with
  | EmptyString => EmptyString
  | String c s' =>
      if Ascii.eqb c quote
      then String quote (String quote (escapeQuotes s'))
      else String c (escapeQuotes s')
  end.

(** The template literal that wraps [s] in double quotes. *)
Definition quoted (s : string) : string :=
  String quote (s ++ String quote EmptyString)%string.

(** [parts.join(sep)] *)
Fixpoint join (sep : string) (parts : list string) : string :=
  match parts with
  | [] => EmptyString
  | [p] => p
  | p :: rest => (p ++ sep ++ join sep rest)%string
  end.

(** The characters of the class [[._-]]. *)
Definition is_separator (c : ascii) : bool :=
  Ascii.eqb c "." || Ascii.eqb c "_" || Ascii.eqb c "-".

(** [s.split(/[._-]+/)]: the pieces between the maximal runs of
    separators. A run at the front or at the end leaves an empty piece
    there, and the empty string gives one empty piece. *)
Fixpoint splitSeparators (s : string) : list string :=
  match s with
  | EmptyString => [EmptyString]
  | String c s' =>
      if is_separator c then
        match s' with
        | EmptyString => [EmptyString; EmptyString]
        | String c' _ =>
            if is_separator c' then splitSeparators s'
            else EmptyString :: splitSeparators s'
        end
      else
        match splitSeparators s' with
        | p :: ps => String c p :: ps
        | [] => [String c EmptyString]
        end
  end.

(** A string that does not begin with white space. *)
Definition tight (s : string) : Prop :=
  match s with
  | EmptyString => True
  | String c _ => JS.is_space c = false
  end.

End JSText.

(* ===================================================================== *)
(** ** Display names (InvoiceManagement.tsx and the dashboard) *)
(* ===================================================================== *)

Module Names.

(** [p ? p[0].toUpperCase() + p.slice(1) : ''] *)
Definition capitalize (p : string) : string :=
  match p with
  | EmptyString => EmptyString
  | String c rest => String (JS.upper_char c) rest
  end.

Definition nameFromEmail (email : string) : string :=
  let base := JS.or_else (Some (JS.split_head "@" email)) "" in
  JS.trim
    (JSText.join " " (map capitalize (JSText.splitSeparators base))).

End Names.

(* ===================================================================== *)
(** ** The dialogs and the method tags of the payment screen *)
(* ===================================================================== *)

Module PaymentDialogs.
Import Effects Net PaymentManagement.
Local Open Scope string_scope.
Local Open Scope handler_scope.

(** The values of the options of the method filter. *)
Definition methodFilterOptions : list string :=
  ["all"; "credit_card"; "bank_transfer"; "cash"; "check"].

(** The values of the options of the method select of the "Record
    Payment" dialog. *)
Definition createMethodOptions : list string :=
  ["CARD"; "BANK_TRANSFER"; "CASH"; "CHEQUE"].

(** The values of the options of the status select of the "Record
    Payment" dialog, and of that of the update dialog. *)
Definition createStatusOptions : list string :=
  ["COMPLETED"; "PENDING"; "FAILED"; "REFUNDED"].

Definition updateStatusOptions : list string :=
  ["completed"; "pending"; "failed"; "refunded"].

Definition getMethodColor (method : string) : string :=
  let key := JS.replace " " "_" (JS.toLowerCase method) in
  if String.eqb key "credit_card" then "bg-blue-100 text-blue-800"
  else if String.eqb key "bank_transfer" then "bg-green-100 text-green-800"
  else if String.eqb key "cash" then "bg-yellow-100 text-yellow-800"
  else if String.eqb key "check" then "bg-purple-100 text-purple-800"
  else "bg-gray-100 text-gray-800".

(** [{ ...prevState, [name]: value }] on the form of the "Record Payment"
    dialog. A name that is none of the seven adds a property that nothing
    reads. *)
Definition withField (prevState : NewPayment) (name value : string)
  : NewPayment :=
  match prevState with
  | mkNewPayment i c a m s r d =>
      if String.eqb name "invoiceId" then mkNewPayment value c a m s r d
      else if String.eqb name "clientEmail" then mkNewPayment i value a m s r d
      else if String.eqb name "amount" then mkNewPayment i c value m s r d
      else if String.eqb name "method" then mkNewPayment i c a value s r d
      else if String.eqb name "status" then mkNewPayment i c a m value r d
      else if String.eqb name "reference" then mkNewPayment i c a m s value d
      else if String.eqb name "date" then mkNewPayment i c a m s r value
      else prevState
  end.

(** A change event of an input of the "Record Payment" dialog, on the
    state [st] in which the updater runs. *)
Definition handleCreateInputChange (st : State) (name value : string)
  : M Call unit :=
  emit (setNewPayment (withField (newPayment st) name value)).

(** The two inputs of the update dialog that report their changes: the
    select named [status] and the input named [reference]. *)
Inductive UpdateInput : Type := statusInput | referenceInput.

(** A change event of an input of the update dialog: nothing is being
    edited, or the named property of the payment being edited is
    replaced. *)
Definition handleUpdateInputChange (st : State) (input : UpdateInput)
           (value : string) : M Call unit :=
  emit (setEditingPayment
          match editingPayment st with
          | None => None
          | Some prevState =>
              Some match input with
                   | statusInput =>
                       {| Payment.id := Payment.id prevState;
                          Payment.transactionId :=
                            Payment.transactionId prevState;
                          Payment.invoiceNumber :=
                            Payment.invoiceNumber prevState;
                          Payment.clientName := Payment.clientName prevState;
                          Payment.amount := Payment.amount prevState;
                          Payment.paymentMethod :=
                            Payment.paymentMethod prevState;
                          Payment.status := value;
                          Payment.paidAt := Payment.paidAt prevState;
                          Payment.reference := Payment.reference prevState |}
                   | referenceInput =>
                       {| Payment.id := Payment.id prevState;
                          Payment.transactionId :=
                            Payment.transactionId prevState;
                          Payment.invoiceNumber :=
                            Payment.invoiceNumber prevState;
                          Payment.clientName := Payment.clientName prevState;
                          Payment.amount := Payment.amount prevState;
                          Payment.paymentMethod :=
                            Payment.paymentMethod prevState;
                          Payment.status := Payment.status prevState;
                          Payment.paidAt := Payment.paidAt prevState;
                          Payment.reference := value |}
                   end
          end).

(** The "edit" button of a row of the table. *)
Definition clickEdit (payment : Payment) : M Call unit :=
  emit (setEditingPayment (Some payment)) ;;
  emit (setShowUpdateModal true) ;;
  emit (setSubmitError None).

(** The rows of the table: the payments of the state under its three
    filters. *)
Definition shown (st : State) : list Payment :=
  PaymentView.filteredPayments (payments st) (searchTerm st)
                               (statusFilter st) (methodFilter st).

(** The first request of a run. *)
Definition firstRequest (m : M Call unit) : option Request :=
  hd_error (requests (calls m)).

(** The change events of [changes], one after the other. *)
Definition typeInto (changes : list (string * string)) (st : State)
  : State :=
  fold_left (fun s change =>
               run (calls (handleCreateInputChange s (fst change)
                                                   (snd change))) s)
            changes st.

End PaymentDialogs.

(* ===================================================================== *)
(** ** Invoices: filter, summary cards and export (InvoiceManagement.tsx) *)
(* ===================================================================== *)

Module InvoiceView.
Local Open Scope string_scope.

Definition matchesSearch (searchTerm : string) (invoice : Invoice.t)
  : bool :=
  JS.includes
    (JS.toLowerCase (Names.nameFromEmail (Invoice.client_email invoice)))
    (JS.toLowerCase searchTerm)
  || JS.includes (JS.toLowerCase (Invoice.id invoice))
                 (JS.toLowerCase searchTerm)
  || JS.includes (JS.toLowerCase (Invoice.client_email invoice))
                 (JS.toLowerCase searchTerm).

Definition matchesStatus (statusFilter : string) (invoice : Invoice.t)
  : bool :=
  String.eqb statusFilter "all"
  || String.eqb (JS.toLowerCase (Invoice.status invoice))
                (JS.toLowerCase statusFilter).

Definition filteredInvoices (invoices : list Invoice.t)
           (searchTerm statusFilter : string) : list Invoice.t :=
  filter (fun invoice =>
            matchesSearch searchTerm invoice
            && matchesStatus statusFilter invoice)
         invoices.

Definition totalAmount (filtered : list Invoice.t) : float :=
  fold_left (fun sum invoice =>
               (sum + JS.parseFloat (Invoice.amount invoice))%float)
            filtered 0%float.

Definition pendingAmount (filtered : list Invoice.t) : float :=
  fold_left (fun sum invoice =>
               (sum + JS.parseFloat (Invoice.over_due invoice))%float)
            filtered 0%float.

Definition paidAmount (filtered : list Invoice.t) : float :=
  (totalAmount filtered - pendingAmount filtered)%float.

(** The last cell of a line of [handleExport]: the description, empty
    when there is none, else with its quotes doubled; wrapped in
    quotes. *)
Definition descriptionCell (invoice : Invoice.t) : string :=
  JSText.quoted
    match Invoice.description invoice with
    | Some d =>
        if JS.truthy_string d then JSText.escapeQuotes d else ""
    | None => ""
    end.

End InvoiceView.

(* ===================================================================== *)
(** ** Users: role filter, export and reset mail (UserManagement.tsx) *)
(* ===================================================================== *)

Module UserView.
Import Effects Net.
Local Open Scope string_scope.
Local Open Scope handler_scope.

Definition matchesRole (roleFilter : string) (user : User.t) : bool :=
  String.eqb roleFilter "all" || String.eqb (User.role user) roleFilter.

Definition filteredUsers (users : list User.t) (roleFilter : string)
  : list User.t :=
  filter (matchesRole roleFilter) users.

Definition totalUsers (users : list User.t) (roleFilter : string) : nat :=
  length (filteredUsers users roleFilter).

(** The roles a user is declared to have. *)
Definition roles : list string := ["admin"; "accountant"].

(** *** handleExportUsers *)

(** The callback of [filteredUsers.map]: one line of the file. *)
Definition csvRow (user : User.t) : string :=
  JSText.join ","
    [JS.nat_to_string (User.id user);
     JSText.quoted (JSText.escapeQuotes (User.name user));
     JSText.quoted (JSText.escapeQuotes (User.email user));
     User.role user;
     JSText.quoted (User.created_at user);
     JSText.quoted (User.updated_at user)].

(** *** handleMailUser *)

(** The three cells of the mail action. *)
Record MailState : Type := mkMailState {
  mailingUserId : option nat;
  mailSuccessMessage : option string;
  mailError : option string
}.

Definition initialMailState : MailState :=
  {| mailingUserId := None;
     mailSuccessMessage := None;
     mailError := None |}.

Inductive MailCall : Type :=
| setMailingUserId (v : option nat)
| setMailSuccessMessage (v : option string)
| setMailError (v : option string)
| request (req : Request).

Definition apply (s : MailState) (c : MailCall) : MailState :=
  match c with
  | setMailingUserId v =>
      mkMailState v (mailSuccessMessage s) (mailError s)
  | setMailSuccessMessage v => mkMailState (mailingUserId s) v (mailError s)
  | setMailError v => mkMailState (mailingUserId s) (mailSuccessMessage s) v
  | request _ => s
  end.

Definition run (cs : list MailCall) (s : MailState) : MailState :=
  fold_left apply cs s.

Definition requests (cs : list MailCall) : list Request :=
  flat_map (fun c => match c with request r => [r] | _ => [] end) cs.

(** [disabled={mailingUserId === user.id}] of the mail button of a
    row. *)
Definition mailDisabled (s : MailState) (user : User.t) : bool :=
  match mailingUserId s with
  | Some id => Nat.eqb id (User.id user)
  | None => false
  end.

Section Mail.

Variable API_URL : string.
Variable getItem : string -> option string.

Definition handleMailUser (user : User.t) (reply : Reply unit)
  : M MailCall unit :=
  emit (setMailingUserId (Some (User.id user))) ;;
  emit (setMailError None) ;;
  emit (setMailSuccessMessage None) ;;
  let token := getItem "token" in
  tryFinally
    (tryCatch
       (response <- fetch request
                      {| Net.method := POST;
                         url := API_URL ++ "/users/reset-password";
                         headers :=
                           [("Content-Type", "application/json");
                            ("Authorization", bearer token)];
                         body := Some [("email", JString (User.email user))]
                      |} reply ;;
        (if negb (ok response) then
           throw ("Failed to initiate password reset! Status: "
                    ++ JS.nat_to_string (Net.status response))
         else ret tt) ;;
        emit (setMailSuccessMessage
                (Some ("A password reset link has been "
                         ++ JSText.quoted "sent" ++ " to "
                         ++ User.email user ++ "."))))
       (fun message => emit (setMailError (Some message))))
    (emit (setMailingUserId None)).

(** A click on the mail button of the row of [user]. *)
Definition clickMail (s : MailState) (user : User.t) (reply : Reply unit)
  : M MailCall unit :=
  if mailDisabled s user then ret tt else handleMailUser user reply.

End Mail.

End UserView.

(* ===================================================================== *)
(** ** Dashboard: the method and finance series, the recent
       transactions *)
(* ===================================================================== *)

Module Transaction.
(** [method] is read through [tx.method || 'UNKNOWN']: an absent method
    and the empty string are both falsy and read alike. *)
Record t : Type := mk {
  id : string;
  client_email : string;
  amount : float;
  method : string;
  status : string;
  date : string
}.
End Transaction.

Module DashboardCharts.
Import Dashboard.

(** *** Payments by method *)

(** The key under which a transaction is counted. *)
Definition methodKey (tx : Transaction.t) : string :=
  JS.toUpperCase
    (JS.replace "_" " " (JS.or_else (Some (Transaction.method tx)) "UNKNOWN")).

(** [counts[key] || 0] on the own properties of [counts], kept in the
    order in which they were created. A count is a whole number below
    [2^32], the bound on the length of an array. *)
Fixpoint countOf (key : string) (counts : list (string * nat)) : nat :=
  match counts with
  | [] => 0
  | (k, v) :: rest => if String.eqb k key then v else countOf key rest
  end.

(** [counts[key] = v]: a property that is there keeps its place, a new
    one is created after the others. *)
Fixpoint assign (key : string) (v : nat) (counts : list (string * nat))
  : list (string * nat) :=
  match counts with
  | [] => [(key, v)]
  | (k, x) :: rest =>
      if String.eqb k key then (k, v) :: rest
      else (k, x) :: assign key v rest
  end.

(** [counts[key] = (counts[key] || 0) + 1] *)
Definition increment (key : string) (counts : list (string * nat))
  : list (string * nat) :=
  assign key (countOf key counts + 1) counts.

(** The value of a key that is an array index: the canonical decimal
    numeral of a whole number below [2^32 - 1]. *)
Definition arrayIndex (key : string) : option N :=
  match key with
  | EmptyString => None
  | String c rest =>
      let '(v, len, tail) := JS.digits key 0%N 0%nat in
      match tail with
      | EmptyString =>
          if (Ascii.eqb c "0" && negb (String.eqb rest ""))
          then None
          else if (v <? 4294967295)%N then Some v else None
      | String _ _ => None
      end
  end.

(** Insertion by ascending index. *)
Fixpoint insertIndexed (x : N * (string * nat))
         (l : list (N * (string * nat))) : list (N * (string * nat)) :=
  match l with
  | [] => [x]
  | y :: l' =>
      if (fst x <=? fst y)%N then x :: l else y :: insertIndexed x l'
  end.

(** [Object.entries]: the properties whose key is an array index, by
    ascending index, then the others in the order of their creation. *)
Definition entries (counts : list (string * nat)) : list (string * nat) :=
  let indexed :=
    flat_map (fun kv => match arrayIndex (fst kv) with
                        | Some i => [(i, kv)]
                        | None => []
                        end) counts in
  let named :=
    filter (fun kv => match arrayIndex (fst kv) with
                      | Some _ => false
                      | None => true
                      end) counts in
  map snd (fold_right insertIndexed [] indexed) ++ named.

(** The [useMemo] body of [methodData]; [None] is a list that was stored
    as [undefined]. *)
Definition methodData (recentTransactions : option (list Transaction.t))
  : list (ChartEntry nat) :=
  let counts :=
    fold_left (fun counts tx => increment (methodKey tx) counts)
              match recentTransactions with Some l => l | None => [] end
              [] in
  map (fun kv => {| name := fst kv; value := snd kv |}) (entries counts).

(** [methodData.reduce((a,b)=>a+b.value,0)], shown beside the chart. *)
Definition methodTotal (data : list (ChartEntry nat)) : nat :=
  fold_left (fun a b => a + value b) data 0.

(** *** Outstanding, completed and pending amounts *)

Section Finance.

Context {N : Type} {A : Arith N}.

Definition financeOverview (dashboardStats : option (DashboardStats.t N))
  : list (ChartEntry N) :=
  match dashboardStats with
  | None => []
  | Some stats =>
      filter (fun d => gt0 (value d))
        [ {| name := "Outstanding";
             value :=
               minus (minus (DashboardStats.totalOutstanding stats)
                            (DashboardStats.totalCompletedPayments stats))
                     (DashboardStats.totalPendingPayments stats) |};
          {| name := "Completed Payments";
             value := DashboardStats.totalCompletedPayments stats |};
          {| name := "Pending Payments";
             value := DashboardStats.totalPendingPayments stats |} ]
  end.

(** [financeOverview.reduce((a, b) => a + Number(b.value || 0), 0)], the
    total shown above the chart when it is positive. *)
Definition financeTotal (overview : list (ChartEntry N)) : N :=
  fold_left (fun a b => plus a (orZero (value b))) overview zero.

End Finance.

End DashboardCharts.

Module DashboardScreen.
Import Effects Net.
Local Open Scope string_scope.
Local Open Scope handler_scope.

(** The cells of the recent transactions. [recentTransactions] is [None]
    when a reply without a [data] property has been stored. *)
Record State : Type := mkState {
  recentTransactions : option (list Transaction.t);
  loading : bool
}.

Definition initialState : State :=
  {| recentTransactions := Some []; loading := true |}.

Inductive Call : Type :=
| setRecentTransactions (v : option (list Transaction.t))
| setLoading (v : bool)
| consoleError (text : string)
| request (req : Request).

Definition apply (s : State) (c : Call) : State :=
  match c with
  | setRecentTransactions v => mkState v (loading s)
  | setLoading v => mkState (recentTransactions s) v
  | consoleError _ | request _ => s
  end.

Definition run (cs : list Call) (s : State) : State := fold_left apply cs s.

Definition requests (cs : list Call) : list Request :=
  flat_map (fun c => match c with request r => [r] | _ => [] end) cs.

Definition errors (cs : list Call) : list string :=
  flat_map (fun c => match c with consoleError e => [e] | _ => [] end) cs.

Section Handlers.

Variable API_URL : string.
Variable getItem : string -> option string.

Definition fetchRecentTransactions (reply : Reply (list Transaction.t))
  : M Call unit :=
  let token := getItem "token" in
  if noToken token then
    emit (consoleError "No authorization token found.") ;;
    emit (setLoading false)
  else
    tryFinally
      (tryCatch
         (response <- fetch request
                        {| Net.method := GET;
                           url := API_URL ++ "/payments";
                           headers :=
                             [("Authorization", bearer token);
                              ("Content-Type", "application/json")];
                           body := None |} reply ;;
          if negb (ok response) then
            throw ("HTTP error! status: "
                     ++ JS.nat_to_string (Net.status response))
          else
            data <- json response ;;
            emit (setRecentTransactions (snd data)))
         (fun _ =>
            emit (consoleError "Failed to fetch recent transactions:")))
      (emit (setLoading false)).

End Handlers.

(** The series of the method chart of a state. *)
Definition methodData (s : State) : list (Dashboard.ChartEntry nat) :=
  DashboardCharts.methodData (recentTransactions s).

End DashboardScreen.

(* ===================================================================== *)
(** ** Whole numbers in binary64 *)
(* ===================================================================== *)

Module Binary64.

(** The Number value of the whole number [n]: what [parseFloat] returns
    for a numeral without sign, fraction or exponent
    ([Binary64Properties.parseFloat_numeral]). *)
Definition whole (n : N) : float := JS.round_decimal false n 0.

(** The numerals: the strings of decimal digits, and the whole number
    one writes. *)
Fixpoint isNumeral (s : string) : bool :=
  match s with
  | EmptyString => true
  | String c s' => JS.is_digit c && isNumeral s'
  end.

Definition numeral (s : string) : N := fst (fst (JS.digits s 0%N 0%nat)).

(** The sum of whole numbers, without rounding. *)
Definition total (units : list N) : N := fold_right N.add 0%N units.

(** [q * 2^k], for [k] that is not negative. *)
Definition shiftP (q : positive) (k : Z) : positive :=
  match k with
  | Zpos d => Pos.iter xO q d
  | _ => q
  end.

(** The IEEE 754 datum of [whole n], before it is packed into a
    [float]. *)
Definition datum (n : N) : spec_float :=
  match n with
  | N0 => S754_zero false
  | Npos p => binary_round prec emax false p 0
  end.

(** Of the whole amounts [units] of the payments [l], in the same order,
    those of the payments whose status is [s]. *)
Definition unitsByStatus (s : string) (l : list (Payment.t float))
           (units : list N) : list N :=
  map snd
      (filter (fun pn => String.eqb (Payment.status (fst pn)) s)
              (combine l units)).

End Binary64.

(* ===================================================================== *)
(** ** More sample data *)
(* ===================================================================== *)

Module Fixture.

Definition transaction (id method : string) : Transaction.t :=
  {| Transaction.id := id;
     Transaction.client_email := "client@everpower.com";
     Transaction.amount := 100%float;
     Transaction.method := method;
     Transaction.status := "COMPLETED";
     Transaction.date := "2025-01-01T00:00:00.000Z" |}.

Definition transactions : list Transaction.t :=
  [transaction "PAY-1" "BANK_TRANSFER"; transaction "PAY-2" "CASH";
   transaction "PAY-3" ""; transaction "PAY-4" "bank_transfer";
   transaction "PAY-5" "2024"; transaction "PAY-6" "7"].

Definition rawPaymentBy (method : string) : ApiPayment.t :=
  {| ApiPayment.id := "PAY-9";
     ApiPayment.year := 2025%float;
     ApiPayment.series := 9%float;
     ApiPayment.invoice_id := "INV-2025-0009";
     ApiPayment.client_email := "client@everpower.com";
     ApiPayment.amount := "250.00";
     ApiPayment.method := method;
     ApiPayment.status := "COMPLETED";
     ApiPayment.date := "2025-01-01T00:00:00.000Z";
     ApiPayment.created_at := "2025-01-01T00:00:00.000Z";
     ApiPayment.updated_at := "2025-01-01T00:00:00.000Z";
     ApiPayment.other := [] |}.


Definition userNamed (id : nat) (name role : string) : User.t :=
  {| User.id := id;
     User.email := "accounts@everpower.com";
     User.name := name;
     User.role := role;
     User.created_at := "2024-11-01T00:00:00.000Z";
     User.updated_at := "2024-11-01T00:00:00.000Z" |}.

Definition invoiceWith (id email amount over_due status : string)
  : Invoice.t :=
  {| Invoice.id := id;
     Invoice.year := 2025%float;
     Invoice.series := 7%float;
     Invoice.client_email := email;
     Invoice.client_phone := "0771234567";
     Invoice.amount := amount;
     Invoice.status := status;
     Invoice.date := "2024-11-01T00:00:00.000Z";
     Invoice.due_date := "2024-12-01T00:00:00.000Z";
     Invoice.description := None;
     Invoice.stripe_pdf_url := "";
     Invoice.stripe_hosted_url := None;
     Invoice.over_due := over_due;
     Invoice.customer_id := None;
     Invoice.created_at := "2024-11-01T00:00:00.000Z";
     Invoice.updated_at := "2024-11-01T00:00:00.000Z" |}.

(** The invoice screen with the create dialog open on the form [m]. *)
Definition invoiceDialog (m : InvoiceManagement.ModalState)
  : InvoiceManagement.State :=
  {| InvoiceManagement.invoices := Some [Sample.invoice];
     InvoiceManagement.searchTerm := "";
     InvoiceManagement.statusFilter := "all";
     InvoiceManagement.showModal := true;
     InvoiceManagement.editingInvoice := None;
     InvoiceManagement.viewingInvoice := None;
     InvoiceManagement.showConfirmModal := false;
     InvoiceManagement.confirmAction := None;
     InvoiceManagement.loading := false;
     InvoiceManagement.error := None;
     InvoiceManagement.toastMessage := None;
     InvoiceManagement.toastType := InvoiceManagement.success;
     InvoiceManagement.modal := Some m |}.

Definition invoiceDescribed (description : option string) : Invoice.t :=
  {| Invoice.id := "INV-2025-0008";
     Invoice.year := 2025%float;
     Invoice.series := 8%float;
     Invoice.client_email := "client@everpower.com";
     Invoice.client_phone := "0771234567";
     Invoice.amount := "900.00";
     Invoice.status := "SENT";
     Invoice.date := "2024-11-01T00:00:00.000Z";
     Invoice.due_date := "2024-12-01T00:00:00.000Z";
     Invoice.description := description;
     Invoice.stripe_pdf_url := "";
     Invoice.stripe_hosted_url := None;
     Invoice.over_due := "900.00";
     Invoice.customer_id := None;
     Invoice.created_at := "2024-11-01T00:00:00.000Z";
     Invoice.updated_at := "2024-11-01T00:00:00.000Z" |}.

Definition financeStats (outstanding completed pending : float)
  : DashboardStats.t float :=
  {| DashboardStats.totalPendingPayments := pending;
     DashboardStats.totalCompletedPayments := completed;
     DashboardStats.totalOutstanding := outstanding;
     DashboardStats.paymentsThisMonth := 0%float;
     DashboardStats.totalActiveInvoices := 0%float;
     DashboardStats.paymentSuccessRate := 0%float;
     DashboardStats.paymentReceived :=
       PaymentReceived.mk 0%float 0%float 0%float;
     DashboardStats.topDebtors := [] |}.

(** Payments with whole amounts, as mapped from records of the
    endpoint. *)
Definition wholePayments : list (Payment.t float) :=
  map (PaymentView.mapPayment Sample.localeDate)
      [Sample.rawPayment "PAY-1" "1500" "COMPLETED";
       Sample.rawPayment "PAY-2" "250" "PENDING";
       Sample.rawPayment "PAY-3" "75" "REFUNDED";
       Sample.rawPayment "PAY-4" "40" "FAILED";
       Sample.rawPayment "PAY-5" "10" "PENDING"].

End Fixture.

(* ===================================================================== *)
(** * Properties *)
(* ===================================================================== *)

(* ===================================================================== *)
(** ** Binary64 on whole numbers below 2^53 *)
(* ===================================================================== *)

(** Whole numbers below [2^53] have 53 bits at most: binary64 holds them,
    and adds and subtracts them without rounding. The proofs follow the
    IEEE 754 operations of [SpecFloat], which the primitive operations
    implement. *)
Module Binary64Properties.
Import Binary64.

Lemma iter_pos_eq {A : Type} (f : A -> A) (n : positive) (x : A) :
  SpecFloat.iter_pos f n x = Pos.iter f x n.
Proof.
  revert x. induction n as [n IH | n IH |]; intro x; simpl.
  - rewrite !IH, !Pos.iter_swap. reflexivity.
  - rewrite !IH. reflexivity.
  - reflexivity.
Qed.

Lemma digits_iter (q k : positive) :
  digits2_pos (Pos.iter xO q k) = (digits2_pos q + k)%positive.
Proof.
  induction k as [| k IH] using Pos.peano_ind.
  - simpl. rewrite Pos.add_1_r. reflexivity.
  - rewrite Pos.iter_succ. simpl. rewrite IH, Pos.add_succ_r. reflexivity.
Qed.

Lemma digits_shiftP (q : positive) (k : Z) :
  (0 <= k)%Z ->
  Zpos (digits2_pos (shiftP q k)) = (Zpos (digits2_pos q) + k)%Z.
Proof.
  destruct k as [| d | d]; intro H; simpl.
  - lia.
  - rewrite digits_iter. reflexivity.
  - lia.
Qed.

Lemma shiftP_add (q : positive) (a b : Z) :
  (0 <= a)%Z -> (0 <= b)%Z -> shiftP (shiftP q a) b = shiftP q (a + b).
Proof.
  destruct a as [| a | a], b as [| b | b]; intros Ha Hb; try lia;
    try reflexivity.
  simpl. rewrite Pos.add_comm, Pos.iter_add. reflexivity.
Qed.

Lemma Zpos_shiftP (q : positive) (k : Z) :
  (0 <= k)%Z -> Zpos (shiftP q k) = (Zpos q * 2 ^ k)%Z.
Proof.
  destruct k as [| d | d]; intro H; simpl shiftP.
  - lia.
  - induction d as [| d IH] using Pos.peano_ind.
    + simpl. lia.
    + rewrite Pos.iter_succ, Pos2Z.inj_succ, Z.pow_succ_r by lia.
      rewrite Pos2Z.inj_xO, IH by lia. lia.
  - lia.
Qed.

(** Shifting right the bits that were shifted in loses nothing. *)
Lemma shr_iter (r n : positive) :
  Pos.iter shr_1 (Build_shr_record (Zpos (Pos.iter xO r n)) false false) n
  = Build_shr_record (Zpos r) false false.
Proof.
  revert r. induction n as [| n IH] using Pos.peano_ind; intro r.
  - reflexivity.
  - rewrite Pos.iter_succ.
    replace (Pos.iter xO r (Pos.succ n)) with (Pos.iter xO (xO r) n)
      by (rewrite Pos.iter_succ, Pos.iter_swap; reflexivity).
    rewrite IH. reflexivity.
Qed.

(** A mantissa of 53 bits with an exponent in range is kept as it is. *)
Lemma binary_round_aux_canonical (M : positive) (e : Z) :
  Zpos (digits2_pos M) = 53%Z -> (-1074 <= e <= 971)%Z ->
  binary_round_aux prec emax false (Zpos M) e loc_Exact
  = S754_finite false M e.
Proof.
  intros HM He.
  unfold binary_round_aux, shr_fexp, fexp, emin, prec, emax.
  cbn [Zdigits2 shr_record_of_loc]. rewrite HM.
  replace (Z.max (53 + e - 53) (3 - 1024 - 53) - e)%Z with 0%Z by lia.
  cbn [shr shr_m loc_of_shr_record round_nearest_even Zdigits2
       shr_record_of_loc]. rewrite HM.
  replace (Z.max (53 + e - 53) (3 - 1024 - 53) - e)%Z with 0%Z by lia.
  cbn [shr shr_m].
  replace (e <=? 1024 - 53)%Z with true by (symmetry; apply Z.leb_le; lia).
  reflexivity.
Qed.

(** Rounding [q * 2^K] at exponent [-K] gives the normal form of [q],
    whatever [K]: [q] has 53 bits at most, so no bit is lost. *)
Lemma binary_round_shift (q : positive) (K : Z) :
  (Zpos (digits2_pos q) <= 53)%Z -> (0 <= K)%Z ->
  binary_round prec emax false (shiftP q K) (- K)
  = S754_finite false (shiftP q (53 - Zpos (digits2_pos q)))
                (Zpos (digits2_pos q) - 53).
Proof.
  intros Hd HK.
  set (d := Zpos (digits2_pos q)) in *.
  assert (Hd1 : (1 <= d)%Z) by (unfold d; lia).
  assert (Hcanon : Zpos (digits2_pos (shiftP q (53 - d))) = 53%Z).
  { rewrite digits_shiftP by lia. fold d. lia. }
  unfold binary_round, shl_align.
  rewrite (digits_shiftP q K HK). fold d.
  replace (fexp prec emax (d + K + - K)) with (d - 53)%Z
    by (unfold fexp, emin, prec, emax; lia).
  destruct (d - 53 - - K)%Z as [| nn | dd] eqn:E.
  - replace (- K)%Z with (d - 53)%Z by lia.
    replace K with (53 - d)%Z by lia.
    apply binary_round_aux_canonical; [exact Hcanon | lia].
  - assert (HKn : K = ((53 - d) + Zpos nn)%Z) by lia.
    unfold binary_round_aux, shr_fexp.
    cbn [Zdigits2 shr_record_of_loc].
    rewrite (digits_shiftP q K HK). fold d.
    replace (fexp prec emax (d + K + - K) - - K)%Z with (Zpos nn)
      by (unfold fexp, emin, prec, emax; lia).
    cbn [shr]. rewrite iter_pos_eq.
    replace (shiftP q K) with (Pos.iter xO (shiftP q (53 - d)) nn).
    2:{ rewrite HKn, <- shiftP_add by lia. reflexivity. }
    rewrite shr_iter.
    cbn [shr_m loc_of_shr_record round_nearest_even].
    replace (- K + Zpos nn)%Z with (d - 53)%Z by lia.
    cbn [Zdigits2]. rewrite Hcanon.
    replace (fexp prec emax (53 + (d - 53)) - (d - 53))%Z with 0%Z
      by (unfold fexp, emin, prec, emax; lia).
    cbn [shr shr_m].
    replace (d - 53 <=? emax - prec)%Z with true
      by (symmetry; apply Z.leb_le; unfold emax, prec; lia).
    reflexivity.
  - replace (Pos.iter xO (shiftP q K) dd) with (shiftP q (53 - d)).
    2:{ replace (53 - d)%Z with (K + Zpos dd)%Z by lia.
        rewrite <- shiftP_add by lia. reflexivity. }
    apply binary_round_aux_canonical; [exact Hcanon | lia].
Qed.

Lemma digits_size (p : positive) : digits2_pos p = Pos.size p.
Proof. induction p as [p IH | p IH |]; simpl; congruence. Qed.

Lemma small_digits (p : positive) :
  (Npos p < 2 ^ 53)%N -> (Zpos (digits2_pos p) <= 53)%Z.
Proof.
  intro H. rewrite digits_size.
  assert (Hp : (p < 2 ^ 53)%positive) by lia.
  pose proof (Pos.size_le p) as Hs.
  assert (H54 : (2 ^ Pos.size p < 2 ^ 54)%positive).
  { eapply Pos.le_lt_trans; [exact Hs |].
    change (2 ^ 54)%positive with ((2 ^ 53)~0)%positive. lia. }
  assert (HZ : (2 ^ Zpos (Pos.size p) < 2 ^ 54)%Z).
  { change (2 ^ 54)%Z with (Zpos (2 ^ 54)).
    rewrite <- (Pos2Z.inj_pow 2 (Pos.size p)). lia. }
  apply Z.pow_lt_mono_r_iff in HZ; lia.
Qed.

(** The normal form of a whole number: 53 bits of mantissa. *)
Lemma datum_canonical (p : positive) :
  (Npos p < 2 ^ 53)%N ->
  datum (Npos p)
  = S754_finite false (shiftP p (53 - Zpos (digits2_pos p)))
                (Zpos (digits2_pos p) - 53).
Proof.
  intro H. apply (binary_round_shift p 0 (small_digits p H)). lia.
Qed.

Lemma datum_round_shift (q : positive) (K : Z) :
  (Npos q < 2 ^ 53)%N -> (0 <= K)%Z ->
  binary_round prec emax false (shiftP q K) (- K) = datum (Npos q).
Proof.
  intros H HK. rewrite (datum_canonical q H).
  apply binary_round_shift; [apply small_digits; exact H | exact HK].
Qed.

Lemma shl_align_shiftP (m : positive) (ex ez : Z) :
  (ez <= ex)%Z -> fst (shl_align m ex ez) = shiftP m (ex - ez).
Proof.
  intro H. unfold shl_align.
  destruct (ez - ex)%Z as [| d | d] eqn:E.
  - replace (ex - ez)%Z with 0%Z by lia. reflexivity.
  - lia.
  - replace (ex - ez)%Z with (Zpos d) by lia. reflexivity.
Qed.

Lemma aligned (p : positive) (ez : Z) :
  (Npos p < 2 ^ 53)%N -> (ez <= Zpos (digits2_pos p) - 53)%Z ->
  Zpos (fst (shl_align (shiftP p (53 - Zpos (digits2_pos p)))
                       (Zpos (digits2_pos p) - 53) ez))
  = (Zpos p * 2 ^ (- ez))%Z.
Proof.
  intros H Hez. pose proof (small_digits p H) as Hd.
  rewrite shl_align_shiftP by exact Hez.
  rewrite shiftP_add by lia. rewrite Zpos_shiftP by lia.
  f_equal. f_equal. lia.
Qed.

(** IEEE 754 addition of two whole numbers whose sum is below [2^53] is
    their sum. *)
Lemma SFadd_datum (a b : N) :
  (a + b < 2 ^ 53)%N ->
  SFadd prec emax (datum a) (datum b) = datum (a + b).
Proof.
  intro H. destruct a as [| a], b as [| b].
  - reflexivity.
  - rewrite N.add_0_l in *. rewrite (datum_canonical b) by exact H.
    reflexivity.
  - rewrite N.add_0_r in *. rewrite (datum_canonical a) by exact H.
    reflexivity.
  - assert (Ha : (Npos a < 2 ^ 53)%N) by lia.
    assert (Hb : (Npos b < 2 ^ 53)%N) by lia.
    rewrite (datum_canonical a Ha), (datum_canonical b Hb).
    pose proof (small_digits a Ha) as Hda.
    pose proof (small_digits b Hb) as Hdb.
    unfold SFadd.
    set (ez := Z.min (Zpos (digits2_pos a) - 53) (Zpos (digits2_pos b) - 53)).
    rewrite (aligned a ez Ha), (aligned b ez Hb) by (unfold ez; lia).
    cbn [cond_Zopp].
    replace (Zpos a * 2 ^ (- ez) + Zpos b * 2 ^ (- ez))%Z
      with (Zpos (shiftP (a + b) (- ez)))
      by (rewrite Zpos_shiftP by (unfold ez; lia); lia).
    cbn [binary_normalize].
    replace ez with (- - ez)%Z at 2 by lia.
    apply (datum_round_shift (a + b) (- ez)); [exact H | unfold ez; lia].
Qed.

(** IEEE 754 subtraction of a whole number from a larger one below
    [2^53] is their difference. *)
Lemma SFsub_datum (a b : N) :
  (b <= a)%N -> (a < 2 ^ 53)%N ->
  SFsub prec emax (datum a) (datum b) = datum (a - b).
Proof.
  intros Hle H. destruct a as [| a], b as [| b].
  - reflexivity.
  - lia.
  - rewrite N.sub_0_r. rewrite (datum_canonical a) by exact H. reflexivity.
  - assert (Hb : (Npos b < 2 ^ 53)%N) by lia.
    rewrite (datum_canonical a H), (datum_canonical b Hb).
    pose proof (small_digits a H) as Hda.
    pose proof (small_digits b Hb) as Hdb.
    unfold SFsub.
    set (ez := Z.min (Zpos (digits2_pos a) - 53) (Zpos (digits2_pos b) - 53)).
    rewrite (aligned a ez H), (aligned b ez Hb) by (unfold ez; lia).
    cbn [cond_Zopp].
    destruct (N.eq_dec (Npos a) (Npos b)) as [Heq | Hne].
    + injection Heq as ->. rewrite Z.sub_diag, N.sub_diag. reflexivity.
    + assert (Hlt : (b < a)%positive) by lia.
      replace (Npos a - Npos b)%N with (Npos (a - b)) by lia.
      replace (Zpos a * 2 ^ (- ez) - Zpos b * 2 ^ (- ez))%Z
        with (Zpos (shiftP (a - b) (- ez)))
        by (rewrite Zpos_shiftP by (unfold ez; lia); nia).
      cbn [binary_normalize].
      replace ez with (- - ez)%Z at 2 by lia.
      apply (datum_round_shift (a - b) (- ez)); [lia | unfold ez; lia].
Qed.

Lemma datum_valid (n : N) : (n < 2 ^ 53)%N -> valid_binary (datum n) = true.
Proof.
  intro H. destruct n as [| p]; [reflexivity |].
  rewrite (datum_canonical p H). pose proof (small_digits p H) as Hd.
  unfold valid_binary, bounded, canonical_mantissa.
  rewrite digits_shiftP by lia.
  apply andb_true_iff. split.
  - apply Z.eqb_eq. unfold fexp, emin, prec, emax. lia.
  - apply Z.leb_le. unfold prec, emax. lia.
Qed.

Lemma Prim2SF_whole (n : N) :
  (n < 2 ^ 53)%N -> Prim2SF (whole n) = datum n.
Proof.
  intro H. destruct n as [| p]; [reflexivity |].
  unfold whole, JS.round_decimal.
  replace (Zpos p * 10 ^ 0)%Z with (Zpos p) by lia.
  apply Prim2SF_SF2Prim. apply (datum_valid (Npos p) H).
Qed.

(** The addition of the screen, on whole numbers. *)
Lemma whole_add (a b : N) :
  (a + b < 2 ^ 53)%N -> plus (whole a) (whole b) = whole (a + b).
Proof.
  intro H. cbn [plus float_Arith]. apply Prim2SF_inj.
  rewrite add_spec, !Prim2SF_whole by lia. apply SFadd_datum. exact H.
Qed.

Lemma whole_sub (a b : N) :
  (b <= a)%N -> (a < 2 ^ 53)%N -> minus (whole a) (whole b) = whole (a - b).
Proof.
  intros Hle H. cbn [minus float_Arith]. apply Prim2SF_inj.
  rewrite sub_spec, !Prim2SF_whole by lia. apply SFsub_datum; assumption.
Qed.

Lemma whole_gt0 (n : N) :
  (0 < n)%N -> (n < 2 ^ 53)%N -> gt0 (whole n) = true.
Proof.
  intros Hpos H. cbn [gt0 float_Arith].
  rewrite ltb_spec, Prim2SF_whole by exact H.
  destruct n as [| p]; [lia |]. rewrite (datum_canonical p H). reflexivity.
Qed.

Lemma whole_truthy (n : N) :
  (0 < n)%N -> (n < 2 ^ 53)%N -> truthy (whole n) = true.
Proof.
  intros Hpos H. cbn [truthy float_Arith]. unfold PrimFloat.is_nan.
  rewrite !eqb_spec, Prim2SF_whole by exact H.
  destruct n as [| p]; [lia |]. rewrite (datum_canonical p H).
  unfold SFeqb, SFcompare.
  rewrite Z.compare_refl, Pos.compare_cont_refl. reflexivity.
Qed.

Lemma digits_numeral (s : string) (acc : N) (len : nat) :
  isNumeral s = true ->
  snd (JS.digits s acc len) = ""
  /\ snd (fst (JS.digits s acc len)) = (len + String.length s)%nat.
Proof.
  revert acc len. induction s as [| c s IH]; intros acc len H.
  - split; [reflexivity | cbn; lia].
  - cbn [isNumeral] in H. apply andb_true_iff in H as [Hc Hs].
    cbn [JS.digits]. rewrite Hc.
    destruct (IH (acc * 10 + JS.digit_val c)%N (S len) Hs) as [H1 H2].
    split; [exact H1 |]. rewrite H2. cbn [String.length]. lia.
Qed.

(** [parseFloat] reads a numeral as the whole number it writes. *)
Lemma parseFloat_numeral (s : string) :
  s <> "" -> isNumeral s = true ->
  JS.parseFloat s = whole (numeral s).
Proof.
  intros Hne H. destruct s as [| c s]; [contradiction Hne; reflexivity |].
  pose proof (digits_numeral (String c s) 0%N 0%nat H) as [Hrest Hlen].
  cbn [isNumeral] in H. apply andb_true_iff in H as [Hc _].
  unfold JS.parseFloat, JS.scan_literal, numeral.
  assert (Htrim : JS.trim_start (String c s) = String c s).
  { cbn [JS.trim_start].
    destruct c as [[] [] [] [] [] [] [] []]; try discriminate Hc;
      reflexivity. }
  assert (Hsign : JS.sign (String c s) = (false, String c s)).
  { destruct c as [[] [] [] [] [] [] [] []]; try discriminate Hc;
      reflexivity. }
  assert (Hinf : String.prefix "Infinity" (String c s) = false).
  { destruct c as [[] [] [] [] [] [] [] []]; try discriminate Hc;
      reflexivity. }
  rewrite Htrim, Hsign, Hinf.
  destruct (JS.digits (String c s) 0%N 0%nat) as [[v len] rest].
  cbn [fst snd] in *. subst rest len. reflexivity.
Qed.

Example parseFloat_whole :
  JS.parseFloat "1500" = whole 1500
  /\ JS.parseFloat "0" = whole 0
  /\ JS.parseFloat "9007199254740991" = whole (2 ^ 53 - 1)
  /\ whole 1500 = 1500%float.
Proof. repeat split; vm_compute; reflexivity. Qed.

End Binary64Properties.

(* ===================================================================== *)
(** ** Payment mapping *)
(* ===================================================================== *)

Module MappingProperties.
Import PaymentView.

(** [parseFloat] of the usual amount strings. *)
Example parseFloat_samples :
  JS.parseFloat "1500.50" = 1500.5%float
  /\ JS.parseFloat "  12abc" = 12%float
  /\ JS.parseFloat ".5e1" = 5%float
  /\ JS.isNaN (JS.parseFloat "abc") = true
  /\ JS.isNaN (JS.parseFloat "") = true
  /\ JS.isNaN (JS.parseFloat "LKR 100") = true.
Proof. repeat split; vm_compute; reflexivity. Qed.

(** A string that, after its leading white space, is empty or starts with
    a character that is no digit, sign or dot and not the [I] of
    [Infinity], has no decimal-literal prefix. *)
Lemma scan_literal_empty : JS.scan_literal "" = None.
Proof. reflexivity. Qed.

Lemma scan_literal_non_numeric (c : ascii) (s : string) :
  JS.is_space c = false ->
  JS.is_digit c = false ->
  c <> "+"%char -> c <> "-"%char -> c <> "."%char -> c <> "I"%char ->
  JS.scan_literal (String c s) = None.
Proof.
  intros Hspace Hdigit Hplus Hminus Hdot HI.
  destruct c as [[|] [|] [|] [|] [|] [|] [|] [|]];
    try discriminate Hspace; try discriminate Hdigit;
    try (contradiction Hplus; reflexivity);
    try (contradiction Hminus; reflexivity);
    try (contradiction Hdot; reflexivity);
    try (contradiction HI; reflexivity);
    reflexivity.
Qed.

(** C1, as stated, fails: a record whose amount is ["abc"] is mapped to a
    payment, and the amount of that payment is [NaN]. *)
Lemma mapPayment_non_numeric_counterexample :
  ~ (forall (toLocaleDateString : string -> string) (raw : ApiPayment.t),
        JS.scan_literal (ApiPayment.amount raw) = None ->
        JS.isNaN (Payment.amount (mapPayment toLocaleDateString raw))
        = false).
Proof.
  intro H.
  specialize (H Sample.localeDate (Sample.rawPayment "PAY-1" "abc" "PENDING")
                eq_refl).
  vm_compute in H. discriminate H.
Qed.

(** C1, amended: the mapping step has no error result; a record whose
    amount string is ASCII and has no decimal-literal prefix is mapped to
    a payment whose amount is [NaN], every other field being mapped as
    for any record. *)
Theorem mapPayment_non_numeric_is_NaN :
  forall (toLocaleDateString : string -> string) (raw : ApiPayment.t),
    JS.isAscii (ApiPayment.amount raw) = true ->
    JS.scan_literal (ApiPayment.amount raw) = None ->
    mapPayment toLocaleDateString raw
    = {| Payment.id := ApiPayment.id raw;
         Payment.transactionId := ApiPayment.id raw;
         Payment.invoiceNumber := ApiPayment.invoice_id raw;
         Payment.clientName := ApiPayment.client_email raw;
         Payment.amount := JS.NaN;
         Payment.paymentMethod :=
           JS.replace "_" " " (JS.toLowerCase (ApiPayment.method raw));
         Payment.status := JS.toLowerCase (ApiPayment.status raw);
         Payment.paidAt := toLocaleDateString (ApiPayment.date raw);
         Payment.reference := "" |}
    /\ JS.isNaN (Payment.amount (mapPayment toLocaleDateString raw)) = true.
Proof.
  intros f raw _ Hscan.
  unfold mapPayment, JS.parseFloat. cbn [Payment.amount].
  rewrite Hscan. split; reflexivity.
Qed.

Lemma mapPayment_non_numeric_is_NaN_witness :
  let raw := Sample.rawPayment "PAY-1" "abc" "PENDING" in
  mapPayment Sample.localeDate raw
  = {| Payment.id := "PAY-1";
       Payment.transactionId := "PAY-1";
       Payment.invoiceNumber := "INV-2025-0007";
       Payment.clientName := "client@everpower.com";
       Payment.amount := JS.NaN;
       Payment.paymentMethod := "bank transfer";
       Payment.status := "pending";
       Payment.paidAt := "2025-01-01T00:00:00.000Z";
       Payment.reference := "" |}
  /\ JS.isNaN (Payment.amount (mapPayment Sample.localeDate raw)) = true.
Proof.
  apply (mapPayment_non_numeric_is_NaN
           Sample.localeDate (Sample.rawPayment "PAY-1" "abc" "PENDING"));
    reflexivity.
Defined.

End MappingProperties.

(* ===================================================================== *)
(** ** Summary cards of the payment screen *)
(* ===================================================================== *)

Module AggregationProperties.
Import PaymentView.

Section Cards.

Context {N : Type} {A : Arith N}.

Lemma completedAmount_is_amountByStatus (l : list (Payment.t N)) :
  completedAmount l = amountByStatus "completed" l.
Proof. reflexivity. Qed.

Lemma pendingAmount_is_amountByStatus (l : list (Payment.t N)) :
  pendingAmount l = amountByStatus "pending" l.
Proof. reflexivity. Qed.

Lemma knownStatus_cases (p : Payment.t N) :
  knownStatus p = true ->
  Payment.status p = "completed" \/ Payment.status p = "pending"
  \/ Payment.status p = "failed" \/ Payment.status p = "refunded".
Proof.
  unfold knownStatus, statuses. simpl.
  rewrite !orb_true_iff, !String.eqb_eq. intuition discriminate.
Qed.

End Cards.

(** C8, as stated, fails on the numbers of the screen, in two ways: a
    payment whose status is none of the four (the mapping lower-cases
    whatever the endpoint sends) is in the total and in no per-status
    sum; and with the four statuses only, binary64 addition rounds the
    total [(0.1 + 0.2) + 0.3] and the per-status sums [0.1 + (0.2 + 0.3)]
    differently. *)
Lemma partition_counterexample :
  ~ (forall (payments : list (Payment.t float))
            (searchTerm statusFilter methodFilter : string),
        let filtered :=
          filteredPayments payments searchTerm statusFilter methodFilter in
        sumOverStatuses filtered = totalAmount filtered)
  /\ ~ (forall (payments : list (Payment.t float))
               (searchTerm statusFilter methodFilter : string),
           let filtered :=
             filteredPayments payments searchTerm statusFilter methodFilter in
           forallb knownStatus filtered = true ->
           sumOverStatuses filtered = totalAmount filtered).
Proof.
  split; intro H.
  - specialize (H Sample.cancelledSample "" "all" "all").
    vm_compute in H. discriminate H.
  - specialize (H Sample.roundingSample "" "all" "all" eq_refl).
    vm_compute in H. discriminate H.
Qed.

(** What the two samples evaluate to. *)
Example partition_samples :
  totalAmount (filteredPayments Sample.cancelledSample "" "all" "all")
  = 10%float
  /\ sumOverStatuses (filteredPayments Sample.cancelledSample "" "all" "all")
     = 0%float
  /\ PrimFloat.eqb
       (totalAmount (filteredPayments Sample.roundingSample "" "all" "all"))
       (sumOverStatuses (filteredPayments Sample.roundingSample "" "all" "all"))
     = false
  /\ totalAmount (filteredPayments Sample.roundingSample "" "all" "all")
     = JS.parseFloat "0.6000000000000001"
  /\ sumOverStatuses (filteredPayments Sample.roundingSample "" "all" "all")
     = JS.parseFloat "0.6".
Proof. repeat split; vm_compute; reflexivity. Qed.

Section WholeAmounts.

Import Binary64 Binary64Properties.

(** A running sum of whole amounts is the whole number of their sum. *)
Lemma fold_whole (l : list (Payment.t float)) (units : list N) (acc : N) :
  map (@Payment.amount float) l = map whole units ->
  (acc + total units < 2 ^ 53)%N ->
  fold_left (fun sum payment => plus sum (Payment.amount payment)) l
            (whole acc)
  = whole (acc + total units).
Proof.
  revert units acc.
  induction l as [| p l IH]; intros [| n units] acc Hmap Hlt;
    try discriminate Hmap.
  - cbn [total fold_right fold_left]. rewrite N.add_0_r. reflexivity.
  - cbn [map] in Hmap. injection Hmap as Hp Hmap.
    cbn [total fold_right] in Hlt. fold (total units) in Hlt.
    cbn [fold_left total fold_right]. fold (total units).
    rewrite Hp, whole_add by lia.
    rewrite (IH units (acc + n)%N Hmap) by lia.
    f_equal. lia.
Qed.

Lemma sumAmounts_whole (l : list (Payment.t float)) (units : list N) :
  map (@Payment.amount float) l = map whole units ->
  (total units < 2 ^ 53)%N ->
  sumAmounts l = whole (total units).
Proof.
  intros Hmap Hlt. unfold sumAmounts.
  apply (fold_whole l units 0%N Hmap). exact Hlt.
Qed.

Lemma filter_units (s : string) (l : list (Payment.t float))
      (units : list N) :
  map (@Payment.amount float) l = map whole units ->
  map (@Payment.amount float)
      (filter (fun payment => String.eqb (Payment.status payment) s) l)
  = map whole (unitsByStatus s l units).
Proof.
  revert units.
  induction l as [| p l IH]; intros [| n units] Hmap;
    try discriminate Hmap; [reflexivity |].
  cbn [map] in Hmap. injection Hmap as Hp Hmap.
  unfold unitsByStatus. cbn [combine filter fst].
  destruct (String.eqb (Payment.status p) s).
  - cbn [map snd]. rewrite Hp. f_equal. apply IH. exact Hmap.
  - apply IH. exact Hmap.
Qed.

Lemma unitsByStatus_le (s : string) (l : list (Payment.t float))
      (units : list N) :
  (total (unitsByStatus s l units) <= total units)%N.
Proof.
  revert units.
  induction l as [| p l IH]; intros [| n units];
    try (cbn; lia).
  unfold unitsByStatus. cbn [combine filter fst].
  specialize (IH units). unfold unitsByStatus in IH.
  destruct (String.eqb (Payment.status p) s);
    unfold total in *; cbn [map snd fold_right] in *; lia.
Qed.

(** Each payment with one of the four statuses is counted under exactly
    one of them. *)
Lemma unitsByStatus_partition (l : list (Payment.t float))
      (units : list N) :
  forallb knownStatus l = true ->
  length l = length units ->
  (total (unitsByStatus "completed" l units)
   + total (unitsByStatus "pending" l units)
   + total (unitsByStatus "failed" l units)
   + total (unitsByStatus "refunded" l units)
   = total units)%N.
Proof.
  revert units.
  induction l as [| p l IH]; intros [| n units] Hall Hlen;
    try discriminate Hlen; [reflexivity |].
  cbn [forallb] in Hall. apply andb_true_iff in Hall as [Hp Hall].
  injection Hlen as Hlen. specialize (IH units Hall Hlen).
  unfold unitsByStatus in *. cbn [combine filter fst].
  destruct (knownStatus_cases p Hp) as [H | [H | [H | H]]];
    rewrite H; cbn [String.eqb Ascii.eqb Bool.eqb];
    unfold total in *; cbn [map snd fold_right] in *; lia.
Qed.

Lemma amountByStatus_whole (s : string) (l : list (Payment.t float))
      (units : list N) :
  map (@Payment.amount float) l = map whole units ->
  (total units < 2 ^ 53)%N ->
  amountByStatus s l = whole (total (unitsByStatus s l units)).
Proof.
  intros Hmap Hlt. unfold amountByStatus.
  apply sumAmounts_whole.
  - apply filter_units. exact Hmap.
  - pose proof (unitsByStatus_le s l units). lia.
Qed.

Lemma sumOverStatuses_whole (l : list (Payment.t float)) (units : list N) :
  forallb knownStatus l = true ->
  map (@Payment.amount float) l = map whole units ->
  (total units < 2 ^ 53)%N ->
  sumOverStatuses l = whole (total units).
Proof.
  intros Hall Hmap Hlt.
  assert (Hlen : length l = length units).
  { rewrite <- (length_map (@Payment.amount float) l), Hmap.
    apply length_map. }
  pose proof (unitsByStatus_partition l units Hall Hlen) as Hsum.
  unfold sumOverStatuses, statuses. cbn [fold_left].
  rewrite !(amountByStatus_whole _ l units Hmap Hlt).
  change (@zero float float_Arith) with (whole 0).
  rewrite !whole_add by lia.
  f_equal. lia.
Qed.

End WholeAmounts.

(** C8, amended: in the binary64 arithmetic of the screen, for every
    filtered collection all of whose payments have one of the four
    statuses and a whole amount ([units] lists the amounts, in the order
    of the collection), with a total below [2^53], the per-status sums
    over the four statuses add up to [totalAmount], which is the whole
    number of the total. *)
Theorem partition_sums_to_total :
  forall (payments : list (Payment.t float))
         (searchTerm statusFilter methodFilter : string) (units : list N),
    let filtered :=
      filteredPayments payments searchTerm statusFilter methodFilter in
    forallb knownStatus filtered = true ->
    map (@Payment.amount float) filtered = map Binary64.whole units ->
    (Binary64.total units < 2 ^ 53)%N ->
    sumOverStatuses filtered = totalAmount filtered
    /\ totalAmount filtered = Binary64.whole (Binary64.total units).
Proof.
  intros payments searchTerm statusFilter methodFilter units filtered
         Hall Hmap Hlt.
  rewrite (sumOverStatuses_whole filtered units Hall Hmap Hlt).
  unfold totalAmount.
  rewrite (sumAmounts_whole filtered units Hmap Hlt).
  split; reflexivity.
Qed.

Lemma partition_sums_to_total_witness :
  let filtered :=
    filteredPayments Fixture.wholePayments "everpower" "all" "all" in
  sumOverStatuses filtered = totalAmount filtered
  /\ totalAmount filtered = Binary64.whole 1875.
Proof.
  apply (partition_sums_to_total Fixture.wholePayments
                                 "everpower" "all" "all"
                                 [1500; 250; 75; 40; 10]%N).
  - vm_compute. reflexivity.
  - vm_compute. reflexivity.
  - vm_compute. reflexivity.
Defined.

End AggregationProperties.

(* ===================================================================== *)
(** ** The outstanding-by-debtor series of the dashboard *)
(* ===================================================================== *)

Module DashboardProperties.
Import Dashboard.

Section Sorting.

Context {N : Type} {A : Arith N}.

Lemma insert_perm (cmp : TopDebtor.t N -> TopDebtor.t N -> N)
      (x : TopDebtor.t N) (l : list (TopDebtor.t N)) :
  Permutation (insert cmp x l) (x :: l).
Proof.
  induction l as [| y l IH]; simpl.
  - apply Permutation_refl.
  - destruct (gt0 (cmp x y)).
    + apply Permutation_trans with (y :: x :: l).
      * apply perm_skip. exact IH.
      * apply perm_swap.
    + apply Permutation_refl.
Qed.

Lemma sort_perm (cmp : TopDebtor.t N -> TopDebtor.t N -> N)
      (l : list (TopDebtor.t N)) :
  Permutation (sort cmp l) l.
Proof.
  induction l as [| x l IH]; simpl.
  - apply perm_nil.
  - apply Permutation_trans with (x :: sort cmp l).
    + apply insert_perm.
    + apply perm_skip. exact IH.
Qed.

Lemma consistent_total (l : list (TopDebtor.t N)) (a b : TopDebtor.t N) :
  consistent l -> In a l -> In b l ->
  mayPrecede a b = false -> mayPrecede b a = true.
Proof.
  unfold consistent, consistentb. intros Hc Ha Hb Hab.
  rewrite forallb_forall in Hc. specialize (Hc a Ha).
  rewrite forallb_forall in Hc. specialize (Hc b Hb).
  apply andb_true_iff in Hc as [Hc _].
  rewrite Hab in Hc. exact Hc.
Qed.

Lemma consistent_trans (l : list (TopDebtor.t N)) (a b c : TopDebtor.t N) :
  consistent l -> In a l -> In b l -> In c l ->
  mayPrecede a b = true -> mayPrecede b c = true -> mayPrecede a c = true.
Proof.
  unfold consistent, consistentb. intros Hc Ha Hb Hcl Hab Hbc.
  rewrite forallb_forall in Hc. specialize (Hc a Ha).
  rewrite forallb_forall in Hc. specialize (Hc b Hb).
  apply andb_true_iff in Hc as [_ Hc].
  rewrite forallb_forall in Hc. specialize (Hc c Hcl).
  rewrite Hab, Hbc in Hc. exact Hc.
Qed.

(** Inserting a debtor of [all] into a sorted list of debtors of [all]. *)
Lemma insert_sorted (all : list (TopDebtor.t N)) (x : TopDebtor.t N)
      (l : list (TopDebtor.t N)) :
  consistent all -> In x all -> incl l all ->
  StronglySorted notBelow l ->
  StronglySorted notBelow (insert byOutstandingDesc x l).
Proof.
  intros Hc Hx. induction l as [| y l IH]; intros Hincl Hs; simpl.
  - constructor; constructor.
  - inversion Hs as [| y' l' Hl Hy]; subst.
    assert (Hyin : In y all) by (apply Hincl; left; reflexivity).
    assert (Hlin : incl l all)
      by (intros z Hz; apply Hincl; right; exact Hz).
    destruct (gt0 (byOutstandingDesc x y)) eqn:Hcmp.
    + constructor.
      * apply IH; assumption.
      * apply (Permutation_Forall
                 (Permutation_sym (insert_perm byOutstandingDesc x l))).
        constructor; [| exact Hy].
        apply (consistent_total all x y Hc Hx Hyin).
        unfold mayPrecede. rewrite Hcmp. reflexivity.
    + assert (Hxy : mayPrecede x y = true)
        by (unfold mayPrecede; rewrite Hcmp; reflexivity).
      constructor; [exact Hs |].
      constructor; [exact Hxy |].
      rewrite Forall_forall in Hy |- *.
      intros z Hz.
      apply (consistent_trans all x y z Hc Hx Hyin (Hlin z Hz) Hxy).
      apply Hy. exact Hz.
Qed.

Lemma sort_sorted_within (all l : list (TopDebtor.t N)) :
  consistent all -> incl l all ->
  StronglySorted notBelow (sort byOutstandingDesc l).
Proof.
  intro Hc. induction l as [| x l IH]; intro Hincl; simpl.
  - constructor.
  - assert (Hlin : incl l all)
      by (intros z Hz; apply Hincl; right; exact Hz).
    apply (insert_sorted all); try assumption.
    + apply Hincl. left. reflexivity.
    + intros z Hz. apply Hlin.
      apply (Permutation_in z (sort_perm byOutstandingDesc l)). exact Hz.
    + apply IH. exact Hlin.
Qed.

Lemma sort_sorted (l : list (TopDebtor.t N)) :
  consistent l -> StronglySorted notBelow (sort byOutstandingDesc l).
Proof.
  intro Hc. apply (sort_sorted_within l l Hc). apply incl_refl.
Qed.

End Sorting.

(** On exact integer amounts the comparator is consistent on every list. *)
Lemma Z_consistent (l : list (TopDebtor.t Z)) : consistent l.
Proof.
  unfold consistent, consistentb.
  apply forallb_forall. intros a _.
  apply forallb_forall. intros b _.
  apply andb_true_iff. split.
  - unfold mayPrecede, byOutstandingDesc; simpl.
    destruct (Z.ltb_spec 0 (TopDebtor.outstanding b - TopDebtor.outstanding a));
      destruct (Z.ltb_spec 0
                  (TopDebtor.outstanding a - TopDebtor.outstanding b));
      simpl; try reflexivity; lia.
  - apply forallb_forall. intros c _.
    unfold mayPrecede, byOutstandingDesc; simpl.
    destruct (Z.ltb_spec 0 (TopDebtor.outstanding b - TopDebtor.outstanding a));
      destruct (Z.ltb_spec 0
                  (TopDebtor.outstanding c - TopDebtor.outstanding b));
      destruct (Z.ltb_spec 0
                  (TopDebtor.outstanding c - TopDebtor.outstanding a));
      simpl; try reflexivity; lia.
Qed.

(** The example of the specification on binary64 numbers: the screen
    keeps four debtors, so 40 of the 320 are left for "Others"; and with
    a total equal to the sum of the four there is no "Others". *)
Example outstandingData_samples :
  map value
      (outstandingData
         (Some (Sample.stats 320%float
                  (Sample.debtors 20%float 40%float 60%float 80%float
                                  100%float))))
  = [100%float; 80%float; 60%float; 40%float; 40%float]
  /\ map name
         (outstandingData
            (Some (Sample.stats 320%float
                     (Sample.debtors 20%float 40%float 60%float 80%float
                                     100%float))))
     = ["asolar"; "bwind"; "cgrid"; "dhydro"; "Others"]
  /\ map value
         (outstandingData
            (Some (Sample.stats 280%float
                     (Sample.debtors 20%float 40%float 60%float 80%float
                                     100%float))))
     = [100%float; 80%float; 60%float; 40%float].
Proof. repeat split; vm_compute; reflexivity. Qed.

(** C9, as stated, fails: with no debtor in the list and 320 outstanding
    the residual is 320 and strictly positive, yet the series is empty
    and has no "Others" entry. *)
Lemma outstandingData_counterexample :
  ~ (forall stats : DashboardStats.t float,
        outstandingData (Some stats)
        = specTopNPlusOthers topN (DashboardStats.topDebtors stats)
                             (DashboardStats.totalOutstanding stats)).
Proof.
  intro H. specialize (H (Sample.stats 320%float [])).
  vm_compute in H. discriminate H.
Qed.

(** C9, amended: the series is empty when there are no statistics or no
    debtor; for a non-empty debtor list on which the comparator is
    consistent (as it is on any list of exact amounts; a [NaN] outstanding
    breaks it) it is the four largest debtors in descending order of
    outstanding, whatever the order of the input, followed by an "Others"
    entry whose value is the total outstanding (0 when that is falsy)
    less the sum of the four, present exactly when that value is strictly
    positive. *)
Theorem outstandingData_top4_plus_others :
  forall (N : Type) (A : Arith N) (stats : DashboardStats.t N),
    let debtors := DashboardStats.topDebtors stats in
    let sorted := sort byOutstandingDesc debtors in
    let top := map entryOf (firstn 4 sorted) in
    let residual :=
      minus (orZero (DashboardStats.totalOutstanding stats))
            (sumValues top) in
    outstandingData None = []
    /\ (debtors = [] -> outstandingData (Some stats) = [])
    /\ (debtors <> [] ->
        consistent debtors ->
        Permutation sorted debtors
        /\ StronglySorted notBelow sorted
        /\ outstandingData (Some stats)
           = top ++ (if gt0 residual
                     then [ {| name := "Others"; value := residual |} ]
                     else [])
        /\ outstandingData (Some stats)
           = specTopNPlusOthers
               4 debtors (orZero (DashboardStats.totalOutstanding stats))).
Proof.
  intros N A stats debtors sorted top residual.
  split; [reflexivity |]. split.
  - intro Hnil. unfold outstandingData. fold debtors. rewrite Hnil.
    reflexivity.
  - intros Hne Hc. split; [apply sort_perm |].
    split; [apply sort_sorted; exact Hc |].
    assert (Hdata : outstandingData (Some stats)
                    = if gt0 residual
                      then top ++ [ {| name := "Others"; value := residual |} ]
                      else top).
    { unfold outstandingData. fold debtors.
      destruct debtors as [| d ds] eqn:Hd; [contradiction Hne; reflexivity |].
      reflexivity. }
    split.
    + rewrite Hdata. destruct (gt0 residual); [reflexivity |].
      rewrite app_nil_r. reflexivity.
    + rewrite Hdata. reflexivity.
Qed.

(** The theorem at the specification's example, on binary64 numbers. *)
Lemma outstandingData_top4_plus_others_witness :
  let stats :=
    Sample.stats 320%float
                 (Sample.debtors 20%float 40%float 60%float 80%float
                                 100%float) in
  let debtors := DashboardStats.topDebtors stats in
  let sorted := sort byOutstandingDesc debtors in
  let top := map entryOf (firstn 4 sorted) in
  let residual :=
    minus (orZero (DashboardStats.totalOutstanding stats)) (sumValues top) in
  Permutation sorted debtors
  /\ StronglySorted notBelow sorted
  /\ outstandingData (Some stats)
     = top ++ (if gt0 residual
               then [ {| name := "Others"; value := residual |} ]
               else [])
  /\ outstandingData (Some stats)
     = specTopNPlusOthers
         4 debtors (orZero (DashboardStats.totalOutstanding stats)).
Proof.
  apply (outstandingData_top4_plus_others
           float float_Arith
           (Sample.stats 320%float
                         (Sample.debtors 20%float 40%float 60%float 80%float
                                         100%float))).
  - discriminate.
  - vm_compute. reflexivity.
Defined.

(** On exact integer amounts the condition on the comparator always
    holds. *)
Corollary outstandingData_exact :
  forall stats : DashboardStats.t Z,
    DashboardStats.topDebtors stats <> [] ->
    let sorted := sort byOutstandingDesc (DashboardStats.topDebtors stats) in
    Permutation sorted (DashboardStats.topDebtors stats)
    /\ StronglySorted notBelow sorted
    /\ outstandingData (Some stats)
       = specTopNPlusOthers
           4 (DashboardStats.topDebtors stats)
           (orZero (DashboardStats.totalOutstanding stats)).
Proof.
  intros stats Hne sorted.
  split; [apply sort_perm |].
  split; [apply sort_sorted; apply Z_consistent |].
  unfold outstandingData.
  destruct (DashboardStats.topDebtors stats) as [| d ds] eqn:Hd;
    [contradiction Hne; reflexivity |].
  reflexivity.
Qed.

End DashboardProperties.

(* ===================================================================== *)
(** ** List fetches *)
(* ===================================================================== *)

Module FetchProperties.
Import Effects Net.
Local Open Scope string_scope.

(** C2, as stated, fails: the payment list fetch answered by 401 with
    the body [{"message":"token expired"}] leaves the status-derived
    message in the error cell. *)
Lemma list_fetch_message_counterexample :
  ~ (forall (r : Response (list ApiPayment.t)) (message : string)
            (st : PaymentManagement.State),
        wellFormed r ->
        ok r = false ->
        payload r = JsonObject (Some message) None ->
        PaymentManagement.error
          (PaymentManagement.run
             (calls (PaymentManagement.fetchPayments
                       "https://api.everpower.example" Sample.getToken
                       Sample.localeDate (Replied r)))
             st)
        = Some message).
Proof.
  intro H.
  specialize (H (mkResponse false 401 "Unauthorized"
                            (JsonObject (Some "token expired") None))
                "token expired" PaymentManagement.initialState
                eq_refl eq_refl eq_refl).
  vm_compute in H. discriminate H.
Qed.

(** C2, amended: a list fetch answered by a response that is not [ok] (a
    status outside 200-299) puts a generic message in the error cell
    whatever the body holds: the message derived from the status on the
    payment and user screens, a fixed one on the invoice screen (where a
    credential is present and the status is not 304). *)
Theorem list_fetch_error_is_generic :
  forall (API_URL : string) (getItem : string -> option string)
         (toLocaleDateString : string -> string)
         (urlToString : string -> list (string * string) -> string)
         (rP : Response (list ApiPayment.t)) (rU : Response (list User.t))
         (rI : Response (list Invoice.t))
         (stP : PaymentManagement.State) (stU : UserManagement.State)
         (stI : InvoiceManagement.State),
    (ok rP = false ->
     PaymentManagement.error
       (PaymentManagement.run
          (calls (PaymentManagement.fetchPayments
                    API_URL getItem toLocaleDateString (Replied rP)))
          stP)
     = Some ("HTTP error! status: " ++ JS.nat_to_string (status rP)))
    /\ (ok rU = false ->
        UserManagement.error
          (UserManagement.run
             (calls (UserManagement.fetchUsers
                       API_URL getItem urlToString stU (Replied rU)))
             stU)
        = Some ("HTTP error! status: " ++ JS.nat_to_string (status rU)))
    /\ (ok rI = false ->
        noToken (getItem "token") = false ->
        status rI <> 304 ->
        InvoiceManagement.error
          (InvoiceManagement.run
             (calls (InvoiceManagement.fetchInvoices
                       API_URL getItem (Replied rI)))
             stI)
        = Some "Failed to fetch invoices.").
Proof.
  intros API_URL getItem f urlToString rP rU rI stP stU stI.
  split; [| split].
  - destruct rP as [[|] status text body]; intro Hok;
      [discriminate Hok |].
    destruct stP. reflexivity.
  - destruct rU as [[|] status text body]; intro Hok;
      [discriminate Hok |].
    destruct stU. reflexivity.
  - destruct rI as [[|] status text body]; intros Hok Htok H304;
      [discriminate Hok |].
    unfold InvoiceManagement.fetchInvoices, calls.
    rewrite Htok. cbn -[Nat.eqb].
    cbn [Net.status] in H304.
    apply Nat.eqb_neq in H304. rewrite H304.
    destruct stI. reflexivity.
Qed.

Lemma list_fetch_error_is_generic_witness :
  PaymentManagement.error
    (PaymentManagement.run
       (calls (PaymentManagement.fetchPayments
                 "https://api.everpower.example" Sample.getToken
                 Sample.localeDate
                 (Replied (mkResponse false 401 "Unauthorized"
                                      (JsonObject (Some "token expired")
                                                  None)))))
       PaymentManagement.initialState)
  = Some "HTTP error! status: 401"
  /\ UserManagement.error
       (UserManagement.run
          (calls (UserManagement.fetchUsers
                    "https://api.everpower.example" Sample.getToken
                    Sample.urlToString UserManagement.initialState
                    (Replied (mkResponse false 401 "Unauthorized"
                                         (JsonObject (Some "token expired")
                                                     None)))))
          UserManagement.initialState)
     = Some "HTTP error! status: 401"
  /\ InvoiceManagement.error
       (InvoiceManagement.run
          (calls (InvoiceManagement.fetchInvoices
                    "https://api.everpower.example" Sample.getToken
                    (Replied (mkResponse false 401 "Unauthorized"
                                         (JsonObject (Some "token expired")
                                                     None)))))
          InvoiceManagement.initialState)
     = Some "Failed to fetch invoices.".
Proof.
  destruct (list_fetch_error_is_generic
              "https://api.everpower.example" Sample.getToken
              Sample.localeDate Sample.urlToString
              (mkResponse false 401 "Unauthorized"
                          (JsonObject (Some "token expired") None))
              (mkResponse false 401 "Unauthorized"
                          (JsonObject (Some "token expired") None))
              (mkResponse false 401 "Unauthorized"
                          (JsonObject (Some "token expired") None))
              PaymentManagement.initialState UserManagement.initialState
              InvoiceManagement.initialState)
    as (HP & HU & HI).
  split; [apply HP; reflexivity | split; [apply HU; reflexivity |]].
  apply HI; [reflexivity | reflexivity | discriminate].
Defined.

(** The invoice list fetch treats 304 as "no change": the collection and
    the error cell are as before the answer, and loading ends. *)
Lemma fetchInvoices_not_modified :
  forall (API_URL : string) (getItem : string -> option string)
         (statusText : string) (body : Body (list Invoice.t))
         (st : InvoiceManagement.State),
    noToken (getItem "token") = false ->
    let st' :=
      InvoiceManagement.run
        (calls (InvoiceManagement.fetchInvoices
                  API_URL getItem
                  (Replied (mkResponse false 304 statusText body))))
        st in
    InvoiceManagement.invoices st' = InvoiceManagement.invoices st
    /\ InvoiceManagement.error st' = None
    /\ InvoiceManagement.loading st' = false.
Proof.
  intros API_URL getItem statusText body st Htok.
  unfold InvoiceManagement.fetchInvoices, calls.
  rewrite Htok. destruct st. repeat split.
Qed.

(** C3: the payment and user list fetches answered by 304 do not treat it
    as "no change". Both end in the error state with the message of the
    status; the payment collection is as before, the user collection is
    emptied. *)
Theorem list_fetch_304_is_an_error :
  forall (API_URL : string) (getItem : string -> option string)
         (toLocaleDateString : string -> string)
         (urlToString : string -> list (string * string) -> string)
         (statusText : string)
         (paymentsBody : Body (list ApiPayment.t))
         (usersBody : Body (list User.t))
         (stP : PaymentManagement.State) (stU : UserManagement.State),
    let stP' :=
      PaymentManagement.run
        (calls (PaymentManagement.fetchPayments
                  API_URL getItem toLocaleDateString
                  (Replied (mkResponse false 304 statusText paymentsBody))))
        stP in
    let stU' :=
      UserManagement.run
        (calls (UserManagement.fetchUsers
                  API_URL getItem urlToString stU
                  (Replied (mkResponse false 304 statusText usersBody))))
        stU in
    wellFormed (mkResponse false 304 statusText paymentsBody)
    /\ PaymentManagement.error stP' = Some "HTTP error! status: 304"
    /\ PaymentManagement.payments stP' = PaymentManagement.payments stP
    /\ UserManagement.error stU' = Some "HTTP error! status: 304"
    /\ UserManagement.users stU' = Some [].
Proof.
  intros API_URL getItem f urlToString statusText bodyP bodyU stP stU.
  destruct stP, stU. repeat split.
Qed.

(** The invoice list fetch without a credential: no request, and the
    error cell says so. *)
Lemma fetchInvoices_without_credential :
  forall (API_URL : string) (reply : Reply (list Invoice.t))
         (st : InvoiceManagement.State),
    let m := InvoiceManagement.fetchInvoices API_URL (fun _ => None) reply in
    InvoiceManagement.requests (calls m) = []
    /\ InvoiceManagement.error (InvoiceManagement.run (calls m) st)
       = Some "No authentication token found.".
Proof.
  intros API_URL reply st. destruct st. split; reflexivity.
Qed.

(** C6: with no credential in the store the payment and user list
    fetches are sent all the same, with the header [Bearer null]. *)
Theorem list_fetch_without_credential_is_sent :
  forall (API_URL : string) (toLocaleDateString : string -> string)
         (urlToString : string -> list (string * string) -> string)
         (stU : UserManagement.State)
         (paymentsReply : Reply (list ApiPayment.t))
         (usersReply : Reply (list User.t)),
    PaymentManagement.requests
      (calls (PaymentManagement.fetchPayments
                API_URL (fun _ => None) toLocaleDateString paymentsReply))
    = [ {| method := GET;
           url := API_URL ++ "/payments";
           headers := [("Content-Type", "application/json");
                       ("Authorization", "Bearer null")];
           body := None |} ]
    /\ UserManagement.requests
         (calls (UserManagement.fetchUsers
                   API_URL (fun _ => None) urlToString stU usersReply))
       = [ {| method := GET;
              url := urlToString
                       (API_URL ++ "/users")
                       (if JS.truthy_string (UserManagement.searchTerm stU)
                        then [("q", UserManagement.searchTerm stU)]
                        else []);
              headers := [("Authorization", "Bearer null")];
              body := None |} ].
Proof.
  intros API_URL f urlToString stU replyP replyU. split.
  - destruct replyP as [| e | [[|] status text [e | message [data |]]]];
      reflexivity.
  - destruct replyU as [| e | [[|] status text [e | message data]]];
      reflexivity.
Qed.

End FetchProperties.

(* ===================================================================== *)
(** ** The payment screen *)
(* ===================================================================== *)

Module PaymentScreenProperties.
Import Effects Net Protocol PaymentManagement.
Local Open Scope string_scope.

(** C10: the mapping step gives every payment the empty reference,
    whatever the record of the endpoint holds (its undeclared properties
    included); the details dialog therefore shows "N/A"; and every payment
    the list fetch stores is such a payment. *)
Theorem mapped_reference_is_empty :
  forall (toLocaleDateString : string -> string) (raw : ApiPayment.t),
    Payment.reference (PaymentView.mapPayment toLocaleDateString raw) = ""
    /\ PaymentView.referenceShown
         (PaymentView.mapPayment toLocaleDateString raw) = "N/A"
    /\ forall (API_URL : string) (getItem : string -> option string)
              (reply : Reply (list ApiPayment.t)) (stored : list Payment),
        In (setPayments stored)
           (calls (fetchPayments API_URL getItem toLocaleDateString reply)) ->
        Forall (fun p => Payment.reference p = ""
                         /\ PaymentView.referenceShown p = "N/A") stored.
Proof.
  intros f raw. split; [reflexivity | split; [reflexivity |]].
  intros API_URL getItem reply stored Hin.
  assert (Hstored : exists data, stored = map (PaymentView.mapPayment f) data).
  { destruct reply as [| e | [[|] status text [e | message [data |]]]];
      cbn in Hin;
      repeat (destruct Hin as [Hin | Hin]; try discriminate Hin);
      try contradiction.
    exists data. injection Hin as <-. reflexivity. }
  destruct Hstored as [data ->].
  apply Forall_forall. intros p Hp.
  apply in_map_iff in Hp as [raw' [<- _]]. split; reflexivity.
Qed.

(** Case analysis on the reply to the list request: not yet there,
    rejected, or a response, [ok] or not, with each kind of body. *)
Ltac list_reply_cases reply :=
  destruct reply as [| ? | [[|] ? ? [? | ? [? |]]]].

Ltac settle st :=
  destruct st; vm_compute; repeat apply conj; reflexivity.




(** Case analysis on a failed mutation: rejected, or answered by a
    response that is not [ok], with each kind of body. *)
Ltac failed_cases H :=
  destruct H as [(? & ->) | ([[|] ? ? [? | ? ?]] & -> & H)];
  [| discriminate H | discriminate H | |].

(** A mutation of the payment screen that fails: nothing is hidden,
    reset or requested again; the message of the failure is in
    [submitError]; the dialog, the form and the collection are as they
    were. *)
Lemma handleCreatePayment_failed :
  forall (API_URL : string) (getItem : string -> option string)
         (toLocaleDateString : string -> string)
         (toISOString : string -> option string)
         (st : State) (reply : Reply unit)
         (listReply : Reply (list ApiPayment.t)),
    failed reply ->
    toISOString (date (newPayment st)) <> None ->
    let m := handleCreatePayment API_URL getItem toLocaleDateString
                                 toISOString st reply listReply in
    let st' := run (calls m) st in
    steps (calls m) = []
    /\ refetches (calls m) = 0
    /\ submitError st' = Some (failureMessage reply)
    /\ showCreateModal st' = showCreateModal st
    /\ newPayment st' = newPayment st
    /\ payments st' = payments st.
Proof.
  intros API_URL getItem f toISO st reply listReply Hfail Hdate.
  destruct (toISO (date (newPayment st))) as [d |] eqn:Hd;
    [| contradiction Hdate; reflexivity].
  unfold handleCreatePayment. rewrite Hd. clear Hd Hdate.
  failed_cases Hfail; settle st.
Qed.

Lemma handleUpdatePayment_failed :
  forall (API_URL : string) (getItem : string -> option string)
         (toLocaleDateString : string -> string)
         (st : State) (reply : Reply unit)
         (listReply : Reply (list ApiPayment.t)),
    failed reply ->
    editingPayment st <> None ->
    let m := handleUpdatePayment API_URL getItem toLocaleDateString
                                 st reply listReply in
    let st' := run (calls m) st in
    steps (calls m) = []
    /\ refetches (calls m) = 0
    /\ submitError st' = Some (failureMessage reply)
    /\ showUpdateModal st' = showUpdateModal st
    /\ editingPayment st' = editingPayment st
    /\ payments st' = payments st.
Proof.
  intros API_URL getItem f st reply listReply Hfail Hed.
  destruct (editingPayment st) as [editing |] eqn:He;
    [| contradiction Hed; reflexivity].
  unfold handleUpdatePayment. rewrite He.
  failed_cases Hfail; destruct st; cbn in He; subst;
    vm_compute; repeat apply conj; reflexivity.
Qed.

Lemma handleDeletePayment_failed :
  forall (API_URL : string) (getItem : string -> option string)
         (toLocaleDateString : string -> string)
         (st : State) (reply : Reply unit)
         (listReply : Reply (list ApiPayment.t)),
    failed reply ->
    selectedPayment st <> None ->
    let m := handleDeletePayment API_URL getItem toLocaleDateString
                                 st reply listReply in
    let st' := run (calls m) st in
    steps (calls m) = []
    /\ refetches (calls m) = 0
    /\ submitError st' = Some (failureMessage reply)
    /\ showDeleteModal st' = showDeleteModal st
    /\ selectedPayment st' = selectedPayment st
    /\ payments st' = payments st.
Proof.
  intros API_URL getItem f st reply listReply Hfail Hsel.
  destruct (selectedPayment st) as [selected |] eqn:Hs;
    [| contradiction Hsel; reflexivity].
  unfold handleDeletePayment. rewrite Hs.
  failed_cases Hfail; destruct st; cbn in Hs; subst;
    vm_compute; repeat apply conj; reflexivity.
Qed.

(** The submit buttons of the three dialogs carry [disabled={isSubmitting}]:
    while the cell holds, a click on any of them calls nothing. *)
Lemma payment_clicks_while_submitting :
  forall (API_URL : string) (getItem : string -> option string)
         (toLocaleDateString : string -> string)
         (toISOString : string -> option string)
         (st : State) (reply : Reply unit)
         (listReply : Reply (list ApiPayment.t)),
    isSubmitting st = true ->
    calls (clickRecordPayment API_URL getItem toLocaleDateString toISOString
                              st reply listReply) = []
    /\ calls (clickUpdatePayment API_URL getItem toLocaleDateString
                                 st reply listReply) = []
    /\ calls (clickDeletePayment API_URL getItem toLocaleDateString
                                 st reply listReply) = [].
Proof.
  intros API_URL getItem f toISO st reply listReply Hsub.
  unfold clickRecordPayment, clickUpdatePayment, clickDeletePayment, click.
  rewrite Hsub, !andb_false_r. repeat split.
Qed.

(** A first click that sends its request leaves [isSubmitting] set for as
    long as the reply is pending. *)
Lemma clickRecordPayment_in_flight :
  forall (API_URL : string) (getItem : string -> option string)
         (toLocaleDateString : string -> string)
         (toISOString : string -> option string)
         (st : State) (listReply : Reply (list ApiPayment.t)),
    showCreateModal st = true ->
    isSubmitting st = false ->
    toISOString (date (newPayment st)) <> None ->
    let m := clickRecordPayment API_URL getItem toLocaleDateString
                                toISOString st Pending listReply in
    res m = Await
    /\ length (requests (calls m)) = 1
    /\ isSubmitting (run (calls m) st) = true.
Proof.
  intros API_URL getItem f toISO st listReply Hshown Hsub Hdate.
  destruct (toISO (date (newPayment st))) as [d |] eqn:Hd;
    [| contradiction Hdate; reflexivity].
  unfold clickRecordPayment, click, handleCreatePayment.
  rewrite Hshown, Hsub, Hd. clear Hd Hdate.
  destruct st. vm_compute. repeat split.
Qed.

(** A form whose date [toISOString] rejects: the error is thrown before
    the [try], so nothing is sent, nothing is reported in [submitError],
    and [isSubmitting] stays set. *)
Lemma handleCreatePayment_invalid_date :
  forall (API_URL : string) (getItem : string -> option string)
         (toLocaleDateString : string -> string)
         (toISOString : string -> option string)
         (st : State) (reply : Reply unit)
         (listReply : Reply (list ApiPayment.t)),
    toISOString (date (newPayment st)) = None ->
    let m := handleCreatePayment API_URL getItem toLocaleDateString
                                 toISOString st reply listReply in
    res m = Throw "Invalid time value"
    /\ requests (calls m) = []
    /\ submitError (run (calls m) st) = None
    /\ isSubmitting (run (calls m) st) = true.
Proof.
  intros API_URL getItem f toISO st reply listReply Hdate.
  unfold handleCreatePayment. rewrite Hdate.
  destruct st. vm_compute. repeat split.
Qed.

End PaymentScreenProperties.

(* ===================================================================== *)
(** ** The invoice screen *)
(* ===================================================================== *)

Module InvoiceScreenProperties.
Import Effects Net Protocol InvoiceManagement.
Local Open Scope string_scope.

(** The list fetch looks at the status only to tell 304 from the rest. *)
Lemma fetchInvoices_status :
  forall (API_URL : string) (getItem : string -> option string)
         (o : bool) (status : nat) (text : string)
         (body : Body (list Invoice.t)),
    status <> 304 ->
    fetchInvoices API_URL getItem (Replied (mkResponse o status text body))
    = fetchInvoices API_URL getItem (Replied (mkResponse o 0 text body)).
Proof.
  intros API_URL getItem o status text body Hne.
  apply Nat.eqb_neq in Hne.
  unfold fetchInvoices.
  destruct (noToken (getItem "token")); [reflexivity |].
  cbn -[Nat.eqb]. rewrite Hne. reflexivity.
Qed.

(** Case analysis on the reply to the list request of this screen: not
    yet there, rejected, answered by 304, or by another status, [ok] or
    not, with each kind of body. *)
Ltac list_reply_cases API_URL getItem reply :=
  let status := fresh "status" in
  let Hne := fresh "Hne" in
  destruct reply as [| ? | [? status ? ?]];
  [ | | destruct (Nat.eq_dec status 304) as [-> | Hne];
        [| rewrite (fetchInvoices_status API_URL getItem _ _ _ _ Hne);
           clear Hne ] ];
  repeat match goal with
         | b : bool |- _ => destruct b
         | b : Body _ |- _ => destruct b
         end.

Ltac settle st :=
  destruct st; vm_compute; repeat apply conj; reflexivity.

Ltac failed_cases H :=
  destruct H as [(? & ->) | ([[|] ? ? [? | ? ?]] & -> & H)];
  [| discriminate H | discriminate H | |].

Lemma validForm_checks (m : ModalState) :
  validForm m = true ->
  JS.truthy_string (JS.trim (clientEmail m)) = true
  /\ String.eqb (JS.trim (amount m)) "" || JS.isNaN (JS.parseFloat (amount m))
     = false
  /\ JS.truthy_string (JS.trim (dueDate m)) = true.
Proof.
  unfold validForm. intro H.
  apply andb_true_iff in H as [H H3].
  apply andb_true_iff in H as [H1 H2].
  apply negb_true_iff in H2. repeat split; assumption.
Qed.


(** Saving an invoice that fails: nothing is hidden or requested again,
    no toast; the message of the failure is shown in the dialog, whose
    form is as the user left it. *)
Lemma handleSaveInvoice_failed :
  forall (API_URL : string) (getItem : string -> option string)
         (toISOString : string -> option string) (nowISOString : string)
         (st : State) (m : ModalState) (reply : Reply unit)
         (listReply : Reply (list Invoice.t)),
    failed reply ->
    modal st = Some m ->
    validForm m = true ->
    noToken (getItem "token") = false ->
    toISOString (dueDate m) <> None ->
    let h := handleSaveInvoice API_URL getItem toISOString nowISOString
                               m (editingInvoice st) reply listReply in
    let st' := run (calls h) st in
    steps (calls h) = []
    /\ refetches (calls h) = 0
    /\ showModal st' = showModal st
    /\ editingInvoice st' = editingInvoice st
    /\ invoices st' = invoices st
    /\ modal st'
       = Some (mkModal (clientEmail m) (clientPhone m) (amount m)
                       (dueDate m) (description m) false
                       (Some (failureMessage
                                match editingInvoice st with
                                | Some _ => "update"
                                | None => "create"
                                end reply))).
Proof.
  intros API_URL getItem toISO nowISO st m reply listReply
         Hfail Hmodal Hvalid Htok Hdate.
  destruct (validForm_checks m Hvalid) as (H1 & H2 & H3).
  destruct (toISO (dueDate m)) as [d |] eqn:Hd;
    [| contradiction Hdate; reflexivity].
  unfold handleSaveInvoice.
  rewrite H1, H2, H3, Htok, Hd. clear H1 H2 H3 Hd Hdate Hvalid Htok.
  generalize (JS.parseFloat (amount m)); intro parsed.
  failed_cases Hfail;
    destruct st as [? ? ? ? [?|] ? ? ? ? ? ? ? ?]; cbn in Hmodal; subst;
    destruct m; vm_compute; repeat apply conj; reflexivity.
Qed.


(** Deleting an invoice that fails: no list request; the confirmation is
    hidden all the same, the failure is put in the error cell of the
    screen and an error toast is shown. *)
Lemma deleteInvoice_failed :
  forall (API_URL : string) (getItem : string -> option string)
         (st : State) (invoice : Invoice.t) (reply : Reply unit)
         (listReply : Reply (list Invoice.t)),
    failed reply ->
    noToken (getItem "token") = false ->
    let h := deleteInvoice API_URL getItem invoice reply listReply in
    let st' := run (calls h) st in
    steps (calls h) = [CloseModal; Notify]
    /\ refetches (calls h) = 0
    /\ showConfirmModal st' = false
    /\ error st' = Some match reply with
                        | Rejected e => e
                        | _ => "Failed to delete invoice."
                        end
    /\ toastMessage st' = Some "Failed to delete invoice."
    /\ toastType st' = error_toast
    /\ invoices st' = invoices st.
Proof.
  intros API_URL getItem st invoice reply listReply Hfail Htok.
  unfold deleteInvoice. rewrite Htok. clear Htok.
  failed_cases Hfail; settle st.
Qed.

(** The save button of the dialog carries [disabled={loading}]: while the
    cell holds, a click calls nothing. *)
Lemma clickSaveInvoice_while_loading :
  forall (API_URL : string) (getItem : string -> option string)
         (toISOString : string -> option string) (nowISOString : string)
         (st : State) (m : ModalState) (reply : Reply unit)
         (listReply : Reply (list Invoice.t)),
    modal st = Some m ->
    modalLoading m = true ->
    calls (clickSaveInvoice API_URL getItem toISOString nowISOString
                            st reply listReply) = [].
Proof.
  intros API_URL getItem toISO nowISO st m reply listReply Hmodal Hloading.
  unfold clickSaveInvoice, click.
  rewrite Hmodal, Hloading, andb_false_r. reflexivity.
Qed.

(** The confirmation has no such guard: whatever the state, a click on its
    "Delete" button while it is shown runs the stored closure, and with a
    credential in the store the closure sends its request. *)
Lemma clickConfirmDelete_sends :
  forall (API_URL : string) (getItem : string -> option string)
         (st : State) (invoice : Invoice.t)
         (listReply : Reply (list Invoice.t)),
    showConfirmModal st = true ->
    confirmAction st = Some invoice ->
    noToken (getItem "token") = false ->
    let h := clickConfirmDelete API_URL getItem st Pending listReply in
    res h = Await
    /\ requests (calls h)
       = [ {| method := DELETE;
              url := API_URL ++ "/invoices/" ++ Invoice.id invoice;
              headers := [("Authorization", bearer (getItem "token"))];
              body := None |} ]
    /\ run (calls h) st = st.
Proof.
  intros API_URL getItem st invoice listReply Hshown Haction Htok.
  unfold clickConfirmDelete, click, deleteInvoice.
  rewrite Hshown, Haction, Htok.
  destruct st. vm_compute. repeat split.
Qed.

End InvoiceScreenProperties.

(* ===================================================================== *)
(** ** The user screen *)
(* ===================================================================== *)

Module UserScreenProperties.
Import Effects Net Protocol UserManagement.
Local Open Scope string_scope.

Ltac list_reply_cases reply :=
  destruct reply as [| ? | [[|] ? ? [? | ? ?]]].

Ltac settle st :=
  destruct st; vm_compute; repeat apply conj; reflexivity.

Ltac failed_cases H :=
  destruct H as [(? & ->) | ([[|] ? ? [? | ? ?]] & -> & H)];
  [| discriminate H | discriminate H | |].




(** A mutation of the user screen that fails: nothing is requested again,
    emptied or hidden; the message of the failure is in the error cell of
    the dialog; the form and the collection are as they were. *)
Lemma handleAddUser_failed :
  forall (API_URL : string) (getItem : string -> option string)
         (urlToString : string -> list (string * string) -> string)
         (st : State) (reply : Reply unit) (listReply : Reply (list User.t)),
    failed reply ->
    let h := handleAddUser API_URL getItem urlToString st reply listReply in
    let st' := run (calls h) st in
    steps (calls h) = []
    /\ refetches (calls h) = 0
    /\ addUserError st'
       = Some (failureMessage "Failed to add user! Status: " reply)
    /\ showCreateModal st' = showCreateModal st
    /\ (newUserName st', newUserEmail st', newUserPassword st',
        newUserRole st')
       = (newUserName st, newUserEmail st, newUserPassword st,
          newUserRole st)
    /\ users st' = users st.
Proof.
  intros API_URL getItem urlToString st reply listReply Hfail.
  failed_cases Hfail; settle st.
Qed.

Lemma handleUpdateUser_failed :
  forall (API_URL : string) (getItem : string -> option string)
         (urlToString : string -> list (string * string) -> string)
         (st : State) (reply : Reply unit) (listReply : Reply (list User.t)),
    failed reply ->
    editingUser st <> None ->
    let h := handleUpdateUser API_URL getItem urlToString st reply listReply in
    let st' := run (calls h) st in
    steps (calls h) = []
    /\ refetches (calls h) = 0
    /\ updateUserError st'
       = Some (failureMessage "Failed to update user! Status: " reply)
    /\ showEditModal st' = showEditModal st
    /\ editingUser st' = editingUser st
    /\ (editUserName st', editUserEmail st', editUserRole st',
        editUserPassword st')
       = (editUserName st, editUserEmail st, editUserRole st,
          editUserPassword st)
    /\ users st' = users st.
Proof.
  intros API_URL getItem urlToString st reply listReply Hfail Hed.
  destruct (editingUser st) as [editing |] eqn:He;
    [| contradiction Hed; reflexivity].
  unfold handleUpdateUser. rewrite He.
  failed_cases Hfail; destruct st; cbn in He; subst;
    vm_compute; repeat apply conj; reflexivity.
Qed.

Lemma handleDeleteUser_failed :
  forall (API_URL : string) (getItem : string -> option string)
         (urlToString : string -> list (string * string) -> string)
         (st : State) (reply : Reply unit) (listReply : Reply (list User.t)),
    failed reply ->
    userToDelete st <> None ->
    let h := handleDeleteUser API_URL getItem urlToString st reply listReply in
    let st' := run (calls h) st in
    steps (calls h) = []
    /\ refetches (calls h) = 0
    /\ deleteError st'
       = Some (failureMessage "Failed to delete user! Status: " reply)
    /\ showDeleteModal st' = showDeleteModal st
    /\ userToDelete st' = userToDelete st
    /\ users st' = users st.
Proof.
  intros API_URL getItem urlToString st reply listReply Hfail Hdel.
  destruct (userToDelete st) as [user |] eqn:Hu;
    [| contradiction Hdel; reflexivity].
  unfold handleDeleteUser. rewrite Hu.
  failed_cases Hfail; destruct st; cbn in Hu; subst;
    vm_compute; repeat apply conj; reflexivity.
Qed.

(** Each submit button carries the flag of its own mutation as
    [disabled]: while the flag holds, a click calls nothing. *)
Lemma user_clicks_while_submitting :
  forall (API_URL : string) (getItem : string -> option string)
         (urlToString : string -> list (string * string) -> string)
         (st : State) (reply : Reply unit) (listReply : Reply (list User.t)),
    (isAddingUser st = true ->
     calls (clickAddUser API_URL getItem urlToString st reply listReply) = [])
    /\ (isUpdatingUser st = true ->
        calls (clickSaveChanges API_URL getItem urlToString st reply
                                listReply) = [])
    /\ (isDeleting st = true ->
        calls (clickDeleteUser API_URL getItem urlToString st reply
                               listReply) = []).
Proof.
  intros API_URL getItem urlToString st reply listReply.
  unfold clickAddUser, clickSaveChanges, clickDeleteUser, click.
  repeat split; intros ->; rewrite andb_false_r; reflexivity.
Qed.

End UserScreenProperties.

(* ===================================================================== *)
(** ** The mutation-refresh protocol across the screens *)
(* ===================================================================== *)

Module MutationProperties.
Import Effects Net Protocol.
Local Open Scope string_scope.




(** C5, as stated, fails: a delete of an invoice that is refused hides the
    confirmation it was started from. *)
Lemma mutation_failure_counterexample :
  ~ (forall (reply : Reply unit) (listReply : Reply (list Invoice.t)),
        failed reply ->
        InvoiceManagement.showConfirmModal
          (InvoiceManagement.run
             (calls (InvoiceManagement.clickConfirmDelete
                       Sample.apiUrl Sample.getToken Sample.invoiceScreen
                       reply listReply))
             Sample.invoiceScreen)
        = InvoiceManagement.showConfirmModal Sample.invoiceScreen).
Proof.
  intro H.
  assert (Hf : failed Sample.refused)
    by (right; eexists; split; reflexivity).
  specialize (H Sample.refused Sample.emptyList Hf).
  vm_compute in H. discriminate H.
Qed.

(** C5, amended: a create or update on any screen, and a delete on the
    payment and user screens, that fails (the request is rejected or the
    response is not [ok]) keeps its dialog as it was, puts the message of
    the failure in the error cell shown in that dialog, requests no list
    and leaves the form and the collection as they were. A delete of an
    invoice that fails requests no list either, but hides the
    confirmation, puts the message in the error cell of the screen and
    shows the toast "Failed to delete invoice.". *)
Theorem mutation_failure_effects :
  forall (API_URL : string) (getItem : string -> option string)
         (toLocaleDateString : string -> string)
         (toISOString : string -> option string) (nowISOString : string)
         (urlToString : string -> list (string * string) -> string)
         (stP : PaymentManagement.State) (stI : InvoiceManagement.State)
         (stU : UserManagement.State)
         (form : InvoiceManagement.ModalState) (invoice : Invoice.t)
         (reply : Reply unit)
         (listP : Reply (list ApiPayment.t)) (listI : Reply (list Invoice.t))
         (listU : Reply (list User.t)),
    failed reply ->
    (toISOString (PaymentManagement.date (PaymentManagement.newPayment stP))
     <> None ->
     let m := PaymentManagement.handleCreatePayment
                API_URL getItem toLocaleDateString toISOString stP
                reply listP in
     let stP' := PaymentManagement.run (calls m) stP in
     PaymentManagement.steps (calls m) = []
     /\ PaymentManagement.refetches (calls m) = 0
     /\ PaymentManagement.submitError stP'
        = Some (PaymentManagement.failureMessage reply)
     /\ PaymentManagement.showCreateModal stP'
        = PaymentManagement.showCreateModal stP
     /\ PaymentManagement.newPayment stP' = PaymentManagement.newPayment stP
     /\ PaymentManagement.payments stP' = PaymentManagement.payments stP)
    /\ (PaymentManagement.editingPayment stP <> None ->
        let m := PaymentManagement.handleUpdatePayment
                   API_URL getItem toLocaleDateString stP reply listP in
        let stP' := PaymentManagement.run (calls m) stP in
        PaymentManagement.steps (calls m) = []
        /\ PaymentManagement.refetches (calls m) = 0
        /\ PaymentManagement.submitError stP'
           = Some (PaymentManagement.failureMessage reply)
        /\ PaymentManagement.showUpdateModal stP'
           = PaymentManagement.showUpdateModal stP
        /\ PaymentManagement.editingPayment stP'
           = PaymentManagement.editingPayment stP
        /\ PaymentManagement.payments stP' = PaymentManagement.payments stP)
    /\ (PaymentManagement.selectedPayment stP <> None ->
        let m := PaymentManagement.handleDeletePayment
                   API_URL getItem toLocaleDateString stP reply listP in
        let stP' := PaymentManagement.run (calls m) stP in
        PaymentManagement.steps (calls m) = []
        /\ PaymentManagement.refetches (calls m) = 0
        /\ PaymentManagement.submitError stP'
           = Some (PaymentManagement.failureMessage reply)
        /\ PaymentManagement.showDeleteModal stP'
           = PaymentManagement.showDeleteModal stP
        /\ PaymentManagement.selectedPayment stP'
           = PaymentManagement.selectedPayment stP
        /\ PaymentManagement.payments stP' = PaymentManagement.payments stP)
    /\ (InvoiceManagement.modal stI = Some form ->
        InvoiceManagement.validForm form = true ->
        noToken (getItem "token") = false ->
        toISOString (InvoiceManagement.dueDate form) <> None ->
        let h := InvoiceManagement.handleSaveInvoice
                   API_URL getItem toISOString nowISOString form
                   (InvoiceManagement.editingInvoice stI) reply listI in
        let stI' := InvoiceManagement.run (calls h) stI in
        InvoiceManagement.steps (calls h) = []
        /\ InvoiceManagement.refetches (calls h) = 0
        /\ InvoiceManagement.showModal stI' = InvoiceManagement.showModal stI
        /\ InvoiceManagement.editingInvoice stI'
           = InvoiceManagement.editingInvoice stI
        /\ InvoiceManagement.invoices stI' = InvoiceManagement.invoices stI
        /\ InvoiceManagement.modal stI'
           = Some (InvoiceManagement.mkModal
                     (InvoiceManagement.clientEmail form)
                     (InvoiceManagement.clientPhone form)
                     (InvoiceManagement.amount form)
                     (InvoiceManagement.dueDate form)
                     (InvoiceManagement.description form) false
                     (Some (InvoiceManagement.failureMessage
                              match InvoiceManagement.editingInvoice stI with
                              | Some _ => "update"
                              | None => "create"
                              end reply))))
    /\ (noToken (getItem "token") = false ->
        let h := InvoiceManagement.deleteInvoice
                   API_URL getItem invoice reply listI in
        let stI' := InvoiceManagement.run (calls h) stI in
        InvoiceManagement.steps (calls h) = [CloseModal; Notify]
        /\ InvoiceManagement.refetches (calls h) = 0
        /\ InvoiceManagement.showConfirmModal stI' = false
        /\ InvoiceManagement.error stI'
           = Some match reply with
                  | Rejected e => e
                  | _ => "Failed to delete invoice."
                  end
        /\ InvoiceManagement.toastMessage stI'
           = Some "Failed to delete invoice."
        /\ InvoiceManagement.toastType stI' = InvoiceManagement.error_toast
        /\ InvoiceManagement.invoices stI' = InvoiceManagement.invoices stI)
    /\ (let h := UserManagement.handleAddUser
                   API_URL getItem urlToString stU reply listU in
        let stU' := UserManagement.run (calls h) stU in
        UserManagement.steps (calls h) = []
        /\ UserManagement.refetches (calls h) = 0
        /\ UserManagement.addUserError stU'
           = Some (UserManagement.failureMessage
                     "Failed to add user! Status: " reply)
        /\ UserManagement.showCreateModal stU'
           = UserManagement.showCreateModal stU
        /\ (UserManagement.newUserName stU', UserManagement.newUserEmail stU',
            UserManagement.newUserPassword stU',
            UserManagement.newUserRole stU')
           = (UserManagement.newUserName stU, UserManagement.newUserEmail stU,
              UserManagement.newUserPassword stU,
              UserManagement.newUserRole stU)
        /\ UserManagement.users stU' = UserManagement.users stU)
    /\ (UserManagement.editingUser stU <> None ->
        let h := UserManagement.handleUpdateUser
                   API_URL getItem urlToString stU reply listU in
        let stU' := UserManagement.run (calls h) stU in
        UserManagement.steps (calls h) = []
        /\ UserManagement.refetches (calls h) = 0
        /\ UserManagement.updateUserError stU'
           = Some (UserManagement.failureMessage
                     "Failed to update user! Status: " reply)
        /\ UserManagement.showEditModal stU'
           = UserManagement.showEditModal stU
        /\ UserManagement.editingUser stU' = UserManagement.editingUser stU
        /\ (UserManagement.editUserName stU',
            UserManagement.editUserEmail stU',
            UserManagement.editUserRole stU',
            UserManagement.editUserPassword stU')
           = (UserManagement.editUserName stU,
              UserManagement.editUserEmail stU,
              UserManagement.editUserRole stU,
              UserManagement.editUserPassword stU)
        /\ UserManagement.users stU' = UserManagement.users stU)
    /\ (UserManagement.userToDelete stU <> None ->
        let h := UserManagement.handleDeleteUser
                   API_URL getItem urlToString stU reply listU in
        let stU' := UserManagement.run (calls h) stU in
        UserManagement.steps (calls h) = []
        /\ UserManagement.refetches (calls h) = 0
        /\ UserManagement.deleteError stU'
           = Some (UserManagement.failureMessage
                     "Failed to delete user! Status: " reply)
        /\ UserManagement.showDeleteModal stU'
           = UserManagement.showDeleteModal stU
        /\ UserManagement.userToDelete stU' = UserManagement.userToDelete stU
        /\ UserManagement.users stU' = UserManagement.users stU).
Proof.
  intros API_URL getItem f toISO nowISO urlToString stP stI stU form invoice
         reply listP listI listU Hfail.
  refine (conj _ (conj _ (conj _ (conj _ (conj _ (conj _ (conj _ _))))))).
  - intro Hdate.
    apply PaymentScreenProperties.handleCreatePayment_failed; assumption.
  - intro Hed.
    apply PaymentScreenProperties.handleUpdatePayment_failed; assumption.
  - intro Hsel.
    apply PaymentScreenProperties.handleDeletePayment_failed; assumption.
  - intros Hmodal Hvalid Htok Hdate.
    apply InvoiceScreenProperties.handleSaveInvoice_failed; assumption.
  - intro Htok.
    apply InvoiceScreenProperties.deleteInvoice_failed; assumption.
  - apply UserScreenProperties.handleAddUser_failed; assumption.
  - intro Hed.
    apply UserScreenProperties.handleUpdateUser_failed; assumption.
  - intro Hdel.
    apply UserScreenProperties.handleDeleteUser_failed; assumption.
Qed.

Lemma mutation_failure_effects_witness :
  failed Sample.refused
  /\ PaymentManagement.submitError
       (PaymentManagement.run
          (calls (PaymentManagement.handleCreatePayment
                    Sample.apiUrl Sample.getToken Sample.localeDate
                    Sample.isoDate Sample.paymentScreen Sample.refused
                    Sample.emptyList))
          Sample.paymentScreen)
     = Some "Invoice not found"
  /\ InvoiceManagement.modal
       (InvoiceManagement.run
          (calls (InvoiceManagement.handleSaveInvoice
                    Sample.apiUrl Sample.getToken Sample.isoDate
                    Sample.clickTime Sample.invoiceForm None Sample.refused
                    Sample.emptyList))
          Sample.invoiceScreen)
     = Some (InvoiceManagement.mkModal
               "client@everpower.com" "0771234567" "1500.50" "2025-01-01"
               "Solar panel installation" false (Some "Invoice not found"))
  /\ UserManagement.addUserError
       (UserManagement.run
          (calls (UserManagement.handleAddUser
                    Sample.apiUrl Sample.getToken Sample.urlToString
                    Sample.userScreen Sample.refused Sample.emptyList))
          Sample.userScreen)
     = Some "Failed to add user! Status: 400".
Proof.
  assert (Hf : failed Sample.refused)
    by (right;
        exists (mkResponse false 400 "Bad Request"
                           (JsonObject (Some "Invoice not found") None));
        split; reflexivity).
  destruct (mutation_failure_effects
              Sample.apiUrl Sample.getToken Sample.localeDate Sample.isoDate
              Sample.clickTime Sample.urlToString
              Sample.paymentScreen Sample.invoiceScreen Sample.userScreen
              Sample.invoiceForm Sample.invoice
              Sample.refused Sample.emptyList Sample.emptyList
              Sample.emptyList Hf)
    as (HcreateP & _ & _ & Hsave & _ & Hadd & _ & _).
  split; [exact Hf |].
  split; [apply HcreateP; discriminate |].
  split; [apply Hsave; [reflexivity | reflexivity | reflexivity
                        | discriminate] |].
  apply Hadd.
Defined.

(** C7: the confirmation of an invoice delete has no guard. With a
    credential in the store, a click on "Delete" sends the request and
    leaves the state as it was, so that a second click, while the first
    request is still without a reply, sends the same request again. *)
Theorem confirm_delete_twice_sends_twice :
  forall (API_URL : string) (getItem : string -> option string)
         (st : InvoiceManagement.State) (invoice : Invoice.t)
         (listReply1 listReply2 : Reply (list Invoice.t)),
    noToken (getItem "token") = false ->
    let opened :=
      InvoiceManagement.run
        (calls (InvoiceManagement.handleDeleteClick invoice)) st in
    let first :=
      InvoiceManagement.clickConfirmDelete
        API_URL getItem opened Pending listReply1 in
    let inFlight := InvoiceManagement.run (calls first) opened in
    let second :=
      InvoiceManagement.clickConfirmDelete
        API_URL getItem inFlight Pending listReply2 in
    let deleteRequest :=
      {| method := DELETE;
         url := API_URL ++ "/invoices/" ++ Invoice.id invoice;
         headers := [("Authorization", bearer (getItem "token"))];
         body := None |} in
    res first = Await
    /\ InvoiceManagement.requests (calls first) = [deleteRequest]
    /\ InvoiceManagement.requests (calls second) = [deleteRequest].
Proof.
  intros API_URL getItem st invoice listReply1 listReply2 Htok
         opened first inFlight second deleteRequest.
  assert (Hshown : InvoiceManagement.showConfirmModal opened = true)
    by (destruct st; reflexivity).
  assert (Haction : InvoiceManagement.confirmAction opened = Some invoice)
    by (destruct st; reflexivity).
  destruct (InvoiceScreenProperties.clickConfirmDelete_sends
              API_URL getItem opened invoice listReply1 Hshown Haction Htok)
    as (Hres & Hreq & Hsame).
  fold first in Hres, Hreq, Hsame.
  split; [exact Hres | split; [exact Hreq |]].
  unfold second, inFlight. rewrite Hsame.
  apply (InvoiceScreenProperties.clickConfirmDelete_sends
           API_URL getItem opened invoice listReply2 Hshown Haction Htok).
Qed.

Lemma confirm_delete_twice_sends_twice_witness :
  let opened :=
    InvoiceManagement.run
      (calls (InvoiceManagement.handleDeleteClick Sample.invoice))
      InvoiceManagement.initialState in
  let first :=
    InvoiceManagement.clickConfirmDelete
      Sample.apiUrl Sample.getToken opened Pending Sample.emptyList in
  let inFlight := InvoiceManagement.run (calls first) opened in
  let second :=
    InvoiceManagement.clickConfirmDelete
      Sample.apiUrl Sample.getToken inFlight Pending Sample.emptyList in
  let deleteRequest :=
    {| method := DELETE;
       url := "https://api.everpower.example/invoices/INV-2025-0007";
       headers := [("Authorization", "Bearer eyJhbGciOi")];
       body := None |} in
  res first = Await
  /\ InvoiceManagement.requests (calls first) = [deleteRequest]
  /\ InvoiceManagement.requests (calls second) = [deleteRequest].
Proof.
  apply (confirm_delete_twice_sends_twice
           Sample.apiUrl Sample.getToken InvoiceManagement.initialState
           Sample.invoice Sample.emptyList Sample.emptyList).
  reflexivity.
Defined.

(** On every other mutation the trigger is disabled while the request is
    without a reply: the first click of "Record Payment" leaves
    [isSubmitting] set, and a click on any submit button of the payment
    screen then calls nothing. *)
Lemma second_submit_is_a_no_op :
  forall (API_URL : string) (getItem : string -> option string)
         (toLocaleDateString : string -> string)
         (toISOString : string -> option string)
         (st : PaymentManagement.State) (reply : Reply unit)
         (listReply1 listReply2 : Reply (list ApiPayment.t)),
    PaymentManagement.showCreateModal st = true ->
    PaymentManagement.isSubmitting st = false ->
    toISOString (PaymentManagement.date (PaymentManagement.newPayment st))
    <> None ->
    let first :=
      PaymentManagement.clickRecordPayment
        API_URL getItem toLocaleDateString toISOString st Pending
        listReply1 in
    let inFlight := PaymentManagement.run (calls first) st in
    let second :=
      PaymentManagement.clickRecordPayment
        API_URL getItem toLocaleDateString toISOString inFlight reply
        listReply2 in
    length (PaymentManagement.requests (calls first)) = 1
    /\ calls second = []
    /\ PaymentManagement.run (calls second) inFlight = inFlight.
Proof.
  intros API_URL getItem f toISO st reply listReply1 listReply2
         Hshown Hsub Hdate first inFlight second.
  destruct (PaymentScreenProperties.clickRecordPayment_in_flight
              API_URL getItem f toISO st listReply1 Hshown Hsub Hdate)
    as (_ & Hone & Hflag).
  fold first in Hone, Hflag. fold inFlight in Hflag.
  destruct (PaymentScreenProperties.payment_clicks_while_submitting
              API_URL getItem f toISO inFlight reply listReply2 Hflag)
    as (Hnone & _ & _).
  fold second in Hnone.
  split; [exact Hone | split; [exact Hnone |]].
  rewrite Hnone. reflexivity.
Qed.

End MutationProperties.

(* ===================================================================== *)
(** ** Strings: case, replacement and search *)
(* ===================================================================== *)

Module TextProperties.

Ltac each_char c := destruct c as [[] [] [] [] [] [] [] []].

Lemma lower_upper_char (c : ascii) :
  JS.lower_char (JS.upper_char c) = JS.lower_char c.
Proof. each_char c; reflexivity. Qed.

Lemma upper_lower_char (c : ascii) :
  JS.upper_char (JS.lower_char c) = JS.upper_char c.
Proof. each_char c; reflexivity. Qed.

Lemma toLowerCase_toUpperCase (s : string) :
  JS.toLowerCase (JS.toUpperCase s) = JS.toLowerCase s.
Proof.
  induction s as [| c s IH]; simpl; [reflexivity |].
  rewrite lower_upper_char, IH. reflexivity.
Qed.

Lemma toUpperCase_toLowerCase (s : string) :
  JS.toUpperCase (JS.toLowerCase s) = JS.toUpperCase s.
Proof.
  induction s as [| c s IH]; simpl; [reflexivity |].
  rewrite upper_lower_char, IH. reflexivity.
Qed.

Lemma toLowerCase_idempotent (s : string) :
  JS.toLowerCase (JS.toLowerCase s) = JS.toLowerCase s.
Proof.
  induction s as [| c s IH]; simpl; [reflexivity |].
  rewrite IH. f_equal. each_char c; reflexivity.
Qed.

(** An upper-cased string is never ["all"]. *)
Lemma toUpperCase_not_all (s : string) :
  String.eqb (JS.toUpperCase s) "all" = false.
Proof.
  destruct s as [| c s]; [reflexivity |].
  simpl. replace (Ascii.eqb (JS.upper_char c) "a") with false;
    [reflexivity |].
  each_char c; reflexivity.
Qed.

Lemma includes_empty (s : string) : JS.includes s "" = true.
Proof. destruct s; reflexivity. Qed.

(** Searching for one character. *)
Lemma includes_char (a c : ascii) (s : string) :
  JS.includes (String c s) (String a "")
  = Ascii.eqb a c || JS.includes s (String a "").
Proof.
  cbn [JS.includes String.prefix].
  destruct (ascii_dec a c) as [-> | Hne].
  - rewrite Ascii.eqb_refl. destruct s; reflexivity.
  - apply Ascii.eqb_neq in Hne. rewrite Hne. reflexivity.
Qed.

Lemma includes_space_toLowerCase (s : string) :
  JS.includes (JS.toLowerCase s) " " = JS.includes s " ".
Proof.
  induction s as [| c s IH]; [reflexivity |].
  cbn [JS.toLowerCase]. rewrite !includes_char, IH. f_equal.
  each_char c; reflexivity.
Qed.

(** Without a space, replacing the first space changes nothing. *)
Lemma replace_absent (s : string) :
  JS.includes s " " = false -> JS.replace " " "_" s = s.
Proof.
  induction s as [| c s IH]; [reflexivity |].
  rewrite includes_char. intro H.
  apply orb_false_iff in H as [Hc Hs].
  cbn [JS.replace]. rewrite Ascii.eqb_sym, Hc, (IH Hs). reflexivity.
Qed.

(** Without a space, putting a space for the first underscore and then
    an underscore for the first space gives the string back. *)
Lemma replace_round_trip (s : string) :
  JS.includes s " " = false ->
  JS.replace " " "_" (JS.replace "_" " " s) = s.
Proof.
  induction s as [| c s IH]; [reflexivity |].
  rewrite includes_char. intro H.
  apply orb_false_iff in H as [Hc Hs].
  cbn [JS.replace].
  destruct (Ascii.eqb c "_") eqn:Hu.
  - apply Ascii.eqb_eq in Hu. subst c. reflexivity.
  - cbn [JS.replace]. rewrite Ascii.eqb_sym, Hc, (IH Hs). reflexivity.
Qed.

Lemma filter_all {A : Type} (f : A -> bool) (l : list A) :
  (forall x, In x l -> f x = true) -> filter f l = l.
Proof.
  induction l as [| x l IH]; intro H; [reflexivity |].
  simpl. rewrite (H x (or_introl eq_refl)).
  f_equal. apply IH. intros y Hy. apply H. right. exact Hy.
Qed.

Lemma filter_none {A : Type} (f : A -> bool) (l : list A) :
  (forall x, In x l -> f x = false) -> filter f l = [].
Proof.
  induction l as [| x l IH]; intro H; [reflexivity |].
  simpl. rewrite (H x (or_introl eq_refl)).
  apply IH. intros y Hy. apply H. right. exact Hy.
Qed.

End TextProperties.

(* ===================================================================== *)
(** ** The payment table: filters and summary cards *)
(* ===================================================================== *)

Module PaymentFilterProperties.
Import PaymentView TextProperties.
Local Open Scope string_scope.

(** X1: when a status other than [all] is selected, the rows all have
    that status, so the "Completed" card equals the "Total" card when the
    status is [completed] and is zero otherwise, and likewise the
    "Pending" card for [pending]. No law of addition is used: this holds
    for binary64 amounts. *)
Theorem status_filter_cards :
  forall (N : Type) (A : Arith N) (payments : list (Payment.t N))
         (searchTerm statusFilter methodFilter : string),
    statusFilter <> "all" ->
    let filtered :=
      filteredPayments payments searchTerm statusFilter methodFilter in
    Forall (fun p => Payment.status p = statusFilter) filtered
    /\ completedAmount filtered
       = (if String.eqb statusFilter "completed"
          then totalAmount filtered else zero)
    /\ pendingAmount filtered
       = (if String.eqb statusFilter "pending"
          then totalAmount filtered else zero).
Proof.
  intros N A payments term sf mf Hne filtered.
  assert (Hall : Forall (fun p => Payment.status p = sf) filtered).
  { apply Forall_forall. intros p Hp.
    apply filter_In in Hp as [_ Hp].
    apply andb_true_iff in Hp as [Hp _].
    apply andb_true_iff in Hp as [_ Hp].
    unfold matchesStatus in Hp.
    apply String.eqb_neq in Hne. rewrite Hne in Hp.
    apply String.eqb_eq. exact Hp. }
  split; [exact Hall |].
  rewrite Forall_forall in Hall.
  unfold completedAmount, pendingAmount, totalAmount.
  split.
  - destruct (String.eqb sf "completed") eqn:E.
    + apply String.eqb_eq in E. rewrite filter_all; [reflexivity |].
      intros p Hp. rewrite (Hall p Hp), E. reflexivity.
    + rewrite filter_none; [reflexivity |].
      intros p Hp. rewrite (Hall p Hp). exact E.
  - destruct (String.eqb sf "pending") eqn:E.
    + apply String.eqb_eq in E. rewrite filter_all; [reflexivity |].
      intros p Hp. rewrite (Hall p Hp), E. reflexivity.
    + rewrite filter_none; [reflexivity |].
      intros p Hp. rewrite (Hall p Hp). exact E.
Qed.

Lemma status_filter_cards_witness :
  let filtered :=
    filteredPayments Sample.roundingSample "" "pending" "all" in
  Forall (fun p => Payment.status p = "pending") filtered
  /\ completedAmount filtered = 0%float
  /\ pendingAmount filtered = totalAmount filtered.
Proof.
  apply (status_filter_cards float float_Arith Sample.roundingSample
                             "" "pending" "all").
  discriminate.
Defined.

(** X2: the search does not look at the case of the letters of an ASCII
    term: the term in upper case, or in lower case, selects the same
    rows. *)
Theorem payment_search_ignores_case :
  forall (N : Type) (payments : list (Payment.t N))
         (searchTerm statusFilter methodFilter : string),
    JS.isAscii searchTerm = true ->
    filteredPayments payments (JS.toUpperCase searchTerm)
                     statusFilter methodFilter
    = filteredPayments payments searchTerm statusFilter methodFilter
    /\ filteredPayments payments (JS.toLowerCase searchTerm)
                        statusFilter methodFilter
       = filteredPayments payments searchTerm statusFilter methodFilter.
Proof.
  intros N payments term sf mf _.
  unfold filteredPayments, matchesSearch.
  rewrite toLowerCase_toUpperCase, toLowerCase_idempotent.
  split; reflexivity.
Qed.

Lemma payment_search_ignores_case_witness :
  filteredPayments Sample.roundingSample (JS.toUpperCase "Client@Ever")
                   "pending" "all"
  = filteredPayments Sample.roundingSample "Client@Ever" "pending" "all"
  /\ filteredPayments Sample.roundingSample (JS.toLowerCase "Client@Ever")
                      "pending" "all"
     = filteredPayments Sample.roundingSample "Client@Ever" "pending" "all".
Proof.
  apply (payment_search_ignores_case float Sample.roundingSample
                                     "Client@Ever" "pending" "all").
  reflexivity.
Defined.

(** X3: the method filter undoes the mapping. For a record whose method
    has no space and a filter value without a space other than [all],
    the mapped payment is selected exactly when the method of the record
    in lower case is the filter value. *)
Theorem method_filter_selects_by_api_method :
  forall (toLocaleDateString : string -> string) (raw : ApiPayment.t)
         (methodFilter : string),
    JS.includes (ApiPayment.method raw) " " = false ->
    JS.includes methodFilter " " = false ->
    methodFilter <> "all" ->
    matchesMethod methodFilter (mapPayment toLocaleDateString raw)
    = String.eqb (JS.toLowerCase (ApiPayment.method raw)) methodFilter.
Proof.
  intros tl raw mf Hraw Hmf Hne.
  unfold matchesMethod, mapPayment. cbn [Payment.paymentMethod].
  apply String.eqb_neq in Hne. rewrite Hne. cbn [orb].
  rewrite (replace_absent mf Hmf).
  rewrite replace_round_trip; [reflexivity |].
  rewrite includes_space_toLowerCase. exact Hraw.
Qed.

Lemma method_filter_selects_by_api_method_witness :
  matchesMethod "bank_transfer"
                (mapPayment Sample.localeDate
                            (Sample.rawPayment "PAY-1" "10" "PENDING"))
  = String.eqb (JS.toLowerCase "BANK_TRANSFER") "bank_transfer".
Proof.
  apply (method_filter_selects_by_api_method
           Sample.localeDate (Sample.rawPayment "PAY-1" "10" "PENDING")
           "bank_transfer");
    [reflexivity | reflexivity | discriminate].
Defined.

(** X4: a payment recorded through the "Record Payment" dialog as
    [CARD] or [CHEQUE] is selected by no option of the method filter but
    [all] (the options are [credit_card] and [check]), and its tag has the
    default colour. *)
Theorem card_and_cheque_under_the_filter :
  forall (toLocaleDateString : string -> string) (raw : ApiPayment.t)
         (option : string),
    ApiPayment.method raw = "CARD" \/ ApiPayment.method raw = "CHEQUE" ->
    In option PaymentDialogs.methodFilterOptions ->
    let payment := mapPayment toLocaleDateString raw in
    In (ApiPayment.method raw) PaymentDialogs.createMethodOptions
    /\ matchesMethod option payment = String.eqb option "all"
    /\ PaymentDialogs.getMethodColor (Payment.paymentMethod payment)
       = "bg-gray-100 text-gray-800".
Proof.
  intros tl raw option Hm Ho payment.
  unfold payment, matchesMethod, mapPayment, PaymentDialogs.getMethodColor.
  cbn [Payment.paymentMethod].
  destruct raw as [i y s inv ce a m st d c u o].
  cbn [ApiPayment.method] in *.
  cbn [PaymentDialogs.methodFilterOptions In] in Ho.
  destruct Hm as [-> | ->];
    destruct Ho as [<- | [<- | [<- | [<- | [<- | []]]]]];
    (split; [cbn; tauto |]); split; vm_compute; reflexivity.
Qed.

Lemma card_and_cheque_under_the_filter_witness :
  let payment :=
    mapPayment Sample.localeDate (Fixture.rawPaymentBy "CARD") in
  In "CARD" PaymentDialogs.createMethodOptions
  /\ matchesMethod "credit_card" payment = false
  /\ PaymentDialogs.getMethodColor (Payment.paymentMethod payment)
     = "bg-gray-100 text-gray-800".
Proof.
  apply (card_and_cheque_under_the_filter
           Sample.localeDate (Fixture.rawPaymentBy "CARD") "credit_card").
  - left. reflexivity.
  - right. left. reflexivity.
Defined.

End PaymentFilterProperties.

(* ===================================================================== *)
(** ** Sums that meet a NaN *)
(* ===================================================================== *)

Module NaNProperties.

Lemma is_nan_spec (x : float) :
  PrimFloat.is_nan x = true <-> Prim2SF x = S754_nan.
Proof.
  unfold PrimFloat.is_nan. rewrite eqb_spec.
  unfold SFeqb, SFcompare.
  destruct (Prim2SF x) as [s | s | | s m e].
  - split; discriminate.
  - destruct s; split; discriminate.
  - split; reflexivity.
  - rewrite Z.compare_refl, Pos.compare_cont_refl.
    destruct s; split; discriminate.
Qed.

Lemma add_nan_l (a b : float) :
  PrimFloat.is_nan a = true -> PrimFloat.is_nan (a + b) = true.
Proof.
  rewrite !is_nan_spec, add_spec. intros ->. reflexivity.
Qed.

Lemma add_nan_r (a b : float) :
  PrimFloat.is_nan b = true -> PrimFloat.is_nan (a + b) = true.
Proof.
  rewrite !is_nan_spec, add_spec. intros ->.
  destruct (Prim2SF a); reflexivity.
Qed.

Lemma sub_nan_l (a b : float) :
  PrimFloat.is_nan a = true -> PrimFloat.is_nan (a - b) = true.
Proof.
  rewrite !is_nan_spec, sub_spec. intros ->. reflexivity.
Qed.

Lemma sub_nan_r (a b : float) :
  PrimFloat.is_nan b = true -> PrimFloat.is_nan (a - b) = true.
Proof.
  rewrite !is_nan_spec, sub_spec. intros ->.
  destruct (Prim2SF a); reflexivity.
Qed.

(** A running sum that is NaN stays NaN, and becomes NaN at the first
    NaN term. *)
Lemma fold_nan_acc {A : Type} (f : A -> float) (l : list A) (acc : float) :
  PrimFloat.is_nan acc = true ->
  PrimFloat.is_nan (fold_left (fun sum x => (sum + f x)%float) l acc) = true.
Proof.
  revert acc. induction l as [| x l IH]; intros acc H; [exact H |].
  simpl. apply IH. apply add_nan_l. exact H.
Qed.

Lemma fold_nan_term {A : Type} (f : A -> float) (l : list A) (acc : float)
      (x : A) :
  In x l -> PrimFloat.is_nan (f x) = true ->
  PrimFloat.is_nan (fold_left (fun sum x => (sum + f x)%float) l acc) = true.
Proof.
  revert acc. induction l as [| y l IH]; intros acc Hin Hx; [destruct Hin |].
  simpl. destruct Hin as [-> | Hin].
  - apply fold_nan_acc. apply add_nan_r. exact Hx.
  - apply IH; assumption.
Qed.

Lemma parseFloat_non_numeric (s : string) :
  JS.scan_literal s = None -> PrimFloat.is_nan (JS.parseFloat s) = true.
Proof.
  unfold JS.parseFloat. intros ->. reflexivity.
Qed.

End NaNProperties.

Module PaymentTotalProperties.
Import PaymentView TextProperties NaNProperties.
Local Open Scope string_scope.

(** X5: one row whose amount is NaN makes the "Total" card NaN, and with
    it the card of the status of that row ([completedAmount] for
    [completed], [pendingAmount] for [pending]), however many other rows
    there are and wherever the row stands. *)
Theorem nan_amount_poisons_the_cards :
  forall (filtered : list (Payment.t float)) (payment : Payment.t float),
    In payment filtered ->
    JS.isNaN (Payment.amount payment) = true ->
    JS.isNaN (totalAmount filtered) = true
    /\ JS.isNaN (amountByStatus (Payment.status payment) filtered) = true
    /\ completedAmount filtered = amountByStatus "completed" filtered
    /\ pendingAmount filtered = amountByStatus "pending" filtered.
Proof.
  intros filtered payment Hin Hnan.
  unfold JS.isNaN, totalAmount, amountByStatus, sumAmounts in *.
  split; [| split; [| split; reflexivity]].
  - apply (fold_nan_term (fun p : Payment.t float => Payment.amount p)
                         filtered _ payment Hin Hnan).
  - apply (fold_nan_term (fun p : Payment.t float => Payment.amount p)
                         _ _ payment); [| exact Hnan].
    apply filter_In. split; [exact Hin |]. apply String.eqb_refl.
Qed.

Lemma nan_amount_poisons_the_cards_witness :
  let filtered :=
    map (mapPayment Sample.localeDate)
        [Sample.rawPayment "PAY-1" "100" "COMPLETED";
         Sample.rawPayment "PAY-2" "LKR 250" "PENDING";
         Sample.rawPayment "PAY-3" "75" "PENDING"] in
  JS.isNaN (totalAmount filtered) = true
  /\ JS.isNaN (amountByStatus "pending" filtered) = true
  /\ completedAmount filtered = amountByStatus "completed" filtered
  /\ pendingAmount filtered = amountByStatus "pending" filtered.
Proof.
  apply (nan_amount_poisons_the_cards
           (map (mapPayment Sample.localeDate)
                [Sample.rawPayment "PAY-1" "100" "COMPLETED";
                 Sample.rawPayment "PAY-2" "LKR 250" "PENDING";
                 Sample.rawPayment "PAY-3" "75" "PENDING"])
           (mapPayment Sample.localeDate
                       (Sample.rawPayment "PAY-2" "LKR 250" "PENDING"))).
  - right. left. reflexivity.
  - reflexivity.
Defined.

Lemma filteredPayments_inert {N : Type} (payments : list (Payment.t N)) :
  filteredPayments payments "" "all" "all" = payments.
Proof.
  unfold filteredPayments. apply filter_all. intros p _.
  unfold matchesSearch, matchesStatus, matchesMethod.
  cbn [JS.toLowerCase]. rewrite includes_empty. reflexivity.
Qed.

End PaymentTotalProperties.

(* ===================================================================== *)
(** ** The payment screen: list fetch, dialogs and their requests *)
(* ===================================================================== *)

Module PaymentDialogProperties.
Import Effects Net Protocol PaymentManagement PaymentDialogs.
Import TextProperties.
Local Open Scope string_scope.

Ltac reply_cases reply :=
  destruct reply as [| ? | [[|] ? ? [? | ? [? |]]]].

Ltac mutation_cases reply :=
  destruct reply as [| ? | [[|] ? ? [? | ? ?]]].

(** X6: a list request that is answered with a collection stores one
    payment for each record, in the order of the reply, in place of what
    was there; with the filters as they are when the screen opens every
    one of them is a row of the table. The error is cleared and the
    loading flag is off. *)
Theorem fetched_payments_are_all_shown :
  forall (API_URL : string) (getItem : string -> option string)
         (toLocaleDateString : string -> string)
         (r : Response (list ApiPayment.t)) (message : option string)
         (data : list ApiPayment.t) (st : State),
    ok r = true ->
    payload r = JsonObject message (Some data) ->
    searchTerm st = "" -> statusFilter st = "all" ->
    methodFilter st = "all" ->
    let st' :=
      run (calls (fetchPayments API_URL getItem toLocaleDateString
                                (Replied r))) st in
    payments st' = map (PaymentView.mapPayment toLocaleDateString) data
    /\ shown st' = map (PaymentView.mapPayment toLocaleDateString) data
    /\ length (shown st') = length data
    /\ error st' = None
    /\ loading st' = false.
Proof.
  intros API_URL getItem tl r message data st Hok Hbody Hs Hf Hm st'.
  destruct r as [o status text body]. cbn in Hok, Hbody. subst o body.
  destruct st as [p l e term sf mf cm vm um dm sp ep sub se np].
  cbn in Hs, Hf, Hm. subst term sf mf.
  unfold st'. clear st'. unfold fetchPayments.
  generalize (PaymentView.mapPayment tl); intro f.
  match goal with
  | |- context [run ?cs ?s0] =>
      assert (Hst : run cs s0
                    = mkState (map f data) false None "" "all" "all"
                              cm vm um dm sp ep sub se np)
        by (vm_compute; reflexivity);
      rewrite Hst; clear Hst
  end.
  unfold shown.
  cbn [payments searchTerm statusFilter methodFilter error loading].
  rewrite PaymentTotalProperties.filteredPayments_inert, length_map.
  repeat split; reflexivity.
Qed.

Lemma fetched_payments_are_all_shown_witness :
  let data := [Sample.rawPayment "PAY-1" "0.1" "COMPLETED";
               Sample.rawPayment "PAY-2" "0.2" "PENDING"] in
  let st' :=
    run (calls (fetchPayments
                  Sample.apiUrl Sample.getToken Sample.localeDate
                  (Replied (mkResponse true 200 "OK"
                                       (JsonObject None (Some data))))))
        initialState in
  payments st' = map (PaymentView.mapPayment Sample.localeDate) data
  /\ shown st' = map (PaymentView.mapPayment Sample.localeDate) data
  /\ length (shown st') = length data
  /\ error st' = None
  /\ loading st' = false.
Proof.
  apply (fetched_payments_are_all_shown
           Sample.apiUrl Sample.getToken Sample.localeDate
           (mkResponse true 200 "OK"
              (JsonObject None
                 (Some [Sample.rawPayment "PAY-1" "0.1" "COMPLETED";
                        Sample.rawPayment "PAY-2" "0.2" "PENDING"])))
           None
           [Sample.rawPayment "PAY-1" "0.1" "COMPLETED";
            Sample.rawPayment "PAY-2" "0.2" "PENDING"]
           initialState);
    reflexivity.
Defined.

(** X7: a list request that fails in any way (the request does not
    complete, the status is outside 200-299, the body is not JSON or has
    no [data]) leaves the payments that were stored in place, sets the
    error, and ends with the loading flag off. *)
Theorem failed_payment_fetch_keeps_the_rows :
  forall (API_URL : string) (getItem : string -> option string)
         (toLocaleDateString : string -> string)
         (reply : Reply (list ApiPayment.t)) (st : State),
    reply <> Pending ->
    (forall r message data,
        reply = Replied r -> ok r = true ->
        payload r <> JsonObject message (Some data)) ->
    let st' :=
      run (calls (fetchPayments API_URL getItem toLocaleDateString reply))
          st in
    payments st' = payments st
    /\ error st' <> None
    /\ loading st' = false.
Proof.
  intros API_URL getItem tl reply st Hp Hfail st'. unfold st'.
  reply_cases reply;
    try (contradiction Hp; reflexivity);
    try (exfalso; eapply Hfail; reflexivity);
    destruct st; vm_compute; repeat split; discriminate.
Qed.

Lemma failed_payment_fetch_keeps_the_rows_witness :
  let st' :=
    run (calls (fetchPayments Sample.apiUrl Sample.getToken
                              Sample.localeDate
                              (Rejected "Failed to fetch")))
        Sample.paymentScreen in
  payments st' = payments Sample.paymentScreen
  /\ error st' <> None
  /\ loading st' = false.
Proof.
  apply (failed_payment_fetch_keeps_the_rows
           Sample.apiUrl Sample.getToken Sample.localeDate
           (Rejected "Failed to fetch") Sample.paymentScreen).
  - discriminate.
  - intros r message data H. discriminate H.
Defined.

End PaymentDialogProperties.

Module PaymentRequestProperties.
Import Effects Net Protocol PaymentManagement PaymentDialogs.
Import TextProperties.
Local Open Scope string_scope.

Ltac reply_cases reply :=
  destruct reply as [| ? | [[|] ? ? [? | ? [? |]]]].

Ltac mutation_cases reply :=
  destruct reply as [| ? | [[|] ? ? [? | ? ?]]].

(** What [handleUpdatePayment] sends for the payment being edited. *)
Lemma handleUpdatePayment_request :
  forall (API_URL : string) (getItem : string -> option string)
         (toLocaleDateString : string -> string)
         (st : State) (editing : Payment) (reply : Reply unit)
         (listReply : Reply (list ApiPayment.t)),
    editingPayment st = Some editing ->
    firstRequest (handleUpdatePayment API_URL getItem toLocaleDateString
                                      st reply listReply)
    = Some {| Net.method := PATCH;
              url := API_URL ++ "/payments/" ++ Payment.id editing;
              headers := jsonHeaders (getItem "token");
              body :=
                Some [("status",
                       JString (JS.toUpperCase (Payment.status editing)));
                      ("reference",
                       JString (Payment.reference editing))] |}.
Proof.
  intros API_URL getItem tl st editing reply listReply H.
  unfold handleUpdatePayment. rewrite H.
  generalize (JS.toUpperCase (Payment.status editing)); intro upper.
  mutation_cases reply; try reply_cases listReply; vm_compute; reflexivity.
Qed.

(** X8: the edit button of a row opens the update dialog on the payment
    of that row; saving the dialog as it opened sends a [PATCH] to
    [/payments/<id>] whose status is the one the record of the endpoint
    had, when that was an ASCII string in upper case, and whose reference
    is empty. *)
Theorem untouched_edit_sends_the_status_back :
  forall (API_URL : string) (getItem : string -> option string)
         (toLocaleDateString : string -> string)
         (raw : ApiPayment.t) (st : State) (reply : Reply unit)
         (listReply : Reply (list ApiPayment.t)),
    JS.isAscii (ApiPayment.status raw) = true ->
    JS.toUpperCase (ApiPayment.status raw) = ApiPayment.status raw ->
    let payment := PaymentView.mapPayment toLocaleDateString raw in
    let st1 := run (calls (clickEdit payment)) st in
    showUpdateModal st1 = true
    /\ editingPayment st1 = Some payment
    /\ submitError st1 = None
    /\ firstRequest (handleUpdatePayment API_URL getItem toLocaleDateString
                                         st1 reply listReply)
       = Some {| Net.method := PATCH;
                 url := API_URL ++ "/payments/" ++ ApiPayment.id raw;
                 headers := jsonHeaders (getItem "token");
                 body := Some [("status", JString (ApiPayment.status raw));
                               ("reference", JString "")] |}.
Proof.
  intros API_URL getItem tl raw st reply listReply _ Hup payment st1.
  assert (H1 : editingPayment st1 = Some payment)
    by (destruct st; reflexivity).
  repeat split; try (destruct st; reflexivity).
  rewrite (handleUpdatePayment_request _ _ _ _ _ _ _ H1).
  unfold payment, PaymentView.mapPayment.
  cbn [Payment.status Payment.id Payment.reference].
  rewrite toUpperCase_toLowerCase, Hup. reflexivity.
Qed.

Lemma untouched_edit_sends_the_status_back_witness :
  let raw := Sample.rawPayment "PAY-1" "1500.50" "PENDING" in
  let payment := PaymentView.mapPayment Sample.localeDate raw in
  let st1 := run (calls (clickEdit payment)) initialState in
  showUpdateModal st1 = true
  /\ editingPayment st1 = Some payment
  /\ submitError st1 = None
  /\ firstRequest (handleUpdatePayment Sample.apiUrl Sample.getToken
                                       Sample.localeDate st1 Sample.created
                                       Sample.emptyList)
     = Some {| Net.method := PATCH;
               url := Sample.apiUrl ++ "/payments/" ++ "PAY-1";
               headers := jsonHeaders (Sample.getToken "token");
               body := Some [("status", JString "PENDING");
                             ("reference", JString "")] |}.
Proof.
  apply (untouched_edit_sends_the_status_back
           Sample.apiUrl Sample.getToken Sample.localeDate
           (Sample.rawPayment "PAY-1" "1500.50" "PENDING")
           initialState Sample.created Sample.emptyList);
    reflexivity.
Defined.

(** X9: what is typed into the update dialog is what is sent. After the
    edit button of [payment], a reference and a status entered in the
    dialog (in either order) are the reference and, in upper case, the
    status of the [PATCH] to [/payments/<id of payment>]; the stored
    payments are not touched by the typing. The statuses the dialog
    offers, in upper case, are statuses the "Record Payment" dialog
    offers. *)
Theorem edited_values_reach_the_request :
  forall (API_URL : string) (getItem : string -> option string)
         (toLocaleDateString : string -> string)
         (payment : Payment) (reference status : string)
         (st : State) (reply : Reply unit)
         (listReply : Reply (list ApiPayment.t)),
    let st1 := run (calls (clickEdit payment)) st in
    let st2 :=
      run (calls (handleUpdateInputChange st1 referenceInput reference))
          st1 in
    let st3 :=
      run (calls (handleUpdateInputChange st2 statusInput status)) st2 in
    let st2' :=
      run (calls (handleUpdateInputChange st1 statusInput status)) st1 in
    let st3' :=
      run (calls (handleUpdateInputChange st2' referenceInput reference))
          st2' in
    st3' = st3
    /\ payments st3 = payments st
    /\ Forall (fun option => In (JS.toUpperCase option) createStatusOptions)
              updateStatusOptions
    /\ firstRequest (handleUpdatePayment API_URL getItem toLocaleDateString
                                         st3 reply listReply)
       = Some {| Net.method := PATCH;
                 url := API_URL ++ "/payments/" ++ Payment.id payment;
                 headers := jsonHeaders (getItem "token");
                 body := Some [("status", JString (JS.toUpperCase status));
                               ("reference", JString reference)] |}.
Proof.
  intros API_URL getItem tl payment reference status st reply listReply
         st1 st2 st3 st2' st3'.
  split; [destruct st; reflexivity |].
  split; [destruct st; reflexivity |].
  split; [repeat constructor; cbn; tauto |].
  assert (H3 : editingPayment st3
               = Some {| Payment.id := Payment.id payment;
                         Payment.transactionId :=
                           Payment.transactionId payment;
                         Payment.invoiceNumber :=
                           Payment.invoiceNumber payment;
                         Payment.clientName := Payment.clientName payment;
                         Payment.amount := Payment.amount payment;
                         Payment.paymentMethod :=
                           Payment.paymentMethod payment;
                         Payment.status := status;
                         Payment.paidAt := Payment.paidAt payment;
                         Payment.reference := reference |})
    by (destruct st; reflexivity).
  rewrite (handleUpdatePayment_request _ _ _ _ _ _ _ H3). reflexivity.
Qed.

(** What [handleCreatePayment] sends for the form of the state. *)
Lemma handleCreatePayment_request :
  forall (API_URL : string) (getItem : string -> option string)
         (toLocaleDateString : string -> string)
         (toISOString : string -> option string)
         (st : State) (d : string) (reply : Reply unit)
         (listReply : Reply (list ApiPayment.t)),
    toISOString (date (newPayment st)) = Some d ->
    firstRequest (handleCreatePayment API_URL getItem toLocaleDateString
                                      toISOString st reply listReply)
    = Some {| Net.method := POST;
              url := API_URL ++ "/payments";
              headers := jsonHeaders (getItem "token");
              body :=
                Some [("invoiceId", JString (invoiceId (newPayment st)));
                      ("amount",
                       JNumber (JS.parseFloat (amount (newPayment st))));
                      ("method", JString (method (newPayment st)));
                      ("status", JString (status (newPayment st)));
                      ("date", JString d);
                      ("clientEmail",
                       JString (clientEmail (newPayment st)));
                      ("reference",
                       JString (reference (newPayment st)))] |}.
Proof.
  intros API_URL getItem tl toISO st d reply listReply H.
  unfold handleCreatePayment. rewrite H.
  generalize (JS.parseFloat (amount (newPayment st))); intro parsed.
  mutation_cases reply; try reply_cases listReply; vm_compute; reflexivity.
Qed.

(** X10: what is typed into the "Record Payment" dialog is what is sent.
    After a change event for each of the seven inputs, whatever the form
    held before, the [POST] to [/payments] carries the seven values: the
    amount as [parseFloat] reads it (NaN when it is not numeric: nothing
    checks it), the date as [toISOString] prints it, the others as
    typed. *)
Theorem typed_values_reach_the_request :
  forall (API_URL : string) (getItem : string -> option string)
         (toLocaleDateString : string -> string)
         (toISOString : string -> option string)
         (invoiceId clientEmail amount method status reference date : string)
         (d : string) (st : State) (reply : Reply unit)
         (listReply : Reply (list ApiPayment.t)),
    toISOString date = Some d ->
    let st' :=
      typeInto [("invoiceId", invoiceId); ("clientEmail", clientEmail);
                ("amount", amount); ("method", method); ("status", status);
                ("reference", reference); ("date", date)] st in
    newPayment st'
    = mkNewPayment invoiceId clientEmail amount method status reference date
    /\ firstRequest (handleCreatePayment API_URL getItem toLocaleDateString
                                         toISOString st' reply listReply)
       = Some {| Net.method := POST;
                 url := API_URL ++ "/payments";
                 headers := jsonHeaders (getItem "token");
                 body :=
                   Some [("invoiceId", JString invoiceId);
                         ("amount", JNumber (JS.parseFloat amount));
                         ("method", JString method);
                         ("status", JString status);
                         ("date", JString d);
                         ("clientEmail", JString clientEmail);
                         ("reference", JString reference)] |}.
Proof.
  intros API_URL getItem tl toISO i c a m s r dt d st reply listReply Hd st'.
  assert (Hform : newPayment st' = mkNewPayment i c a m s r dt).
  { destruct st as [? ? ? ? ? ? ? ? ? ? ? ? ? ? [? ? ? ? ? ? ?]].
    reflexivity. }
  split; [exact Hform |].
  erewrite handleCreatePayment_request; [| rewrite Hform; exact Hd].
  rewrite Hform. reflexivity.
Qed.

Lemma typed_values_reach_the_request_witness :
  let st' :=
    typeInto [("invoiceId", "INV-2025-0007");
              ("clientEmail", "client@everpower.com");
              ("amount", "1500.50"); ("method", "CARD");
              ("status", "PENDING"); ("reference", "HSBC #987654");
              ("date", "2025-01-01")] initialState in
  newPayment st'
  = mkNewPayment "INV-2025-0007" "client@everpower.com" "1500.50" "CARD"
                 "PENDING" "HSBC #987654" "2025-01-01"
  /\ firstRequest (handleCreatePayment Sample.apiUrl Sample.getToken
                                       Sample.localeDate Sample.isoDate
                                       st' Sample.created Sample.emptyList)
     = Some {| Net.method := POST;
               url := Sample.apiUrl ++ "/payments";
               headers := jsonHeaders (Sample.getToken "token");
               body :=
                 Some [("invoiceId", JString "INV-2025-0007");
                       ("amount", JNumber (JS.parseFloat "1500.50"));
                       ("method", JString "CARD");
                       ("status", JString "PENDING");
                       ("date", JString "2025-01-01T00:00:00.000Z");
                       ("clientEmail", JString "client@everpower.com");
                       ("reference", JString "HSBC #987654")] |}.
Proof.
  apply (typed_values_reach_the_request
           Sample.apiUrl Sample.getToken Sample.localeDate Sample.isoDate
           "INV-2025-0007" "client@everpower.com" "1500.50" "CARD"
           "PENDING" "HSBC #987654" "2025-01-01"
           "2025-01-01T00:00:00.000Z" initialState
           Sample.created Sample.emptyList).
  reflexivity.
Defined.

End PaymentRequestProperties.

(* ===================================================================== *)
(** ** Display names *)
(* ===================================================================== *)

Module NameProperties.
Import TextProperties JSText Names.
Local Open Scope string_scope.

(** The characters of a string. *)
Abbreviation chars := list_ascii_of_string.

Lemma chars_append (a b : string) :
  chars (a ++ b) = (chars a ++ chars b)%list.
Proof.
  induction a as [| c a IH]; [reflexivity |].
  simpl. rewrite IH. reflexivity.
Qed.

Lemma chars_trim_start (s : string) (c : ascii) :
  In c (chars (JS.trim_start s)) -> In c (chars s).
Proof.
  induction s as [| d s IH]; [intros [] |].
  simpl. destruct (JS.is_space d).
  - intro H. right. apply IH. exact H.
  - intro H. exact H.
Qed.

Lemma chars_trim_end (s : string) (c : ascii) :
  In c (chars (JS.trim_end s)) -> In c (chars s).
Proof.
  induction s as [| d s IH]; [intros [] |].
  simpl. destruct (JS.trim_end s) as [| e r].
  - destruct (JS.is_space d); [intros [] |].
    intros [H | []]. left. exact H.
  - intros [H | H]; [left; exact H |]. right. apply IH. exact H.
Qed.

Lemma chars_trim (s : string) (c : ascii) :
  In c (chars (JS.trim s)) -> In c (chars s).
Proof.
  intro H. apply chars_trim_start. apply chars_trim_end. exact H.
Qed.

Lemma trim_end_idempotent (s : string) :
  JS.trim_end (JS.trim_end s) = JS.trim_end s.
Proof.
  induction s as [| c s IH]; [reflexivity |].
  cbn [JS.trim_end]. destruct (JS.trim_end s) as [| d r] eqn:E.
  - destruct (JS.is_space c) eqn:Hc; [reflexivity |].
    cbn [JS.trim_end]. rewrite Hc. reflexivity.
  - cbn [JS.trim_end] in *. rewrite IH. reflexivity.
Qed.

Lemma trim_start_tight (s : string) : tight (JS.trim_start s).
Proof.
  induction s as [| c s IH]; [exact I |].
  simpl. destruct (JS.is_space c) eqn:E; [exact IH | exact E].
Qed.

Lemma trim_start_of_tight (s : string) : tight s -> JS.trim_start s = s.
Proof.
  destruct s as [| c s]; [reflexivity |].
  simpl. intros ->. reflexivity.
Qed.

Lemma trim_end_tight (s : string) : tight s -> tight (JS.trim_end s).
Proof.
  destruct s as [| c s]; [intros _; exact I |].
  cbn [tight JS.trim_end]. intro H.
  destruct (JS.trim_end s); [rewrite H |]; exact H.
Qed.

Lemma trim_idempotent (s : string) : JS.trim (JS.trim s) = JS.trim s.
Proof.
  unfold JS.trim.
  rewrite (trim_start_of_tight (JS.trim_end (JS.trim_start s))).
  - apply trim_end_idempotent.
  - apply trim_end_tight. apply trim_start_tight.
Qed.

(** A trimmed string has no white space at its end either. *)
Lemma trim_end_last (s : string) (c : ascii) (front : string) :
  JS.trim_end s = (front ++ String c "")%string -> JS.is_space c = false.
Proof.
  revert front. induction s as [| d s IH]; intros front H.
  - destruct front; discriminate H.
  - cbn [JS.trim_end] in H. destruct (JS.trim_end s) as [| e r] eqn:E.
    + destruct (JS.is_space d) eqn:Hd.
      * destruct front; discriminate H.
      * destruct front as [| f front].
        -- injection H as ->. exact Hd.
        -- injection H as _ H. destruct front; discriminate H.
    + destruct front as [| f front]; [discriminate H |].
      injection H as _ H. apply (IH front). exact H.
Qed.

Lemma split_head_chars (sep : ascii) (s : string) (c : ascii) :
  In c (chars (JS.split_head sep s)) -> c <> sep /\ In c (chars s).
Proof.
  induction s as [| d s IH]; [intros [] |].
  simpl. destruct (Ascii.eqb d sep) eqn:E; [intros [] |].
  intros [<- | H].
  - split; [| left; reflexivity]. apply Ascii.eqb_neq. exact E.
  - destruct (IH H) as [H1 H2]. split; [exact H1 | right; exact H2].
Qed.

Lemma split_head_append (sep : ascii) (a b : string) :
  JS.includes a (String sep "") = false ->
  JS.split_head sep (a ++ String sep b) = a.
Proof.
  induction a as [| c a IH]; intro H.
  - simpl. rewrite Ascii.eqb_refl. reflexivity.
  - rewrite includes_char in H. apply orb_false_iff in H as [Hc Ha].
    simpl. rewrite Ascii.eqb_sym, Hc, (IH Ha). reflexivity.
Qed.

Lemma split_head_absent (sep : ascii) (a : string) :
  JS.includes a (String sep "") = false -> JS.split_head sep a = a.
Proof.
  induction a as [| c a IH]; intro H; [reflexivity |].
  rewrite includes_char in H. apply orb_false_iff in H as [Hc Ha].
  simpl. rewrite Ascii.eqb_sym, Hc, (IH Ha). reflexivity.
Qed.

(** Every piece of the split is made of characters of the string that
    are not separators. *)
Lemma splitSeparators_chars (s : string) (p : string) (c : ascii) :
  In p (splitSeparators s) -> In c (chars p) ->
  is_separator c = false /\ In c (chars s).
Proof.
  revert p. induction s as [| d s IH]; intros p Hp Hc.
  - destruct Hp as [<- | []]. destruct Hc.
  - cbn [splitSeparators] in Hp.
    destruct (is_separator d) eqn:Hd.
    + destruct s as [| e s'].
      * destruct Hp as [<- | [<- | []]]; destruct Hc.
      * destruct (is_separator e).
        -- destruct (IH p Hp Hc) as [H1 H2].
           split; [exact H1 | right; exact H2].
        -- destruct Hp as [<- | Hp]; [destruct Hc |].
           destruct (IH p Hp Hc) as [H1 H2].
           split; [exact H1 | right; exact H2].
    + destruct (splitSeparators s) as [| q qs] eqn:E.
      * destruct Hp as [<- | []]. destruct Hc as [<- | []].
        split; [exact Hd | left; reflexivity].
      * destruct Hp as [<- | Hp].
        -- destruct Hc as [<- | Hc].
           ++ split; [exact Hd | left; reflexivity].
           ++ destruct (IH q (or_introl eq_refl) Hc) as [H1 H2].
              split; [exact H1 | right; exact H2].
        -- destruct (IH p (or_intror Hp) Hc) as [H1 H2].
           split; [exact H1 | right; exact H2].
Qed.

Lemma join_chars (sep : string) (parts : list string) (c : ascii) :
  In c (chars (join sep parts)) ->
  In c (chars sep) \/ exists p, In p parts /\ In c (chars p).
Proof.
  induction parts as [| p parts IH]; [intros [] |].
  destruct parts as [| q parts].
  - intro H. right. exists p. split; [left; reflexivity | exact H].
  - change (join sep (p :: q :: parts))
      with (p ++ sep ++ join sep (q :: parts))%string.
    rewrite !chars_append, !in_app_iff.
    intros [H | [H | H]].
    + right. exists p. split; [left; reflexivity | exact H].
    + left. exact H.
    + destruct (IH H) as [H' | (p' & Hp' & Hc)]; [left; exact H' |].
      right. exists p'. split; [right; exact Hp' | exact Hc].
Qed.

Lemma capitalize_chars (p : string) (c : ascii) :
  In c (chars (capitalize p)) ->
  exists d, In d (chars p) /\ (c = d \/ c = JS.upper_char d).
Proof.
  destruct p as [| d p]; [intros [] |].
  simpl. intros [<- | H].
  - exists d. split; [left; reflexivity | right; reflexivity].
  - exists c. split; [right; exact H | left; reflexivity].
Qed.

Lemma upper_char_plain (d : ascii) :
  is_separator d = false -> d <> "@"%char ->
  is_separator (JS.upper_char d) = false /\ JS.upper_char d <> "@"%char.
Proof.
  each_char d; intros H1 H2; split;
    solve [reflexivity | discriminate | exact H1 | exact H2].
Qed.

Example nameFromEmail_samples :
  nameFromEmail "john.smith@everpower.com" = "John Smith"
  /\ nameFromEmail ".john__smith-@everpower.com" = "John Smith"
  /\ nameFromEmail "a-b.c_d" = "A B C D"
  /\ nameFromEmail "@everpower.com" = ""
  /\ nameFromEmail "" = "".
Proof.
  repeat split; reflexivity.
Qed.

(** X11: the display name made of an address has none of the characters
    [.], [_], [-] and [@], and no white space at either end: trimming it
    again changes nothing, it does not begin with white space and does
    not end with it. *)
Theorem nameFromEmail_is_clean :
  forall email : string,
    (forall c, In c (chars (nameFromEmail email)) ->
               c <> "."%char /\ c <> "_"%char /\ c <> "-"%char
               /\ c <> "@"%char)
    /\ JS.trim (nameFromEmail email) = nameFromEmail email
    /\ (forall c rest, nameFromEmail email = String c rest ->
                       JS.is_space c = false)
    /\ (forall front c, nameFromEmail email = (front ++ String c "")%string ->
                        JS.is_space c = false).
Proof.
  intro email. unfold nameFromEmail. cbn zeta.
  set (base := JS.or_else (Some (JS.split_head "@" email)) "").
  assert (Hbase : forall c, In c (chars base) -> c <> "@"%char).
  { intros c Hc. unfold base, JS.or_else in Hc.
    destruct (JS.truthy_string (JS.split_head "@" email)); [| destruct Hc].
    apply (split_head_chars "@" email c Hc). }
  split; [| split; [apply trim_idempotent | split]].
  - intros c Hc. apply chars_trim in Hc.
    assert (H : is_separator c = false /\ c <> "@"%char).
    { apply join_chars in Hc as [Hc | (p & Hp & Hc)].
      - destruct Hc as [<- | []]. split; [reflexivity | discriminate].
      - apply in_map_iff in Hp as (q & <- & Hq).
        apply capitalize_chars in Hc as (d & Hd & Hcd).
        destruct (splitSeparators_chars base q d Hq Hd) as [H1 H2].
        specialize (Hbase d H2).
        destruct Hcd as [-> | ->]; [split; assumption |].
        apply upper_char_plain; assumption. }
    destruct H as [H1 H2]. unfold is_separator in H1.
    apply orb_false_iff in H1 as [H1 H3].
    apply orb_false_iff in H1 as [H1 H4].
    repeat split; try exact H2; apply Ascii.eqb_neq; assumption.
  - intros c rest H.
    pose proof (trim_end_tight _ (trim_start_tight
      (join " " (map capitalize (splitSeparators base))))) as Ht.
    unfold JS.trim in H. rewrite H in Ht. exact Ht.
  - intros front c H. unfold JS.trim in H.
    apply (trim_end_last _ _ _ H).
Qed.

(** X12: only the part of the address before the first [@] counts: two
    addresses with the same local part get the same display name. *)
Theorem nameFromEmail_reads_the_local_part :
  forall local domain domain' : string,
    JS.includes local "@" = false ->
    nameFromEmail (local ++ "@" ++ domain)
    = nameFromEmail (local ++ "@" ++ domain')
    /\ nameFromEmail (local ++ "@" ++ domain) = nameFromEmail local.
Proof.
  intros local domain domain' H.
  unfold nameFromEmail. cbn zeta.
  change (local ++ "@" ++ domain)%string
    with (local ++ String "@" domain)%string.
  change (local ++ "@" ++ domain')%string
    with (local ++ String "@" domain')%string.
  rewrite !(split_head_append "@" local _ H).
  rewrite (split_head_absent "@" local H).
  split; reflexivity.
Qed.

Lemma nameFromEmail_reads_the_local_part_witness :
  nameFromEmail ("john.smith" ++ "@" ++ "everpower.com")
  = nameFromEmail ("john.smith" ++ "@" ++ "rival.example")
  /\ nameFromEmail ("john.smith" ++ "@" ++ "everpower.com")
     = nameFromEmail "john.smith".
Proof.
  apply (nameFromEmail_reads_the_local_part
           "john.smith" "everpower.com" "rival.example").
  reflexivity.
Defined.

End NameProperties.

(* ===================================================================== *)
(** ** The invoice table: filter, summary cards and the checks of the
       dialog *)
(* ===================================================================== *)

Module InvoiceViewProperties.
Import Effects Net InvoiceManagement InvoiceView.
Import TextProperties NaNProperties.
Local Open Scope string_scope.

(** X13: with the filters as they are when the screen opens every invoice
    is a row; and neither the search nor the status filter looks at the
    case of ASCII letters: an ASCII term and an ASCII status other than
    [all], both in upper case, select the same rows, so that the option
    [paid] selects the invoices whose status is [PAID]. *)
Theorem invoice_filter_ignores_case :
  forall (invoices : list Invoice.t) (searchTerm statusFilter : string),
    JS.isAscii searchTerm = true ->
    JS.isAscii statusFilter = true ->
    statusFilter <> "all" ->
    filteredInvoices invoices "" "all" = invoices
    /\ filteredInvoices invoices (JS.toUpperCase searchTerm)
                        (JS.toUpperCase statusFilter)
       = filteredInvoices invoices searchTerm statusFilter
    /\ (forall invoice,
           In invoice (filteredInvoices invoices searchTerm statusFilter) ->
           JS.toLowerCase (Invoice.status invoice)
           = JS.toLowerCase statusFilter).
Proof.
  intros invoices term sf _ _ Hne. apply String.eqb_neq in Hne.
  split; [| split].
  - unfold filteredInvoices. apply filter_all. intros i _.
    unfold matchesSearch, matchesStatus. cbn [JS.toLowerCase].
    rewrite includes_empty. reflexivity.
  - unfold filteredInvoices, matchesSearch, matchesStatus.
    rewrite !toLowerCase_toUpperCase, toUpperCase_not_all, Hne.
    reflexivity.
  - intros i Hi. apply filter_In in Hi as [_ Hi].
    apply andb_true_iff in Hi as [_ Hi].
    unfold matchesStatus in Hi. rewrite Hne in Hi.
    apply String.eqb_eq. exact Hi.
Qed.

Lemma invoice_filter_ignores_case_witness :
  filteredInvoices [Sample.invoice] "" "all" = [Sample.invoice]
  /\ filteredInvoices [Sample.invoice] (JS.toUpperCase "Client")
                      (JS.toUpperCase "pending")
     = filteredInvoices [Sample.invoice] "Client" "pending"
  /\ (forall invoice,
         In invoice (filteredInvoices [Sample.invoice] "Client" "pending") ->
         JS.toLowerCase (Invoice.status invoice)
         = JS.toLowerCase "pending").
Proof.
  apply (invoice_filter_ignores_case [Sample.invoice] "Client" "pending");
    [reflexivity | reflexivity | discriminate].
Defined.

(** X14: the cards add what [parseFloat] reads. One row whose amount is
    not numeric makes "Total" and "Paid" NaN; one row whose [over_due] is
    not numeric (it is empty, say) makes "Pending" and "Paid" NaN. *)
Theorem non_numeric_invoice_poisons_the_cards :
  forall filtered : list Invoice.t,
    (forall invoice,
        In invoice filtered ->
        JS.scan_literal (Invoice.amount invoice) = None ->
        JS.isNaN (totalAmount filtered) = true
        /\ JS.isNaN (paidAmount filtered) = true)
    /\ (forall invoice,
           In invoice filtered ->
           JS.scan_literal (Invoice.over_due invoice) = None ->
           JS.isNaN (pendingAmount filtered) = true
           /\ JS.isNaN (paidAmount filtered) = true).
Proof.
  intro filtered. split; intros invoice Hin H;
    apply parseFloat_non_numeric in H.
  - assert (Ht : JS.isNaN (totalAmount filtered) = true).
    { unfold totalAmount.
      apply (fold_nan_term
               (fun i => JS.parseFloat (Invoice.amount i)) filtered _
               invoice Hin H). }
    split; [exact Ht |]. unfold paidAmount. apply sub_nan_l. exact Ht.
  - assert (Hp : JS.isNaN (pendingAmount filtered) = true).
    { unfold pendingAmount.
      apply (fold_nan_term
               (fun i => JS.parseFloat (Invoice.over_due i)) filtered _
               invoice Hin H). }
    split; [exact Hp |]. unfold paidAmount. apply sub_nan_r. exact Hp.
Qed.

Lemma non_numeric_invoice_poisons_the_cards_witness :
  let filtered :=
    [Fixture.invoiceWith "INV-1" "a@everpower.com" "900.00" "100.00" "SENT";
     Fixture.invoiceWith "INV-2" "b@everpower.com" "450.00" "" "PAID"] in
  JS.isNaN (pendingAmount filtered) = true
  /\ JS.isNaN (paidAmount filtered) = true
  /\ totalAmount filtered = 1350%float.
Proof.
  cbv zeta.
  destruct (non_numeric_invoice_poisons_the_cards
              [Fixture.invoiceWith "INV-1" "a@everpower.com" "900.00"
                                   "100.00" "SENT";
               Fixture.invoiceWith "INV-2" "b@everpower.com" "450.00" ""
                                   "PAID"]) as [_ H].
  destruct (H (Fixture.invoiceWith "INV-2" "b@everpower.com" "450.00" ""
                                   "PAID")) as [H1 H2].
  - right. left. reflexivity.
  - reflexivity.
  - split; [exact H1 | split; [exact H2 | vm_compute; reflexivity]].
Defined.

(** X15: the dialog sends nothing while a check fails. With an empty
    client email, an amount that is empty or not numeric, an empty due
    date, or no token in the store, saving makes no request and no call of
    the screen (nothing is hidden, fetched or notified); the dialog stays
    open on the form as typed, with the message of the first check that
    fails and its loading flag off. *)
Theorem invalid_invoice_form_sends_nothing :
  forall (API_URL : string) (getItem : string -> option string)
         (toISOString : string -> option string) (nowISOString : string)
         (st : State) (m : ModalState) (reply : Reply unit)
         (listReply : Reply (list Invoice.t)),
    modal st = Some m ->
    validForm m = false \/ noToken (getItem "token") = true ->
    let h := handleSaveInvoice API_URL getItem toISOString nowISOString
                               m (editingInvoice st) reply listReply in
    let message :=
      if negb (JS.truthy_string (JS.trim (clientEmail m)))
      then "Client email is required."
      else if String.eqb (JS.trim (amount m)) ""
              || JS.isNaN (JS.parseFloat (amount m))
      then "A valid amount is required."
      else if negb (JS.truthy_string (JS.trim (dueDate m)))
      then "Due date is required."
      else "Authentication token not found." in
    requests (calls h) = []
    /\ steps (calls h) = []
    /\ calls h = [modalSetLoading true; modalSetError None;
                  modalSetError (Some message); modalSetLoading false]
    /\ modal (run (calls h) st)
       = Some (mkModal (clientEmail m) (clientPhone m) (amount m)
                       (dueDate m) (description m) false (Some message))
    /\ showModal (run (calls h) st) = showModal st
    /\ invoices (run (calls h) st) = invoices st.
Proof.
  intros API_URL getItem toISO nowISO st m reply listReply Hmodal Hbad
         h message.
  assert (Hcalls : calls h = [modalSetLoading true; modalSetError None;
                              modalSetError (Some message);
                              modalSetLoading false]).
  { unfold h, message, handleSaveInvoice, validForm in *.
    destruct (JS.truthy_string (JS.trim (clientEmail m)));
      [| reflexivity].
    destruct (String.eqb (JS.trim (amount m)) ""
              || JS.isNaN (JS.parseFloat (amount m)));
      [reflexivity |].
    destruct (JS.truthy_string (JS.trim (dueDate m))); [| reflexivity].
    destruct Hbad as [Hbad | Hbad]; [discriminate Hbad |].
    rewrite Hbad. reflexivity. }
  rewrite Hcalls. clearbody message. clear Hcalls h Hbad.
  destruct st as [? ? ? ? ? ? ? ? ? ? ? ? md]. cbn in Hmodal. subst md.
  destruct m. repeat split; reflexivity.
Qed.

Lemma invalid_invoice_form_sends_nothing_witness :
  let m := mkModal "client@everpower.com" "0771234567" "12 rupees" ""
                   "" false None in
  let st := Fixture.invoiceDialog m in
  let h := handleSaveInvoice Sample.apiUrl Sample.getToken Sample.isoDate
                             Sample.clickTime m (editingInvoice st)
                             Sample.created Sample.emptyList in
  requests (calls h) = []
  /\ steps (calls h) = []
  /\ calls h = [modalSetLoading true; modalSetError None;
                modalSetError (Some "Due date is required.");
                modalSetLoading false]
  /\ modal (run (calls h) st)
     = Some (mkModal "client@everpower.com" "0771234567" "12 rupees" ""
                     "" false (Some "Due date is required."))
  /\ showModal (run (calls h) st) = showModal st
  /\ invoices (run (calls h) st) = invoices st.
Proof.
  apply (invalid_invoice_form_sends_nothing
           Sample.apiUrl Sample.getToken Sample.isoDate Sample.clickTime
           (Fixture.invoiceDialog
              (mkModal "client@everpower.com" "0771234567" "12 rupees" ""
                       "" false None))
           (mkModal "client@everpower.com" "0771234567" "12 rupees" ""
                    "" false None)
           Sample.created Sample.emptyList).
  - reflexivity.
  - left. reflexivity.
Defined.

End InvoiceViewProperties.

(* ===================================================================== *)
(** ** The exported files *)
(* ===================================================================== *)

Module CsvProperties.
Import TextProperties NameProperties JSText.
Local Open Scope string_scope.

Lemma append_assoc (a b c : string) : ((a ++ b) ++ c = a ++ (b ++ c))%string.
Proof.
  induction a as [| x a IH]; [reflexivity |].
  simpl. rewrite IH. reflexivity.
Qed.

(** A quoted cell followed by [rest]. *)
Lemma quoted_append (s rest : string) :
  (quoted s ++ rest = String quote (s ++ String quote rest))%string.
Proof.
  unfold quoted. simpl. rewrite append_assoc. reflexivity.
Qed.

Lemma prefix_char (c : ascii) (r : string) :
  String.prefix (String c "") (String c r) = true.
Proof.
  simpl. destruct (ascii_dec c c) as [_ | H]; [| contradiction H; reflexivity].
  destruct r; reflexivity.
Qed.

(** The text of a cell whose quotes are doubled tells where the cell
    ends: the closing quote is the first quote that is not followed by
    another. *)
Lemma escaped_cell_ends (a b r1 r2 : string) :
  String.prefix (String quote "") r1 = false ->
  String.prefix (String quote "") r2 = false ->
  (escapeQuotes a ++ String quote r1
   = escapeQuotes b ++ String quote r2)%string ->
  a = b /\ r1 = r2.
Proof.
  intros H1 H2. revert b.
  induction a as [| c a IH]; intros [| d b] H.
  - injection H as <-. split; reflexivity.
  - exfalso. cbn [escapeQuotes] in H.
    destruct (Ascii.eqb d quote) eqn:Ed.
    + cbn in H. injection H as ->.
      rewrite prefix_char in H1. discriminate H1.
    + cbn in H. injection H as <- _. discriminate Ed.
  - exfalso. cbn [escapeQuotes] in H.
    destruct (Ascii.eqb c quote) eqn:Ec.
    + cbn in H. injection H as <-.
      rewrite prefix_char in H2. discriminate H2.
    + cbn in H. injection H as -> _. discriminate Ec.
  - cbn [escapeQuotes] in H.
    destruct (Ascii.eqb c quote) eqn:Ec; destruct (Ascii.eqb d quote) eqn:Ed.
    + apply Ascii.eqb_eq in Ec, Ed. subst c d.
      cbn in H. injection H as H.
      destruct (IH b H) as [-> ->]. split; reflexivity.
    + exfalso. cbn in H. injection H as <- _.
      rewrite Ascii.eqb_refl in Ed. discriminate Ed.
    + exfalso. cbn in H. injection H as -> _.
      rewrite Ascii.eqb_refl in Ec. discriminate Ec.
    + cbn in H. injection H as -> H.
      destruct (IH b H) as [-> ->]. split; reflexivity.
Qed.

(** A text without a comma, followed by a comma, tells where it ends. *)
Lemma until_comma (a b r1 r2 : string) :
  JS.includes a "," = false -> JS.includes b "," = false ->
  (a ++ String "," r1 = b ++ String "," r2)%string ->
  a = b /\ r1 = r2.
Proof.
  revert b. induction a as [| c a IH]; intros [| d b] Ha Hb H.
  - injection H as <-. split; reflexivity.
  - exfalso. cbn in H. injection H as <- _.
    rewrite includes_char in Hb. discriminate Hb.
  - exfalso. cbn in H. injection H as -> _.
    rewrite includes_char in Ha. discriminate Ha.
  - cbn in H. injection H as -> H.
    rewrite includes_char in Ha, Hb.
    apply orb_false_iff in Ha as [_ Ha].
    apply orb_false_iff in Hb as [_ Hb].
    destruct (IH b Ha Hb H) as [-> ->]. split; reflexivity.
Qed.

Lemma digit_char_is_digit (k : nat) :
  k < 10 -> JS.is_digit (JS.digit_char k) = true.
Proof.
  intro H. do 10 (destruct k as [| k]; [reflexivity |]). lia.
Qed.

Lemma nat_to_string_aux_digits (fuel n : nat) (acc : string) (c : ascii) :
  (forall d, In d (chars acc) -> JS.is_digit d = true) ->
  In c (chars (JS.nat_to_string_aux fuel n acc)) -> JS.is_digit c = true.
Proof.
  revert n acc. induction fuel as [| fuel IH]; intros n acc Hacc Hc.
  - apply Hacc. exact Hc.
  - cbn [JS.nat_to_string_aux] in Hc.
    assert (Hacc' : forall d,
               In d (chars (String (JS.digit_char (n mod 10)) acc)) ->
               JS.is_digit d = true).
    { intros d [<- | Hd]; [| apply Hacc; exact Hd].
      apply digit_char_is_digit. apply Nat.mod_upper_bound. discriminate. }
    destruct (n / 10) as [| q]; [apply Hacc'; exact Hc |].
    apply (IH (S q) _ Hacc' Hc).
Qed.

Lemma nat_to_string_no_comma (n : nat) :
  JS.includes (JS.nat_to_string n) "," = false.
Proof.
  assert (H : forall c, In c (chars (JS.nat_to_string n)) ->
                        JS.is_digit c = true).
  { intros c Hc. unfold JS.nat_to_string in Hc.
    apply (nat_to_string_aux_digits (S n) n "" c); [| exact Hc].
    intros d []. }
  induction (JS.nat_to_string n) as [| c s IH]; [reflexivity |].
  rewrite includes_char. apply orb_false_iff. split.
  - specialize (H c (or_introl eq_refl)).
    destruct (Ascii.eqb "," c) eqn:E; [| reflexivity].
    apply Ascii.eqb_eq in E. subst c. discriminate H.
  - apply IH. intros d Hd. apply H. right. exact Hd.
Qed.

(** The line of a user, cell by cell. *)
Lemma csvRow_unfold (user : User.t) :
  UserView.csvRow user
  = (JS.nat_to_string (User.id user)
       ++ String ","
            (String quote
               (escapeQuotes (User.name user)
                  ++ String quote
                       (String ","
                          (String quote
                             (escapeQuotes (User.email user)
                                ++ String quote
                                     ("," ++ User.role user ++ ","
                                          ++ quoted (User.created_at user)
                                          ++ ","
                                          ++ quoted (User.updated_at user)
                                     )))))))%string.
Proof.
  unfold UserView.csvRow. cbn [join].
  change ("," ++ ?x)%string with (String "," x).
  rewrite !quoted_append. reflexivity.
Qed.

(** The line of a user tells its name and its email: lines that are equal
    come from users of the same name and the same email, whatever commas,
    quotes or line breaks these hold. *)
Lemma csvRow_tells_name_and_email (u1 u2 : User.t) :
  UserView.csvRow u1 = UserView.csvRow u2 ->
  JS.nat_to_string (User.id u1) = JS.nat_to_string (User.id u2)
  /\ User.name u1 = User.name u2
  /\ User.email u1 = User.email u2.
Proof.
  rewrite !csvRow_unfold. intro H.
  apply until_comma in H as [Hid H]; try apply nat_to_string_no_comma.
  injection H as H.
  apply escaped_cell_ends in H as [Hname H]; try reflexivity.
  injection H as H.
  apply escaped_cell_ends in H as [Hemail _]; try reflexivity.
  repeat split; assumption.
Qed.

(** X16: in the exported file of users, two users that differ in name or
    in email have different lines, whatever commas, quotes or line breaks
    the names and emails hold: doubling the quotes keeps the cells
    apart. *)
Theorem user_lines_tell_users_apart :
  forall u1 u2 : User.t,
    User.name u1 <> User.name u2 \/ User.email u1 <> User.email u2 ->
    UserView.csvRow u1 <> UserView.csvRow u2.
Proof.
  intros u1 u2 Hne H.
  apply csvRow_tells_name_and_email in H as (_ & Hn & He).
  destruct Hne as [Hne | Hne]; contradiction.
Qed.

Lemma user_lines_tell_users_apart_witness :
  UserView.csvRow
    (Fixture.userNamed 7 (String quote "Ann" ++ String quote ",")
                       "admin")
  <> UserView.csvRow (Fixture.userNamed 7 "Ann" "admin").
Proof.
  apply (user_lines_tell_users_apart
           (Fixture.userNamed 7 (String quote "Ann" ++ String quote ",")
                              "admin")
           (Fixture.userNamed 7 "Ann" "admin")).
  left. discriminate.
Defined.

(** X17: in the exported file of invoices the description is the last
    cell of its line, with its quotes doubled. Two invoices whose
    descriptions differ (none and the empty one read alike) have different
    cells, and the texts that begin with these cells differ whatever
    follows that is not a quote: a line break, or nothing. *)
Theorem description_cells_differ :
  forall (i1 i2 : Invoice.t) (rest1 rest2 : string),
    String.prefix (String quote "") rest1 = false ->
    String.prefix (String quote "") rest2 = false ->
    JS.or_else (Invoice.description i1) ""
    <> JS.or_else (Invoice.description i2) "" ->
    (InvoiceView.descriptionCell i1 ++ rest1
     <> InvoiceView.descriptionCell i2 ++ rest2)%string.
Proof.
  intros i1 i2 rest1 rest2 H1 H2 Hne H. apply Hne. clear Hne.
  unfold InvoiceView.descriptionCell in H. rewrite !quoted_append in H.
  injection H as H.
  assert (E : forall d : option string,
             match d with
             | Some d => if JS.truthy_string d then escapeQuotes d else ""
             | None => ""
             end = escapeQuotes (JS.or_else d "")).
  { intros [d |]; [| reflexivity]. simpl.
    destruct (JS.truthy_string d); reflexivity. }
  rewrite !E in H.
  apply escaped_cell_ends in H as [H _]; assumption.
Qed.

Lemma description_cells_differ_witness :
  (InvoiceView.descriptionCell
     (Fixture.invoiceDescribed
        (Some ("12 panels, " ++ quoted "roof" ++ " mount")))
     ++ newline
   <> InvoiceView.descriptionCell
        (Fixture.invoiceDescribed (Some "12 panels, ")) ++ newline)%string.
Proof.
  apply (description_cells_differ
           (Fixture.invoiceDescribed
              (Some ("12 panels, " ++ quoted "roof" ++ " mount")))
           (Fixture.invoiceDescribed (Some "12 panels, "))
           newline newline).
  - reflexivity.
  - reflexivity.
  - discriminate.
Defined.

End CsvProperties.

(* ===================================================================== *)
(** ** The user table: role filter and reset mail *)
(* ===================================================================== *)

Module UserViewProperties.
Import Effects Net UserView.
Local Open Scope string_scope.

(** X18: the role filter splits the users. When every user has one of the
    two declared roles, the count shown under [admin] and the count shown
    under [accountant] add up to the count shown under [all], which is
    the number of users; a filter value that is no role shows none. *)
Theorem role_counts_partition :
  forall users : list User.t,
    Forall (fun user => In (User.role user) roles) users ->
    totalUsers users "admin" + totalUsers users "accountant"
    = totalUsers users "all"
    /\ totalUsers users "all" = length users
    /\ forall roleFilter,
        ~ In roleFilter ("all" :: roles) ->
        totalUsers users roleFilter = 0.
Proof.
  intros users H.
  assert (Hall : filteredUsers users "all" = users)
    by (apply TextProperties.filter_all; reflexivity).
  unfold totalUsers. rewrite Hall.
  split; [| split; [reflexivity |]].
  - clear Hall. unfold filteredUsers.
    induction H as [| user users Hrole _ IH]; [reflexivity |].
    cbn [filter].
    assert (E : matchesRole "admin" user = true
                /\ matchesRole "accountant" user = false
                \/ matchesRole "admin" user = false
                   /\ matchesRole "accountant" user = true).
    { unfold matchesRole.
      destruct Hrole as [E | [E | []]]; rewrite <- E; [left | right];
        split; reflexivity. }
    destruct E as [[-> ->] | [-> ->]]; cbn [length]; lia.
  - intros roleFilter Hnot. unfold filteredUsers.
    rewrite TextProperties.filter_none; [reflexivity |].
    intros user Hin. unfold matchesRole.
    rewrite Forall_forall in H. specialize (H user Hin).
    apply orb_false_iff. split; apply String.eqb_neq; intro E; apply Hnot.
    + left. symmetry. exact E.
    + right. rewrite <- E. exact H.
Qed.

Lemma role_counts_partition_witness :
  let users := [Fixture.userNamed 1 "Ann" "admin";
                Fixture.userNamed 2 "Ben" "accountant";
                Fixture.userNamed 3 "Cat" "accountant"] in
  totalUsers users "admin" + totalUsers users "accountant"
  = totalUsers users "all"
  /\ totalUsers users "all" = length users
  /\ forall roleFilter,
      ~ In roleFilter ("all" :: roles) ->
      totalUsers users roleFilter = 0.
Proof.
  apply (role_counts_partition
           [Fixture.userNamed 1 "Ann" "admin";
            Fixture.userNamed 2 "Ben" "accountant";
            Fixture.userNamed 3 "Cat" "accountant"]).
  repeat constructor; cbn; tauto.
Defined.

Ltac mutation_cases reply :=
  destruct reply as [| ? | [[|] ? ? [? | ? ?]]].

(** X19: the reset mail always ends. Once the reply is there, whatever it
    is, no user is marked as being mailed (every mail button is enabled
    again), one request was sent, a [POST] to [/users/reset-password]
    with the email of the user, and exactly one of the two messages is
    set: the success message for a status in 200-299, the error message
    otherwise. *)
Theorem mail_always_ends :
  forall (API_URL : string) (getItem : string -> option string)
         (user : User.t) (reply : Reply unit) (s : MailState),
    reply <> Pending ->
    let h := handleMailUser API_URL getItem user reply in
    let s' := run (calls h) s in
    mailingUserId s' = None
    /\ (forall other, mailDisabled s' other = false)
    /\ requests (calls h)
       = [ {| Net.method := POST;
              url := API_URL ++ "/users/reset-password";
              headers := [("Content-Type", "application/json");
                          ("Authorization", bearer (getItem "token"))];
              body := Some [("email", JString (User.email user))] |} ]
    /\ match reply with
       | Replied r =>
           if ok r
           then mailSuccessMessage s'
                = Some ("A password reset link has been "
                          ++ JSText.quoted "sent" ++ " to "
                          ++ User.email user ++ ".")
                /\ mailError s' = None
           else mailSuccessMessage s' = None
                /\ mailError s'
                   = Some ("Failed to initiate password reset! Status: "
                             ++ JS.nat_to_string (Net.status r))
       | Rejected e => mailSuccessMessage s' = None /\ mailError s' = Some e
       | Pending => True
       end.
Proof.
  intros API_URL getItem user reply s Hp h s'. unfold s', h.
  mutation_cases reply; try (contradiction Hp; reflexivity);
    destruct s; vm_compute; repeat split; reflexivity.
Qed.

Lemma mail_always_ends_witness :
  let h := handleMailUser Sample.apiUrl Sample.getToken Sample.user
                          Sample.refused in
  let s' := run (calls h) initialMailState in
  mailingUserId s' = None
  /\ (forall other, mailDisabled s' other = false)
  /\ requests (calls h)
     = [ {| Net.method := POST;
            url := Sample.apiUrl ++ "/users/reset-password";
            headers := [("Content-Type", "application/json");
                        ("Authorization",
                         bearer (Sample.getToken "token"))];
            body := Some [("email", JString (User.email Sample.user))] |} ]
  /\ mailSuccessMessage s' = None
  /\ mailError s'
     = Some ("Failed to initiate password reset! Status: "
               ++ JS.nat_to_string 400).
Proof.
  apply (mail_always_ends Sample.apiUrl Sample.getToken Sample.user
                          Sample.refused initialMailState).
  discriminate.
Defined.

(** X20: while the reply to a reset mail is awaited, the mail button of
    that user is disabled and a click on it does nothing, with both
    messages cleared; the button of a user with another id is enabled,
    and a click on it sends a second request and marks that user
    instead. *)
Theorem mail_button_while_awaiting :
  forall (API_URL : string) (getItem : string -> option string)
         (user other : User.t) (reply : Reply unit) (s : MailState),
    User.id other <> User.id user ->
    let awaiting :=
      run (calls (handleMailUser API_URL getItem user Pending)) s in
    mailingUserId awaiting = Some (User.id user)
    /\ mailSuccessMessage awaiting = None
    /\ mailError awaiting = None
    /\ mailDisabled awaiting user = true
    /\ calls (clickMail API_URL getItem awaiting user reply) = []
    /\ mailDisabled awaiting other = false
    /\ clickMail API_URL getItem awaiting other reply
       = handleMailUser API_URL getItem other reply
    /\ mailingUserId
         (run (calls (clickMail API_URL getItem awaiting other Pending))
              awaiting)
       = Some (User.id other).
Proof.
  intros API_URL getItem user other reply s Hne awaiting.
  assert (Ha : awaiting = mkMailState (Some (User.id user)) None None)
    by (destruct s; reflexivity).
  rewrite Ha. clear Ha awaiting.
  assert (Hu : mailDisabled (mkMailState (Some (User.id user)) None None)
                            user = true)
    by (unfold mailDisabled; cbn; apply Nat.eqb_refl).
  assert (Ho : mailDisabled (mkMailState (Some (User.id user)) None None)
                            other = false).
  { unfold mailDisabled. cbn. apply Nat.eqb_neq.
    intro E. apply Hne. symmetry. exact E. }
  unfold clickMail. rewrite Hu, Ho.
  repeat split; reflexivity.
Qed.

Lemma mail_button_while_awaiting_witness :
  let user := Fixture.userNamed 1 "Ann" "admin" in
  let other := Fixture.userNamed 2 "Ben" "accountant" in
  let awaiting :=
    run (calls (handleMailUser Sample.apiUrl Sample.getToken user Pending))
        initialMailState in
  mailingUserId awaiting = Some 1
  /\ mailSuccessMessage awaiting = None
  /\ mailError awaiting = None
  /\ mailDisabled awaiting user = true
  /\ calls (clickMail Sample.apiUrl Sample.getToken awaiting user
                      Sample.created) = []
  /\ mailDisabled awaiting other = false
  /\ clickMail Sample.apiUrl Sample.getToken awaiting other Sample.created
     = handleMailUser Sample.apiUrl Sample.getToken other Sample.created
  /\ mailingUserId
       (run (calls (clickMail Sample.apiUrl Sample.getToken awaiting other
                              Pending))
            awaiting)
     = Some 2.
Proof.
  apply (mail_button_while_awaiting
           Sample.apiUrl Sample.getToken
           (Fixture.userNamed 1 "Ann" "admin")
           (Fixture.userNamed 2 "Ben" "accountant")
           Sample.created initialMailState).
  discriminate.
Defined.

End UserViewProperties.

(* ===================================================================== *)
(** ** Dashboard: the method and finance series, the recent
       transactions *)
(* ===================================================================== *)

Module ChartProperties.
Import Dashboard DashboardCharts.
Local Open Scope string_scope.

(** *** The counts object *)

Lemma countOf_assign_same (key : string) (v : nat)
      (counts : list (string * nat)) :
  countOf key (assign key v counts) = v.
Proof.
  induction counts as [| [k x] rest IH]; simpl.
  - rewrite String.eqb_refl. reflexivity.
  - destruct (String.eqb k key) eqn:E; simpl; rewrite E;
      [reflexivity | exact IH].
Qed.

Lemma countOf_assign_other (key key' : string) (v : nat)
      (counts : list (string * nat)) :
  key' <> key -> countOf key' (assign key v counts) = countOf key' counts.
Proof.
  intro Hne. induction counts as [| [k x] rest IH]; simpl.
  - apply String.eqb_neq in Hne. rewrite String.eqb_sym, Hne. reflexivity.
  - destruct (String.eqb k key) eqn:E; simpl.
    + apply String.eqb_eq in E. subst k.
      apply String.eqb_neq in Hne. rewrite String.eqb_sym, Hne.
      reflexivity.
    + rewrite IH. reflexivity.
Qed.

Lemma keys_assign (key k' : string) (v : nat)
      (counts : list (string * nat)) :
  In k' (map fst (assign key v counts))
  <-> k' = key \/ In k' (map fst counts).
Proof.
  induction counts as [| [k x] rest IH]; simpl.
  - intuition.
  - destruct (String.eqb k key) eqn:E; simpl.
    + apply String.eqb_eq in E. subst k. intuition.
    + rewrite IH. intuition.
Qed.

Lemma keys_assign_NoDup (key : string) (v : nat)
      (counts : list (string * nat)) :
  NoDup (map fst counts) -> NoDup (map fst (assign key v counts)).
Proof.
  induction counts as [| [k x] rest IH]; simpl; intro H.
  - constructor; [intros [] | constructor].
  - inversion H as [| ? ? Hk Hrest]; subst.
    destruct (String.eqb k key) eqn:E; simpl.
    + constructor; assumption.
    + constructor; [| apply IH; exact Hrest].
      rewrite keys_assign. intros [-> | Hin]; [| contradiction].
      rewrite String.eqb_refl in E. discriminate E.
Qed.

Lemma sum_increment (key : string) (counts : list (string * nat)) :
  list_sum (map snd (increment key counts))
  = S (list_sum (map snd counts)).
Proof.
  unfold increment.
  induction counts as [| [k x] rest IH]; simpl.
  - reflexivity.
  - destruct (String.eqb k key) eqn:E; simpl; [lia |].
    rewrite IH. lia.
Qed.

(** A property of [counts] holds the value that [countOf] reads. *)
Lemma countOf_In (k : string) (v : nat) (counts : list (string * nat)) :
  NoDup (map fst counts) -> In (k, v) counts -> countOf k counts = v.
Proof.
  induction counts as [| [k0 x] rest IH]; simpl; intros Hnd Hin;
    [destruct Hin |].
  inversion Hnd as [| ? ? Hk Hrest]; subst.
  destruct Hin as [E | Hin].
  - injection E as -> ->. rewrite String.eqb_refl. reflexivity.
  - destruct (String.eqb k0 k) eqn:E.
    + apply String.eqb_eq in E. subst k0. exfalso. apply Hk.
      apply in_map_iff. exists (k, v). split; [reflexivity | exact Hin].
    + apply IH; assumption.
Qed.

(** The object after the transactions of [l] have been counted,
    starting from [counts]. *)
Lemma counted (l : list Transaction.t) (counts : list (string * nat))
      (seen : list string) :
  NoDup (map fst counts) ->
  (forall k, countOf k counts = count_occ string_dec seen k) ->
  (forall k, In k (map fst counts) <-> In k seen) ->
  list_sum (map snd counts) = length seen ->
  let counts' :=
    fold_left (fun counts tx => increment (methodKey tx) counts) l counts in
  let seen' := (seen ++ map methodKey l)%list in
  NoDup (map fst counts')
  /\ (forall k, countOf k counts' = count_occ string_dec seen' k)
  /\ (forall k, In k (map fst counts') <-> In k seen')
  /\ list_sum (map snd counts') = length seen'.
Proof.
  revert counts seen.
  induction l as [| tx l IH]; intros counts seen Hnd Hc Hk Hs.
  - cbn. rewrite app_nil_r. repeat split; try assumption; apply Hk.
  - cbn [fold_left map].
    replace (seen ++ methodKey tx :: map methodKey l)%list
      with ((seen ++ [methodKey tx]) ++ map methodKey l)%list
      by (rewrite <- app_assoc; reflexivity).
    apply IH.
    + apply keys_assign_NoDup. exact Hnd.
    + intro k. rewrite count_occ_app. cbn [count_occ].
      unfold increment.
      destruct (string_dec (methodKey tx) k) as [<- | Hne].
      * rewrite countOf_assign_same, Hc. lia.
      * rewrite countOf_assign_other, Hc by (intro E; apply Hne; auto).
        lia.
    + intro k. unfold increment. rewrite keys_assign, in_app_iff, Hk.
      cbn. intuition.
    + rewrite sum_increment, Hs, length_app. cbn. lia.
Qed.

(** *** Object.entries *)

Lemma insertIndexed_perm (x : N * (string * nat))
      (l : list (N * (string * nat))) :
  Permutation (insertIndexed x l) (x :: l).
Proof.
  induction l as [| y l IH]; simpl; [reflexivity |].
  destruct (fst x <=? fst y)%N; [reflexivity |].
  rewrite IH. apply perm_swap.
Qed.

Lemma entries_perm (counts : list (string * nat)) :
  Permutation (entries counts) counts.
Proof.
  unfold entries.
  induction counts as [| kv counts IH]; [reflexivity |].
  cbn [flat_map filter].
  destruct (arrayIndex (fst kv)) as [i |].
  - cbn [app fold_right]. rewrite insertIndexed_perm. cbn [map snd app].
    constructor. exact IH.
  - cbn [app]. rewrite <- Permutation_middle. constructor. exact IH.
Qed.

Lemma list_sum_perm (l l' : list nat) :
  Permutation l l' -> list_sum l = list_sum l'.
Proof.
  induction 1; simpl; lia.
Qed.

Lemma fold_sum (data : list (ChartEntry nat)) (acc : nat) :
  fold_left (fun a b => a + value b) data acc
  = acc + list_sum (map value data).
Proof.
  revert acc. induction data as [| e data IH]; intro acc; simpl;
    [lia |]. rewrite IH. lia.
Qed.

(** Keys that are array indices come first, by value; the others keep the
    order in which they were first met. *)
Example methodData_sample :
  map (fun entry => (name entry, value entry))
      (methodData (Some Fixture.transactions))
  = [("7", 1); ("2024", 1); ("BANK TRANSFER", 2); ("CASH", 1);
     ("UNKNOWN", 1)].
Proof.
  reflexivity.
Qed.

(** X21: the method chart counts every transaction once. The total shown
    beside the chart is the number of transactions; no two entries have
    the same name; the value of an entry is the number of transactions
    whose method reads as its name (case and the first underscore set
    aside, [UNKNOWN] for none), at least one; every transaction is
    counted in some entry; and a list that was stored as [undefined]
    gives an empty chart. *)
Theorem methodData_counts_every_transaction :
  forall recentTransactions : list Transaction.t,
    let data := methodData (Some recentTransactions) in
    methodTotal data = length recentTransactions
    /\ NoDup (map name data)
    /\ (forall entry,
           In entry data ->
           value entry
           = count_occ string_dec (map methodKey recentTransactions)
                       (name entry)
           /\ 1 <= value entry)
    /\ (forall tx, In tx recentTransactions ->
                   In (methodKey tx) (map name data))
    /\ methodData None = [].
Proof.
  intros l data.
  pose (counts :=
          fold_left (fun counts tx => increment (methodKey tx) counts)
                    l []).
  destruct (counted l [] [] (NoDup_nil _) (fun _ => eq_refl)
                    (fun _ => conj (fun H => H) (fun H => H)) eq_refl)
    as (Hnd & Hc & Hk & Hs).
  fold counts in Hnd, Hc, Hk, Hs. cbn [app] in Hc, Hk, Hs.
  assert (Hperm : Permutation (entries counts) counts)
    by apply entries_perm.
  assert (Hname : map name data = map fst (entries counts)).
  { unfold data, methodData. fold counts. rewrite map_map. reflexivity. }
  assert (Hvalue : map value data = map snd (entries counts)).
  { unfold data, methodData. fold counts. rewrite map_map. reflexivity. }
  split; [| split; [| split; [| split; [| reflexivity]]]].
  - unfold methodTotal. rewrite fold_sum, Hvalue.
    rewrite (list_sum_perm _ _ (Permutation_map snd Hperm)), Hs.
    rewrite length_map. reflexivity.
  - rewrite Hname.
    apply (Permutation_NoDup
             (Permutation_sym (Permutation_map fst Hperm)) Hnd).
  - intros entry Hin. unfold data, methodData in Hin. fold counts in Hin.
    apply in_map_iff in Hin as ([k v] & <- & Hin). cbn [name value fst snd].
    apply (Permutation_in _ Hperm) in Hin.
    rewrite <- Hc, (countOf_In k v counts Hnd Hin).
    split; [reflexivity |].
    assert (Hseen : In k (map methodKey l)).
    { apply Hk. apply in_map_iff. exists (k, v).
      split; [reflexivity | exact Hin]. }
    rewrite <- (countOf_In k v counts Hnd Hin), Hc.
    apply (proj1 (count_occ_In string_dec _ _)) in Hseen. lia.
  - intros tx Hin. rewrite Hname.
    apply (Permutation_in _ (Permutation_sym (Permutation_map fst Hperm))).
    apply Hk. apply in_map. exact Hin.
Qed.

Import Binary64 Binary64Properties.

Example financeOverview_samples :
  map (fun d => (name d, value d))
      (financeOverview (Some (Fixture.financeStats 1000 300 200)))
  = [("Outstanding", 500%float); ("Completed Payments", 300%float);
     ("Pending Payments", 200%float)]
  /\ map (fun d => (name d, value d))
         (financeOverview (Some (Fixture.financeStats 400 300 200)))
     = [("Completed Payments", 300%float); ("Pending Payments", 200%float)]
  /\ financeTotal (financeOverview (Some (Fixture.financeStats 400 300 200)))
     = 500%float
  /\ financeOverview (@None (DashboardStats.t float)) = [].
Proof.
  repeat split; vm_compute; reflexivity.
Qed.

(** X22: in the binary64 arithmetic of the dashboard, when the three
    statistics are whole numbers below [2^53], the completed and the
    pending payments are positive and together less than the total
    outstanding, the finance chart shows the three slices in the order
    of the source, "Outstanding" being what the completed and the
    pending payments leave of the total outstanding, and the total above
    the chart is the total outstanding. *)
Theorem finance_slices_add_up :
  forall (stats : DashboardStats.t float) (outstanding completed pending : N),
    DashboardStats.totalOutstanding stats = whole outstanding ->
    DashboardStats.totalCompletedPayments stats = whole completed ->
    DashboardStats.totalPendingPayments stats = whole pending ->
    (0 < completed)%N -> (0 < pending)%N ->
    (completed + pending < outstanding)%N ->
    (outstanding < 2 ^ 53)%N ->
    let shown := financeOverview (Some stats) in
    map name shown
    = ["Outstanding"; "Completed Payments"; "Pending Payments"]
    /\ map value shown
       = [whole (outstanding - completed - pending); whole completed;
          whole pending]
    /\ financeTotal shown = DashboardStats.totalOutstanding stats.
Proof.
  intros stats o c p Ho Hc Hp Hc0 Hp0 Hsum Hlt shown.
  unfold shown, financeOverview, financeTotal.
  rewrite Ho, Hc, Hp.
  rewrite (whole_sub o c) by lia.
  rewrite (whole_sub (o - c) p) by lia.
  cbn [filter value].
  rewrite !whole_gt0 by lia.
  cbn [map name value fold_left]. unfold orZero.
  rewrite !whole_truthy by lia.
  change (@zero float float_Arith) with (whole 0).
  rewrite !whole_add by lia.
  repeat split. f_equal. lia.
Qed.

Lemma finance_slices_add_up_witness :
  let shown := financeOverview (Some (Fixture.financeStats 1000 300 200)) in
  map name shown
  = ["Outstanding"; "Completed Payments"; "Pending Payments"]
  /\ map value shown = [whole 500; whole 300; whole 200]
  /\ financeTotal shown = 1000%float.
Proof.
  apply (finance_slices_add_up (Fixture.financeStats 1000 300 200)
                               1000 300 200);
    vm_compute; reflexivity.
Defined.

End ChartProperties.

Module DashboardScreenProperties.
Import Effects Net DashboardScreen.
Local Open Scope string_scope.

Ltac reply_cases reply :=
  destruct reply as [| ? | [[|] ? ? [? | ? [? |]]]].

(** X23: the dashboard asks for the recent transactions only with a
    token. Without one no request is made: the absence is written to the
    console, the loading flag is turned off and the stored transactions
    stay. *)
Theorem recent_transactions_need_a_token :
  forall (API_URL : string) (getItem : string -> option string)
         (reply : Reply (list Transaction.t)) (s : State),
    noToken (getItem "token") = true ->
    let h := fetchRecentTransactions API_URL getItem reply in
    requests (calls h) = []
    /\ errors (calls h) = ["No authorization token found."]
    /\ loading (run (calls h) s) = false
    /\ recentTransactions (run (calls h) s) = recentTransactions s.
Proof.
  intros API_URL getItem reply s H h. unfold h, fetchRecentTransactions.
  rewrite H. destruct s. repeat split; reflexivity.
Qed.

Lemma recent_transactions_need_a_token_witness :
  let h := fetchRecentTransactions Sample.apiUrl (fun _ => None)
                                   Sample.emptyList in
  requests (calls h) = []
  /\ errors (calls h) = ["No authorization token found."]
  /\ loading (run (calls h) initialState) = false
  /\ recentTransactions (run (calls h) initialState)
     = recentTransactions initialState.
Proof.
  apply (recent_transactions_need_a_token
           Sample.apiUrl (fun _ => None) Sample.emptyList initialState).
  reflexivity.
Defined.

(** X24: with a token, one [GET] of [/payments] is made; once it is
    answered the loading flag is off. A reply with a status in 200-299
    and a JSON body replaces the stored transactions by its [data] (by
    nothing when it has none); any other reply leaves them as they were
    and is written to the console only: the state has no cell for the
    error. *)
Theorem recent_transactions_outcome :
  forall (API_URL : string) (getItem : string -> option string)
         (reply : Reply (list Transaction.t)) (s : State),
    noToken (getItem "token") = false ->
    reply <> Pending ->
    let h := fetchRecentTransactions API_URL getItem reply in
    let s' := run (calls h) s in
    requests (calls h)
    = [ {| Net.method := GET;
           url := API_URL ++ "/payments";
           headers := [("Authorization", bearer (getItem "token"));
                       ("Content-Type", "application/json")];
           body := None |} ]
    /\ loading s' = false
    /\ match reply with
       | Replied (mkResponse true _ _ (JsonObject _ data)) =>
           recentTransactions s' = data /\ errors (calls h) = []
       | _ =>
           recentTransactions s' = recentTransactions s
           /\ errors (calls h) = ["Failed to fetch recent transactions:"]
       end.
Proof.
  intros API_URL getItem reply s H Hp h s'.
  unfold s', h, fetchRecentTransactions. rewrite H.
  generalize (bearer (getItem "token")); intro token.
  reply_cases reply; try (contradiction Hp; reflexivity);
    destruct s; vm_compute; repeat split; reflexivity.
Qed.

Lemma recent_transactions_outcome_witness :
  let h := fetchRecentTransactions
             Sample.apiUrl Sample.getToken
             (Replied (mkResponse true 200 "OK"
                         (JsonObject None (Some Fixture.transactions)))) in
  let s' := run (calls h) initialState in
  requests (calls h)
  = [ {| Net.method := GET;
         url := Sample.apiUrl ++ "/payments";
         headers := [("Authorization", bearer (Sample.getToken "token"));
                     ("Content-Type", "application/json")];
         body := None |} ]
  /\ loading s' = false
  /\ recentTransactions s' = Some Fixture.transactions
  /\ errors (calls h) = [].
Proof.
  apply (recent_transactions_outcome
           Sample.apiUrl Sample.getToken
           (Replied (mkResponse true 200 "OK"
                       (JsonObject None (Some Fixture.transactions))))
           initialState).
  - reflexivity.
  - discriminate.
Defined.

End DashboardScreenProperties.

(* ===================================================================== *)
(** ** The user and invoice screens: list fetch and edit dialogs *)
(* ===================================================================== *)

Module UserDialogProperties.
Import Effects Net UserManagement.
Local Open Scope string_scope.

Ltac reply_cases reply :=
  destruct reply as [| ? | [[|] ? ? [? | ? [? |]]]].

Ltac mutation_cases reply :=
  destruct reply as [| ? | [[|] ? ? [? | ? ?]]].

(** X25: a list request of users that fails in any way (the request does
    not complete, the status is outside 200-299, the body is not JSON)
    empties the table: the users that were stored are replaced by none,
    the error is set and the loading flag ends off. *)
Theorem failed_user_fetch_empties_the_table :
  forall (API_URL : string) (getItem : string -> option string)
         (urlToString : string -> list (string * string) -> string)
         (reply : Reply (list User.t)) (st : State),
    reply <> Pending ->
    (forall r message data,
        reply = Replied r -> ok r = true ->
        payload r <> JsonObject message data) ->
    let st' :=
      run (calls (fetchUsers API_URL getItem urlToString st reply)) st in
    users st' = Some []
    /\ error st' <> None
    /\ isLoading st' = false.
Proof.
  intros API_URL getItem urlToString reply st Hp Hfail st'. unfold st'.
  unfold fetchUsers.
  generalize (urlToString (API_URL ++ "/users")
                (if JS.truthy_string (searchTerm st)
                 then [("q", searchTerm st)] else [])); intro url.
  reply_cases reply;
    try (contradiction Hp; reflexivity);
    try (exfalso; eapply Hfail; reflexivity);
    destruct st; vm_compute; repeat split; discriminate.
Qed.

Lemma failed_user_fetch_empties_the_table_witness :
  let st' :=
    run (calls (fetchUsers Sample.apiUrl Sample.getToken Sample.urlToString
                           Sample.userScreen
                           (Replied (mkResponse false 500
                                                "Internal Server Error"
                                                (NotJson "Unexpected token")))))
        Sample.userScreen in
  users Sample.userScreen = Some [Sample.user]
  /\ users st' = Some []
  /\ error st' <> None
  /\ isLoading st' = false.
Proof.
  split; [reflexivity |].
  apply (failed_user_fetch_empties_the_table
           Sample.apiUrl Sample.getToken Sample.urlToString
           (Replied (mkResponse false 500 "Internal Server Error"
                                (NotJson "Unexpected token")))
           Sample.userScreen).
  - discriminate.
  - intros r message data H Hok. injection H as <-. discriminate Hok.
Defined.

(** What [handleUpdateUser] sends for the user being edited. *)
Lemma handleUpdateUser_request :
  forall (API_URL : string) (getItem : string -> option string)
         (urlToString : string -> list (string * string) -> string)
         (st : State) (editing : User.t) (reply : Reply unit)
         (listReply : Reply (list User.t)),
    editingUser st = Some editing ->
    hd_error (requests (calls (handleUpdateUser API_URL getItem urlToString
                                                st reply listReply)))
    = Some {| Net.method := PATCH;
              url := API_URL ++ "/users/"
                       ++ JS.nat_to_string (User.id editing);
              headers := [("Content-Type", "application/json");
                          ("Authorization", bearer (getItem "token"))];
              body :=
                Some ([("name", JString (editUserName st));
                       ("email", JString (editUserEmail st));
                       ("role", JString (editUserRole st))]
                        ++ (if JS.truthy_string (editUserPassword st)
                            then [("password",
                                   JString (editUserPassword st))]
                            else []))%list |}.
Proof.
  intros API_URL getItem urlToString st editing reply listReply H.
  unfold handleUpdateUser. rewrite H. unfold fetchUsers.
  generalize (urlToString (API_URL ++ "/users")
                (if JS.truthy_string (searchTerm st)
                 then [("q", searchTerm st)] else [])); intro url.
  generalize (JS.nat_to_string (User.id editing)); intro id.
  generalize (if JS.truthy_string (editUserPassword st)
              then [("password", JString (editUserPassword st))]
              else []); intro password.
  mutation_cases reply; try reply_cases listReply; vm_compute; reflexivity.
Qed.

(** X26: the edit button of a row opens the dialog on the name, the
    email and the role of that user, with an empty password. Saving it as
    it opened sends these three back in a [PATCH] to [/users/<id>],
    without a password; a password is part of the body exactly when one
    was typed. *)
Theorem untouched_user_edit_sends_no_password :
  forall (API_URL : string) (getItem : string -> option string)
         (urlToString : string -> list (string * string) -> string)
         (user : User.t) (password : string) (st : State)
         (reply : Reply unit) (listReply : Reply (list User.t)),
    JS.truthy_string password = true ->
    let st1 := run (calls (handleEditUser user)) st in
    let st2 := run [setEditUserPassword password] st1 in
    let sent (s : State) :=
      hd_error (requests (calls (handleUpdateUser API_URL getItem
                                                  urlToString s reply
                                                  listReply))) in
    let patch (fields : list (string * Json)) :=
      Some {| Net.method := PATCH;
              url := API_URL ++ "/users/"
                       ++ JS.nat_to_string (User.id user);
              headers := [("Content-Type", "application/json");
                          ("Authorization", bearer (getItem "token"))];
              body := Some fields |} in
    showEditModal st1 = true
    /\ sent st1 = patch [("name", JString (User.name user));
                         ("email", JString (User.email user));
                         ("role", JString (User.role user))]
    /\ sent st2 = patch [("name", JString (User.name user));
                         ("email", JString (User.email user));
                         ("role", JString (User.role user));
                         ("password", JString password)].
Proof.
  intros API_URL getItem urlToString user password st reply listReply Hpw
         st1 st2 sent patch.
  assert (H1 : editingUser st1 = Some user) by (destruct st; reflexivity).
  assert (H2 : editingUser st2 = Some user) by (destruct st; reflexivity).
  split; [destruct st; reflexivity |].
  unfold sent, patch.
  rewrite (handleUpdateUser_request _ _ _ _ _ _ _ H1).
  rewrite (handleUpdateUser_request _ _ _ _ _ _ _ H2).
  replace (editUserPassword st2) with password by (destruct st; reflexivity).
  rewrite Hpw.
  split; destruct st; reflexivity.
Qed.

Lemma untouched_user_edit_sends_no_password_witness :
  let st1 := run (calls (handleEditUser Sample.user)) initialState in
  let st2 := run [setEditUserPassword "s3cret"] st1 in
  let sent (s : State) :=
    hd_error (requests (calls (handleUpdateUser
                                 Sample.apiUrl Sample.getToken
                                 Sample.urlToString s Sample.created
                                 Sample.emptyList))) in
  let patch (fields : list (string * Json)) :=
    Some {| Net.method := PATCH;
            url := Sample.apiUrl ++ "/users/"
                     ++ JS.nat_to_string (User.id Sample.user);
            headers := [("Content-Type", "application/json");
                        ("Authorization",
                         bearer (Sample.getToken "token"))];
            body := Some fields |} in
  showEditModal st1 = true
  /\ sent st1 = patch [("name", JString (User.name Sample.user));
                       ("email", JString (User.email Sample.user));
                       ("role", JString (User.role Sample.user))]
  /\ sent st2 = patch [("name", JString (User.name Sample.user));
                       ("email", JString (User.email Sample.user));
                       ("role", JString (User.role Sample.user));
                       ("password", JString "s3cret")].
Proof.
  apply (untouched_user_edit_sends_no_password
           Sample.apiUrl Sample.getToken Sample.urlToString Sample.user
           "s3cret" initialState Sample.created Sample.emptyList).
  reflexivity.
Defined.

End UserDialogProperties.

Module InvoiceDialogProperties.
Import Effects Net InvoiceManagement.
Local Open Scope string_scope.

Ltac mutation_cases reply :=
  destruct reply as [| ? | [[|] ? ? [? | ? ?]]].

(** X27: a list request of invoices that fails (the request does not
    complete, the status is neither 304 nor in 200-299, or the body is not
    JSON) leaves the invoices that were stored in place, sets the error,
    shows the error toast, and ends with the loading flag off. *)
Theorem failed_invoice_fetch_keeps_the_rows :
  forall (API_URL : string) (getItem : string -> option string)
         (reply : Reply (list Invoice.t)) (st : State),
    noToken (getItem "token") = false ->
    reply <> Pending ->
    (forall r, reply = Replied r ->
               Net.status r <> 304
               /\ (ok r = true -> exists e, payload r = NotJson e)) ->
    let st' := run (calls (fetchInvoices API_URL getItem reply)) st in
    invoices st' = invoices st
    /\ error st' <> None
    /\ toastMessage st' = Some "Failed to fetch invoices."
    /\ toastType st' = error_toast
    /\ loading st' = false.
Proof.
  intros API_URL getItem reply st Htok Hp Hfail st'. unfold st'.
  destruct reply as [| e | [o status text body]];
    [contradiction Hp; reflexivity | |].
  - unfold fetchInvoices. rewrite Htok.
    destruct st; vm_compute; repeat split; discriminate.
  - destruct (Hfail _ eq_refl) as [Hne Hbody]. cbn in Hne, Hbody.
    rewrite (InvoiceScreenProperties.fetchInvoices_status
               API_URL getItem o status text body Hne).
    unfold fetchInvoices. rewrite Htok.
    destruct o.
    + destruct (Hbody eq_refl) as [e ->].
      destruct st; vm_compute; repeat split; discriminate.
    + destruct body; destruct st; vm_compute; repeat split; discriminate.
Qed.

Lemma failed_invoice_fetch_keeps_the_rows_witness :
  let st' :=
    run (calls (fetchInvoices Sample.apiUrl Sample.getToken
                              (Rejected "Failed to fetch")))
        Sample.invoiceScreen in
  invoices st' = Some [Sample.invoice]
  /\ error st' <> None
  /\ toastMessage st' = Some "Failed to fetch invoices."
  /\ toastType st' = error_toast
  /\ loading st' = false.
Proof.
  apply (failed_invoice_fetch_keeps_the_rows
           Sample.apiUrl Sample.getToken (Rejected "Failed to fetch")
           Sample.invoiceScreen).
  - reflexivity.
  - discriminate.
  - intros r H. discriminate H.
Defined.

Lemma or_else_empty (s : string) : JS.or_else (Some s) "" = s.
Proof. destruct s; reflexivity. Qed.

(** X28: the edit button of a row opens the dialog on the email, the
    phone, the amount, the day of the due date and the description of
    that invoice. Saving it as it opened, when the form passes the checks,
    sends a [PATCH] to [/invoices/<id>] with the email, the phone and the
    description as they were, the amount as [parseFloat] reads it and the
    status unchanged; the date of the invoice is replaced by the time of
    the click. *)
Theorem untouched_invoice_edit_resets_the_date :
  forall (API_URL : string) (getItem : string -> option string)
         (toISOString : string -> option string) (nowISOString : string)
         (invoice : Invoice.t) (d : string) (st : State)
         (reply : Reply unit) (listReply : Reply (list Invoice.t)),
    modal st = None ->
    validForm (mountModal (Some invoice)) = true ->
    noToken (getItem "token") = false ->
    toISOString (JS.split_head "T" (Invoice.due_date invoice)) = Some d ->
    let st1 := run (calls (handleEditClick invoice)) st in
    showModal st1 = true
    /\ modal st1 = Some (mountModal (Some invoice))
    /\ hd_error (requests (calls (clickSaveInvoice
                                    API_URL getItem toISOString
                                    nowISOString st1 reply listReply)))
       = Some {| Net.method := PATCH;
                 url := API_URL ++ "/invoices/" ++ Invoice.id invoice;
                 headers := [("Content-Type", "application/json");
                             ("Authorization", bearer (getItem "token"))];
                 body :=
                   Some [("clientEmail",
                          JString (Invoice.client_email invoice));
                         ("clientPhone",
                          JString (Invoice.client_phone invoice));
                         ("amount",
                          JNumber (JS.parseFloat (Invoice.amount invoice)));
                         ("status", JString (Invoice.status invoice));
                         ("description",
                          JString (JS.or_else (Invoice.description invoice)
                                              ""));
                         ("date", JString nowISOString);
                         ("dueDate", JString d)] |}.
Proof.
  intros API_URL getItem toISO nowISO invoice d st reply listReply
         Hmodal Hvalid Htok Hd st1.
  assert (H1 : st1 = mkState (invoices st) (searchTerm st) (statusFilter st)
                             true (Some invoice) (viewingInvoice st)
                             (showConfirmModal st) (confirmAction st)
                             (loading st) (error st) (toastMessage st)
                             (toastType st)
                             (Some (mountModal (Some invoice)))).
  { destruct st as [? ? ? ? ? ? ? ? ? ? ? ? md]. cbn in Hmodal. subst md.
    reflexivity. }
  rewrite H1. clear H1 st1.
  split; [reflexivity |]. split; [reflexivity |].
  unfold clickSaveInvoice. cbn [modal showModal editingInvoice].
  destruct (InvoiceScreenProperties.validForm_checks _ Hvalid)
    as (V1 & V2 & V3).
  unfold click. cbn [mountModal modalLoading andb negb].
  unfold handleSaveInvoice, handleInvoiceSaved.
  rewrite V1, V2, V3, Htok.
  cbn [mountModal dueDate clientEmail clientPhone amount description
       option_map negb].
  rewrite Hd, !or_else_empty.
  generalize (JS.parseFloat (Invoice.amount invoice)); intro parsed.
  generalize (JS.or_else (Invoice.description invoice) ""); intro text.
  generalize (bearer (getItem "token")); intro token.
  mutation_cases reply;
    try (InvoiceScreenProperties.list_reply_cases API_URL getItem listReply;
         unfold fetchInvoices; rewrite Htok);
    vm_compute; reflexivity.
Qed.

Lemma untouched_invoice_edit_resets_the_date_witness :
  let st1 := run (calls (handleEditClick Sample.invoice)) initialState in
  showModal st1 = true
  /\ modal st1 = Some (mountModal (Some Sample.invoice))
  /\ hd_error (requests (calls (clickSaveInvoice
                                  Sample.apiUrl Sample.getToken
                                  Sample.isoDate Sample.clickTime st1
                                  Sample.created Sample.emptyList)))
     = Some {| Net.method := PATCH;
               url := Sample.apiUrl ++ "/invoices/" ++ "INV-2025-0007";
               headers := [("Content-Type", "application/json");
                           ("Authorization",
                            bearer (Sample.getToken "token"))];
               body :=
                 Some [("clientEmail", JString "client@everpower.com");
                       ("clientPhone", JString "0771234567");
                       ("amount", JNumber (JS.parseFloat "900.00"));
                       ("status", JString "PENDING");
                       ("description", JString "");
                       ("date", JString Sample.clickTime);
                       ("dueDate", JString "2024-12-01T00:00:00.000Z")] |}.
Proof.
  apply (untouched_invoice_edit_resets_the_date
           Sample.apiUrl Sample.getToken Sample.isoDate Sample.clickTime
           Sample.invoice "2024-12-01T00:00:00.000Z" initialState
           Sample.created Sample.emptyList);
    reflexivity.
Defined.

End InvoiceDialogProperties.
